(** * USB transport backends of MSPDebug: a shallow embedding

    The transport layer of the debugger (HID bootloader framing, TI3410
    firmware push, CDC-ACM, CP210x and FTDI serial bridges) translated
    function by function from the C sources, with the USB stack made an
    explicit environment, and the properties of the transport contract
    stated over that translation.

    Conventions.  A C [int], [uint8_t], [uint16_t] or [unsigned int] is a
    [Z]; where the C type wraps, the wrap is written out ([uint8],
    [uint16], [uint32]).  A byte buffer is a [list Z]; a pointer and a
    length are the list of bytes they denote.  A function that returns
    [0], [-1] or a count returns that [Z]; a structure updated in place
    is returned next to it.  Messages, delays, [malloc]/[free] of the
    instance and [libusb_init] are left out.  The sources are read as
    built on Linux ([__linux__] defined). *)

From Stdlib Require Import String Ascii.
From Stdlib Require Import ZArith List Lia Bool.
Import ListNotations.
Open Scope Z_scope.

(* ================================================================= *)
(** ** C integer and buffer helpers *)

Definition uint8 (x : Z) : Z := x mod 256.
Definition uint16 (x : Z) : Z := x mod 65536.
Definition uint32 (x : Z) : Z := x mod 4294967296.

(** The range of a C [int] (limits.h). *)
Definition INT_MAX : Z := 2147483647.
Definition INT_MIN : Z := -2147483648.

(** [x] is a value an [int] holds. *)
Definition fits_int (x : Z) : Prop := INT_MIN <= x <= INT_MAX.

(** [memset(buf, c, n)] on an array of [n] bytes. *)
Definition memset (c : Z) (n : nat) : list Z := repeat c n.

(** [memcpy(dst + off, src, length src)]: the bytes of [dst] from [off] on
    are replaced by [src]; the array keeps its length when the copy is in
    bounds. *)
Definition memcpy (dst : list Z) (off : nat) (src : list Z) : list Z :=
  firstn off dst ++ src ++ skipn (off + length src) dst.

(** [dst[i] = v]. *)
Definition store (dst : list Z) (i : nat) (v : Z) : list Z :=
  firstn i dst ++ v :: skipn (S i) dst.

(** [buf[i]] of a byte array. *)
Definition load (buf : list Z) (i : nat) : Z := nth i buf 0.

(* ================================================================= *)
(** ** transport/ti3410.c: firmware image *)

Module Ti3410Fw.

Definition TI_FIRMWARE_BUF_SIZE : Z := 16284.

(** [struct binfile_chunk]: a start address and [len] bytes of data. *)
Record binfile_chunk : Type := mk_chunk {
  addr : Z;
  data : list Z
}.

Definition len (ch : binfile_chunk) : Z := Z.of_nat (length (data ch)).

(** [struct firmware]. *)
Record firmware : Type := mk_firmware {
  buf : list Z;
  size : Z
}.

(** The bytes of the buffer that belong to the image: [buf[0 .. size)]. *)
Definition image (f : firmware) : list Z :=
  firstn (Z.to_nat (size f)) (buf f).

(** What [do_extract] reports: [0], or [-1] after one of its two
    messages. *)
Inductive extract_status : Type :=
| extract_ok
| firmware_gap
| maximum_firmware_size_exceeded.

Definition rc_of_status (s : extract_status) : Z :=
  match s with extract_ok => 0 | _ => -1 end.

(** [do_extract]: the chunk callback.  The firmware is updated in place;
    on failure it is left as it was. *)
Definition do_extract (f : firmware) (ch : binfile_chunk)
  : extract_status * firmware :=
  if negb (size f =? addr ch) then (firmware_gap, f)
  else if uint32 (size f + len ch) >? TI_FIRMWARE_BUF_SIZE
  then (maximum_firmware_size_exceeded, f)
  else (extract_ok,
        {| buf := memcpy (buf f) (Z.to_nat (size f)) (data ch);
           size := uint32 (size f + len ch) |}).

(** Modelled from the spec: the Intel-HEX decoder [ihex_extract] is an
    external collaborator (ihex.h); it hands the chunks of the file to the
    callback in file order and stops at the first chunk the callback
    rejects. *)
Fixpoint ihex_extract (chunks : list binfile_chunk) (f : firmware)
  : extract_status * firmware :=
  match chunks with
  | [] => (extract_ok, f)
  | ch :: rest =>
      match do_extract f ch with
      | (extract_ok, f') => ihex_extract rest f'
      | failed => failed
      end
  end.

(** [memset(f, 0, sizeof( *f))] of [load_firmware]. *)
Definition empty_firmware : firmware :=
  {| buf := memset 0 (Z.to_nat TI_FIRMWARE_BUF_SIZE); size := 0 |}.

(** [load_firmware], once the file is found and checked: clear the
    structure and run the decoder over it. *)
Definition load_firmware (chunks : list binfile_chunk)
  : extract_status * firmware :=
  ihex_extract chunks empty_firmware.

(** The checksum loop of [prepare_firmware]:
    [for (i = 3; i < f->size; i++) cksum += f->buf[i]] on a [uint8_t]. *)
Definition cksum_loop (bytes : list Z) : Z :=
  fold_left (fun cksum b => uint8 (cksum + b)) bytes 0.

(** [prepare_firmware]. *)
Definition prepare_firmware (f : firmware) : firmware :=
  let real_size := uint16 (size f - 3) in
  let cksum :=
    cksum_loop (firstn (Z.to_nat (size f - 3)) (skipn 3 (buf f))) in
  let b0 := store (buf f) 0 (uint8 (Z.land real_size 255)) in
  let b1 := store b0 1 (uint8 (Z.shiftr real_size 8)) in
  let b2 := store b1 2 cksum in
  {| buf := b2; size := size f |}.

(** The chunk contract in the spec's words: contiguous and ascending,
    each chunk starting where the previous one ended, the first at [a]. *)
Fixpoint contiguous_from (a : Z) (chunks : list binfile_chunk) : Prop :=
  match chunks with
  | [] => True
  | ch :: rest => addr ch = a /\ contiguous_from (a + len ch) rest
  end.

Definition total_len (chunks : list binfile_chunk) : Z :=
  Z.of_nat (length (concat (map data chunks))).

(** Sum of a byte sequence, unreduced. *)
Definition sum_bytes (bytes : list Z) : Z := fold_right Z.add 0 bytes.

(** Finalization in the spec's words: a 3-byte header is put in front of
    the accumulated image [f], giving the finished image [f'], whose first
    two bytes are the little-endian encoding of [L - 3] and whose third
    byte is the 8-bit sum of the bytes after offset 3, [L] being the
    decoded length. *)
Definition header_prepended (f f' : firmware) : Prop :=
  exists hdr : list Z,
    length hdr = 3%nat /\ image f' = hdr ++ image f.

Definition finalized_as_specified (f f' : firmware) : Prop :=
  header_prepended f f' /\
  load (image f') 0 = (size f - 3) mod 256 /\
  load (image f') 1 = (size f - 3) / 256 /\
  load (image f') 2 = sum_bytes (skipn 3 (image f')) mod 256.

End Ti3410Fw.

(* ================================================================= *)
(** ** The USB stack as an explicit environment

    Every call into libusb (and [time]) is answered by the environment.
    The answer may depend on the call and on how many calls were made
    before it, so any deterministic device and host behaviour is an
    environment.  Calls are logged in order with their return codes; the
    log is the observable behaviour of a transport on the bus. *)

Module Libusb.

Definition LIBUSB_ERROR_TIMEOUT : Z := -7.

(** usb.h / libusb.h constants used by the interface scans. *)
Definition USB_CLASS_HID : Z := 3.
Definition USB_ENDPOINT_TYPE_MASK : Z := 3.
Definition USB_ENDPOINT_TYPE_BULK : Z := 2.
Definition USB_ENDPOINT_DIR_MASK : Z := 128.
Definition USB_TYPE_VENDOR : Z := 64.
Definition USB_RECIP_DEVICE : Z := 0.

(** [struct libusb_device_handle *]; [0] is [NULL]. *)
Definition usb_handle : Type := Z.

Record endpoint_descriptor : Type := mk_endpoint {
  bmAttributes : Z;
  bEndpointAddress : Z
}.

(** [altsetting[0]] of an interface. *)
Record interface_descriptor : Type := mk_interface {
  bInterfaceNumber : Z;
  bInterfaceClass : Z;
  endpoint : list endpoint_descriptor
}.

(** Configuration 0 of a device; [bNumInterfaces] is the length of
    [interface]. *)
Record config_descriptor : Type := mk_config {
  bConfigurationValue : Z;
  interface : list interface_descriptor
}.

(** [struct libusb_device], with the descriptor fields the transports
    read. *)
Record libusb_device : Type := mk_device {
  bus_number : Z;
  device_address : Z;
  idVendor : Z;
  idProduct : Z;
  bNumConfigurations : Z;
  iSerialNumber : Z;
  serial_string : string;
  config : config_descriptor
}.

(** A call into the USB stack.  An outbound transfer carries the bytes
    handed to the stack, an inbound one the size of the buffer offered. *)
Inductive call : Type :=
| c_get_device_list
| c_get_device_descriptor (dev : libusb_device)
| c_get_config_descriptor (dev : libusb_device)
| c_get_string_descriptor_ascii (h : usb_handle) (index : Z)
| c_open (dev : libusb_device)
| c_close (h : usb_handle)
| c_unref_device (dev : libusb_device)
| c_unref_device_of (h : usb_handle)
| c_kernel_driver_active (h : usb_handle) (iface : Z)
| c_detach_kernel_driver (h : usb_handle) (iface : Z)
| c_set_configuration (h : usb_handle) (cfg : Z)
| c_claim_interface (h : usb_handle) (iface : Z)
| c_release_interface (h : usb_handle) (iface : Z)
| c_control_transfer (h : usb_handle)
    (bmRequestType bRequest wValue wIndex : Z) (data : list Z) (timeout : Z)
| c_bulk_out (h : usb_handle) (ep : Z) (data : list Z) (timeout : Z)
| c_bulk_in (h : usb_handle) (ep : Z) (length : Z) (timeout : Z)
| c_interrupt_in (h : usb_handle) (ep : Z) (length : Z) (timeout : Z)
| c_clear_halt (h : usb_handle) (ep : Z)
| c_reset_device (h : usb_handle)
| c_time.

Inductive event : Type := Ev (c : call) (rc : Z).

(** The log of calls made so far, oldest first. *)
Definition world : Type := list event.

Record usb_env : Type := mk_env {
  (** return code of the [n]-th call (for [c_time], the clock) *)
  answer : nat -> call -> Z;
  (** bytes the device delivers to the [n]-th call, when inbound *)
  inbound : nat -> call -> list Z;
  (** bytes the device takes from the [n]-th call, when outbound *)
  accepted : nat -> call -> Z;
  (** devices enumeration finds at the [n]-th call *)
  bus : nat -> list libusb_device
}.

(** Computations over the log. *)
Definition M (A : Type) : Type := world -> option (A * world).

Definition ret {A : Type} (a : A) : M A := fun w => Some (a, w).

Definition bind {A B : Type} (m : M A) (k : A -> M B) : M B :=
  fun w => match m w with
           | Some (a, w') => k a w'
           | None => None
           end.

(** No result: a loop that was still running when its fuel ran out, or a
    step C leaves undefined. *)
Definition stuck {A : Type} : M A := fun _ => None.

Declare Scope usb_scope.
Delimit Scope usb_scope with usb.
Notation "x <- c ;; k" := (bind c (fun x => k))
  (at level 61, c at next level, right associativity) : usb_scope.
Notation "' p <- c ;; k" := (bind c (fun x => match x with p => k end))
  (at level 61, p pattern, c at next level, right associativity) : usb_scope.
Notation "c ;;; k" := (bind c (fun _ => k))
  (at level 61, right associativity) : usb_scope.

Section Stack.
Variable env : usb_env.

(** A call answered by a return code. *)
Definition libusb (c : call) : M Z :=
  fun w => let rc := answer env (length w) c in
           Some (rc, w ++ [Ev c rc]).

(** The handle [libusb_open] stores through its out parameter when the
    call at position [n] of the log succeeds. *)
Definition handle_of_open (n : nat) : usb_handle := Z.of_nat n + 1.

(** [libusb_open(dev, &h)]: on success [h] receives a fresh handle, on
    failure it keeps the value it had. *)
Definition libusb_open (dev : libusb_device) (h : usb_handle)
  : M (Z * usb_handle) :=
  fun w => let rc := answer env (length w) (c_open dev) in
           Some ((rc, if rc =? 0 then handle_of_open (length w) else h),
                 w ++ [Ev (c_open dev) rc]).

(** [libusb_get_device_list]. *)
Definition libusb_get_device_list : M (list libusb_device) :=
  fun w => Some (bus env (length w), w ++ [Ev c_get_device_list 0]).

(** Inbound bulk transfer into a buffer of [len] bytes: the return code
    and the octets received, never more than the buffer holds.  The
    number of bytes transferred that the call reports is the length of
    the list. *)
Definition libusb_bulk_in (h : usb_handle) (ep len timeout : Z)
  : M (Z * list Z) :=
  fun w => let c := c_bulk_in h ep len timeout in
           let rc := answer env (length w) c in
           Some ((rc, map uint8
                          (firstn (Z.to_nat len) (inbound env (length w) c))),
                 w ++ [Ev c rc]).

(** Outbound bulk transfer of [data]: the return code and the number of
    bytes taken, between 0 and the number offered. *)
Definition libusb_bulk_out (h : usb_handle) (ep : Z) (data : list Z)
           (timeout : Z) : M (Z * Z) :=
  fun w => let c := c_bulk_out h ep data timeout in
           let rc := answer env (length w) c in
           Some ((rc, Z.max 0 (Z.min (Z.of_nat (length data))
                                     (accepted env (length w) c))),
                 w ++ [Ev c rc]).

(** [time(NULL)]. *)
Definition time : M Z := libusb c_time.

End Stack.

(** Running a computation from an empty log. *)
Definition run {A : Type} (m : M A) : option (A * world) := m [].

(** The value a computation returns, without the log. *)
Definition fst_of {A : Type} (r : option (A * world)) : option A :=
  match r with
  | Some (a, _) => Some a
  | None => None
  end.

(** Resource accounting over a log.  A handle is opened by the successful
    [c_open] at position [n] and closed by [c_close]; an interface is
    claimed by a successful [c_claim_interface] and released by
    [c_release_interface]. *)
Fixpoint opened_from (n : nat) (w : world) : list usb_handle :=
  match w with
  | [] => []
  | Ev (c_open _) rc :: rest =>
      if rc =? 0 then handle_of_open n :: opened_from (S n) rest
      else opened_from (S n) rest
  | _ :: rest => opened_from (S n) rest
  end.

Definition opened (w : world) : list usb_handle := opened_from 0 w.

Fixpoint closed (w : world) : list usb_handle :=
  match w with
  | [] => []
  | Ev (c_close h) _ :: rest => h :: closed rest
  | _ :: rest => closed rest
  end.

Fixpoint claimed (w : world) : list (usb_handle * Z) :=
  match w with
  | [] => []
  | Ev (c_claim_interface h i) rc :: rest =>
      if rc =? 0 then (h, i) :: claimed rest else claimed rest
  | _ :: rest => claimed rest
  end.

Fixpoint released (w : world) : list (usb_handle * Z) :=
  match w with
  | [] => []
  | Ev (c_release_interface h i) _ :: rest => (h, i) :: released rest
  | _ :: rest => released rest
  end.

Definition pair_eqb (a b : usb_handle * Z) : bool :=
  (fst a =? fst b) && (snd a =? snd b).

(** Handles opened and never closed; interfaces claimed and never
    released. *)
Definition dangling_handles (w : world) : list usb_handle :=
  filter (fun h => negb (existsb (Z.eqb h) (closed w))) (opened w).

Definition dangling_claims (w : world) : list (usb_handle * Z) :=
  filter (fun c => negb (existsb (pair_eqb c) (released w))) (claimed w).

(** A computation that never releases an interface. *)
Definition never_releases {A : Type} (m : M A) : Prop :=
  forall (w w' : world) (a : A),
    m w = Some (a, w') -> released w' = released w.

(** Counting over a log: handles opened and closed, interfaces claimed
    and released. *)
Definition is_open_ok (e : event) : bool :=
  match e with Ev (c_open _) rc => rc =? 0 | _ => false end.

Definition is_close (e : event) : bool :=
  match e with Ev (c_close _) _ => true | _ => false end.

Definition is_claim_ok (e : event) : bool :=
  match e with Ev (c_claim_interface _ _) rc => rc =? 0 | _ => false end.

Definition is_release (e : event) : bool :=
  match e with Ev (c_release_interface _ _) _ => true | _ => false end.

Definition n_opened (w : world) : nat := length (filter is_open_ok w).
Definition n_closed (w : world) : nat := length (filter is_close w).
Definition n_claimed (w : world) : nat := length (filter is_claim_ok w).
Definition n_released (w : world) : nat := length (filter is_release w).

(** What a computation that took the log from [w] to [w'] added to the
    four counts. *)
Definition log_delta (w w' : world) (o c k r : nat) : Prop :=
  n_opened w' = (n_opened w + o)%nat /\
  n_closed w' = (n_closed w + c)%nat /\
  n_claimed w' = (n_claimed w + k)%nat /\
  n_released w' = (n_released w + r)%nat.

(** A computation that opens, closes, claims and releases nothing. *)
Definition quiet {A : Type} (m : M A) : Prop :=
  forall (w w' : world) (a : A),
    m w = Some (a, w') -> log_delta w w' 0 0 0 0.

(** A computation that closes every handle it opens and claims and
    releases nothing. *)
Definition probing {A : Type} (m : M A) : Prop :=
  forall (w w' : world) (a : A),
    m w = Some (a, w') -> exists o : nat, log_delta w w' o o 0 0.

Definition call_of (e : event) : call := match e with Ev c _ => c end.

(** The calls a computation added to the log [w], given the log [w'] it
    left. *)
Definition issued (w w' : world) : list call :=
  map call_of (skipn (length w) w').

(** The bytes the device took from the outbound transfer at position
    [n] of the log. *)
Definition taken (env : usb_env) (n : nat) (c : call) : list Z :=
  match c with
  | c_bulk_out _ _ data _ =>
      firstn (Z.to_nat (Z.max 0 (Z.min (Z.of_nat (length data))
                                       (accepted env n c)))) data
  | _ => []
  end.

(** All bytes the device took from the events [evs] that start at
    position [n] of the log, in order. *)
Fixpoint delivered_from (env : usb_env) (n : nat) (evs : list event)
  : list Z :=
  match evs with
  | [] => []
  | e :: rest => taken env n (call_of e) ++ delivered_from env (S n) rest
  end.

(** The sizes of the outbound bulk transfers among the events [evs], in
    order. *)
Definition bulk_out_sizes (evs : list event) : list Z :=
  flat_map (fun e => match call_of e with
                     | c_bulk_out _ _ data _ => [Z.of_nat (length data)]
                     | _ => []
                     end) evs.

Local Open Scope usb_scope.

(** The loop the five [send] functions share: offer what is left of the
    data until nothing is left; a return code other than 0 and the
    timeout ends it with -1. *)
Fixpoint write_all (env : usb_env) (fuel : nat) (h : usb_handle)
         (ep timeout : Z) (data : list Z) : M Z :=
  if Z.of_nat (length data) =? 0 then ret 0
  else
    match fuel with
    | O => stuck
    | S fuel' =>
        '(rc, sent) <- libusb_bulk_out env h ep data timeout ;;
        if negb (rc =? 0) && negb (rc =? LIBUSB_ERROR_TIMEOUT)
        then ret (-1)
        else write_all env fuel' h ep timeout (skipn (Z.to_nat sent) data)
    end.

(** The loop the three [flush] functions share: read 64 bytes with a
    100 ms timeout while the transfer returns a non-zero code. *)
Fixpoint drain (env : usb_env) (fuel : nat) (h : usb_handle) (ep : Z)
  : M unit :=
  match fuel with
  | O => stuck
  | S fuel' =>
      '(rc, _) <- libusb_bulk_in env h ep 64 100 ;;
      if negb (rc =? 0) then drain env fuel' h ep else ret tt
  end.

(** Endpoint [a] of [desc] is a bulk endpoint towards the host
    ([bulk_in_at]) or towards the device ([bulk_out_at]). *)
Definition is_bulk (ep : endpoint_descriptor) : Prop :=
  Z.land (bmAttributes ep) USB_ENDPOINT_TYPE_MASK = USB_ENDPOINT_TYPE_BULK.

Definition bulk_in_at (desc : interface_descriptor) (a : Z) : Prop :=
  exists ep, In ep (endpoint desc) /\ is_bulk ep /\
             bEndpointAddress ep = a /\
             Z.land a USB_ENDPOINT_DIR_MASK <> 0.

Definition bulk_out_at (desc : interface_descriptor) (a : Z) : Prop :=
  exists ep, In ep (endpoint desc) /\ is_bulk ep /\
             bEndpointAddress ep = a /\
             Z.land a USB_ENDPOINT_DIR_MASK = 0.

(** An interface a scan for class [class] accepts: of that class, with a
    bulk endpoint in each direction. *)
Definition usable (class : Z) (desc : interface_descriptor) : Prop :=
  bInterfaceClass desc = class /\
  (exists a, bulk_in_at desc a) /\ (exists a, bulk_out_at desc a).

(** Endpoint addresses are octets, as [bEndpointAddress] is a
    [uint8_t]. *)
Definition octet_addresses (desc : interface_descriptor) : Prop :=
  Forall (fun ep => 0 <= bEndpointAddress ep < 256) (endpoint desc).

End Libusb.


(* ================================================================= *)
(** ** usbutil.c: locating a device *)

Module Usbutil.
Import Libusb.
Local Open Scope usb_scope.

(** The delimiter set of [strtok(buf, ":\t\r\n")]. *)
Definition is_delim (c : ascii) : bool :=
  existsb (Ascii.eqb c)
          [":"%char; ascii_of_nat 9; ascii_of_nat 13; ascii_of_nat 10].

Fixpoint skip_delims (s : string) : string :=
  match s with
  | EmptyString => EmptyString
  | String c r => if is_delim c then skip_delims r else s
  end.

(** The token at the head of [s] and what follows its closing
    delimiter. *)
Fixpoint take_token (s : string) : string * string :=
  match s with
  | EmptyString => (EmptyString, EmptyString)
  | String c r =>
      if is_delim c then (EmptyString, r)
      else let (t, rest) := take_token r in (String c t, rest)
  end.

(** [strtok]: [None] is [NULL]; otherwise the token and the saved
    position for the next call. *)
Definition strtok (s : string) : option (string * string) :=
  match skip_delims s with
  | EmptyString => None
  | s' => Some (take_token s')
  end.

Definition isspace (c : ascii) : bool :=
  existsb (Ascii.eqb c)
          [" "%char; ascii_of_nat 9; ascii_of_nat 10; ascii_of_nat 11;
           ascii_of_nat 12; ascii_of_nat 13].

Fixpoint skip_spaces (s : string) : string :=
  match s with
  | EmptyString => EmptyString
  | String c r => if isspace c then skip_spaces r else s
  end.

Definition digit_of (c : ascii) : option Z :=
  let n := Z.of_nat (nat_of_ascii c) in
  if (48 <=? n) && (n <=? 57) then Some (n - 48) else None.

Fixpoint atoi_digits (acc : Z) (s : string) : Z :=
  match s with
  | EmptyString => acc
  | String c r =>
      match digit_of c with
      | Some d => atoi_digits (10 * acc + d) r
      | None => acc
      end
  end.

(** [atoi]: the number the leading digits denote.  C defines [atoi] only
    when that number fits an [int] ([fits_int]); what is stated about
    the number read from a string assumes it does. *)
Definition atoi (s : string) : Z :=
  match skip_spaces s with
  | String "-"%char r => - atoi_digits 0 r
  | String "+"%char r => atoi_digits 0 r
  | s' => atoi_digits 0 s'
  end.

Definition tolower (c : ascii) : ascii :=
  let n := nat_of_ascii c in
  if ((65 <=? n) && (n <=? 90))%nat then ascii_of_nat (n + 32) else c.

Fixpoint lowercase (s : string) : string :=
  match s with
  | EmptyString => EmptyString
  | String c r => String (tolower c) (lowercase r)
  end.

(** [strcasecmp(a, b) == 0]. *)
Definition strcasecmp_eq (a b : string) : bool :=
  String.eqb (lowercase a) (lowercase b).

(** The first [n] characters of [s]: what [strncpy] or a bounded [memcpy]
    into a zeroed array leaves as the stored C string. *)
Definition prefix_chars (n : nat) (s : string) : string := substring 0 n s.

(** A string without any of the [strtok] delimiters. *)
Fixpoint no_delim (s : string) : bool :=
  match s with
  | EmptyString => true
  | String c r => negb (is_delim c) && no_delim r
  end.

(** The devices of [devs] with the wanted vendor and product id, in
    enumeration order. *)
Definition id_matches (vendor product : Z) (devs : list libusb_device)
  : list libusb_device :=
  filter (fun d => (idVendor d =? vendor) && (idProduct d =? product)) devs.

(** The last element of a list, if any. *)
Definition last_of {A : Type} (l : list A) : option A :=
  last (map Some l) None.

Section WithEnv.
Variable env : usb_env.

(** [read_serial]: the status and the serial string read. *)
Definition read_serial (dev : libusb_device) (max_len : nat)
  : M (Z * string) :=
  '(rc, dh) <- libusb_open env dev 0 ;;
  if negb (rc =? 0) then ret (-1, EmptyString)
  else
    rc <- libusb env (c_get_device_descriptor dev) ;;
    if negb (rc =? 0) then
      libusb env (c_close dh) ;;; ret (-1, EmptyString)
    else
      rc <- libusb env (c_get_string_descriptor_ascii dh (iSerialNumber dev)) ;;
      if rc <? 0 then
        libusb env (c_close dh) ;;; ret (-1, EmptyString)
      else
        libusb env (c_close dh) ;;;
        ret (0, prefix_chars (max_len - 1) (serial_string dev)).

(** The device loop of [usbutil_find_by_id]; [found] is the last
    match. *)
Fixpoint find_by_id_loop (vendor product : Z)
         (requested_serial : option string)
         (devs : list libusb_device) (found : option libusb_device)
  : M (option libusb_device) :=
  match devs with
  | [] => ret found
  | dev :: rest =>
      rc <- libusb env (c_get_device_descriptor dev) ;;
      if negb (rc =? 0) then
        find_by_id_loop vendor product requested_serial rest found
      else if (idVendor dev =? vendor) && (idProduct dev =? product) then
        match requested_serial with
        | None =>
            find_by_id_loop vendor product requested_serial rest (Some dev)
        | Some wanted =>
            '(r, buf) <- read_serial dev 128 ;;
            if (r =? 0) && strcasecmp_eq wanted buf then
              find_by_id_loop vendor product requested_serial rest (Some dev)
            else
              libusb env (c_unref_device dev) ;;;
              find_by_id_loop vendor product requested_serial rest found
        end
      else find_by_id_loop vendor product requested_serial rest found
  end.

(** [usbutil_find_by_id]; [None] is [NULL]. *)
Definition usbutil_find_by_id (vendor product : Z)
           (requested_serial : option string) : M (option libusb_device) :=
  devs <- libusb_get_device_list env ;;
  find_by_id_loop vendor product requested_serial devs None.

Fixpoint find_by_loc_loop (target_bus target_dev : Z)
         (devs : list libusb_device) (found : option libusb_device)
  : M (option libusb_device) :=
  match devs with
  | [] => ret found
  | dev :: rest =>
      if (bus_number dev =? target_bus) && (device_address dev =? target_dev)
      then find_by_loc_loop target_bus target_dev rest (Some dev)
      else
        libusb env (c_unref_device dev) ;;;
        find_by_loc_loop target_bus target_dev rest found
  end.

(** [usbutil_find_by_loc]; the argument [None] is a [NULL] pointer. *)
Definition usbutil_find_by_loc (loc : option string)
  : M (option libusb_device) :=
  match loc with
  | None => ret None
  | Some l =>
      let buf := prefix_chars 63 l in
      match strtok buf with
      | None => ret None
      | Some (bus_text, saved) =>
          match strtok saved with
          | None => ret None
          | Some (dev_text, _) =>
              let target_bus := atoi bus_text in
              let target_dev := atoi dev_text in
              devs <- libusb_get_device_list env ;;
              find_by_loc_loop target_bus target_dev devs None
          end
      end
  end.

End WithEnv.
End Usbutil.


(* ================================================================= *)
(** ** transport/bslhid.c: the HID framing backend (Linux build) *)

Module Bslhid.
Import Libusb Usbutil.
Local Open Scope usb_scope.

Definition BSLHID_VID : Z := 8263.      (* 0x2047 *)
Definition BSLHID_PID : Z := 512.       (* 0x0200 *)
Definition BSLHID_CLASS : Z := USB_CLASS_HID.
Definition BSLHID_XFER_SIZE : Z := 64.
Definition BSLHID_MTU : Z := BSLHID_XFER_SIZE - 2.
Definition BSLHID_HEADER : Z := 63.     (* 0x3F *)
Definition BSLHID_TIMEOUT : Z := 5000.

(** [struct bslhid_transport]; [path] and [serial] are the C strings held
    by the two character arrays. *)
Record bslhid_transport : Type := mk_tr {
  cfg_number : Z;
  int_number : Z;
  handle : usb_handle;
  in_ep : Z;
  out_ep : Z;
  path : string;
  serial : string
}.

Definition set_handle (tr : bslhid_transport) (h : usb_handle) :=
  mk_tr (cfg_number tr) (int_number tr) h (in_ep tr) (out_ep tr)
        (path tr) (serial tr).

Definition set_eps (tr : bslhid_transport) (i o : Z) :=
  mk_tr (cfg_number tr) (int_number tr) (handle tr) i o
        (path tr) (serial tr).

Definition set_numbers (tr : bslhid_transport) (cfg int : Z) :=
  mk_tr cfg int (handle tr) (in_ep tr) (out_ep tr) (path tr) (serial tr).

(** The endpoint loop of [find_interface], from [in_ep = out_ep = -1]. *)
Definition scan_endpoints (eps : list endpoint_descriptor) : Z * Z :=
  fold_left
    (fun (io : Z * Z) (ep : endpoint_descriptor) =>
       let type := Z.land (bmAttributes ep) USB_ENDPOINT_TYPE_MASK in
       let addr := bEndpointAddress ep in
       if negb (type =? USB_ENDPOINT_TYPE_BULK) then io
       else if negb (Z.land addr USB_ENDPOINT_DIR_MASK =? 0)
            then (addr, snd io)
            else (fst io, addr))
    eps (-1, -1).

(** The interface loop of [find_interface], at interface index [i]. *)
Fixpoint find_interface_loop (cfgval : Z) (i : Z)
         (intfs : list interface_descriptor) (tr : bslhid_transport)
  : Z * bslhid_transport :=
  match intfs with
  | [] => (-1, tr)
  | desc :: rest =>
      if negb (bInterfaceClass desc =? BSLHID_CLASS)
      then find_interface_loop cfgval (i + 1) rest tr
      else
        let io := scan_endpoints (endpoint desc) in
        let tr := set_eps tr (fst io) (snd io) in
        if (in_ep tr >=? 0) && (out_ep tr >=? 0)
        then (0, set_numbers tr cfgval i)
        else find_interface_loop cfgval (i + 1) rest tr
  end.

(** The frame [bslhid_send] assembles in its local [outbuf]. *)
Definition outbuf_of (data : list Z) : list Z :=
  let outbuf := memset 172 (Z.to_nat BSLHID_XFER_SIZE) in
  let outbuf := store outbuf 0 BSLHID_HEADER in
  let outbuf := store outbuf 1 (uint8 (Z.of_nat (length data))) in
  memcpy outbuf 2 data.

Section WithEnv.
Variable env : usb_env.

Definition find_interface (tr : bslhid_transport) (dev : libusb_device)
  : M (Z * bslhid_transport) :=
  rc <- libusb env (c_get_config_descriptor dev) ;;
  if negb (rc =? 0) then ret (-1, tr)
  else ret (find_interface_loop (bConfigurationValue (config dev)) 0
                                (interface (config dev)) tr).

Definition open_device (tr : bslhid_transport) (dev : libusb_device)
  : M (Z * bslhid_transport) :=
  rc <- libusb env (c_get_device_descriptor dev) ;;
  if negb (rc =? 0) then ret (-1, tr)
  else
    '(r, tr) <- find_interface tr dev ;;
    if negb (r =? 0) then ret (-1, tr)
    else
      '(rc, h) <- libusb_open env dev (handle tr) ;;
      let tr := set_handle tr h in
      if handle tr =? 0 then ret (-1, tr)
      else
        active <- libusb env (c_kernel_driver_active (handle tr) (int_number tr)) ;;
        (if active =? 1
         then libusb env (c_detach_kernel_driver (handle tr) (int_number tr))
         else ret 0) ;;;
        rc <- libusb env (c_claim_interface (handle tr) (int_number tr)) ;;
        if negb (rc =? 0) then
          libusb env (c_close (handle tr)) ;;; ret (-1, tr)
        else ret (0, tr).

(** The loop of [bslhid_flush]: it runs while the transfer returns a
    non-zero code. *)
Fixpoint flush_loop (fuel : nat) (tr : bslhid_transport) : M unit :=
  match fuel with
  | O => stuck
  | S fuel' =>
      '(rc, _) <- libusb_bulk_in env (handle tr) (in_ep tr)
                                 BSLHID_XFER_SIZE 100 ;;
      if negb (rc =? 0) then flush_loop fuel' tr else ret tt
  end.

Definition bslhid_flush (fuel : nat) (tr : bslhid_transport) : M Z :=
  if handle tr =? 0 then ret 0
  else flush_loop fuel tr ;;; ret 0.

(** The transfer loop of [bslhid_send], [data] being the bytes from the
    current [data] pointer and its length the current [len]. *)
Fixpoint send_loop (fuel : nat) (tr : bslhid_transport) (data : list Z)
  : M Z :=
  if Z.of_nat (length data) =? 0 then ret 0
  else
    match fuel with
    | O => stuck
    | S fuel' =>
        '(rc, sent) <- libusb_bulk_out env (handle tr) (out_ep tr) data
                                       BSLHID_TIMEOUT ;;
        if negb (rc =? 0) && negb (rc =? LIBUSB_ERROR_TIMEOUT)
        then ret (-1)
        else send_loop fuel' tr (skipn (Z.to_nat sent) data)
    end.

(** [bslhid_send]. *)
Definition bslhid_send (fuel : nat) (tr : bslhid_transport)
           (data : list Z) : M Z :=
  if handle tr =? 0 then ret (-1)
  else if Z.of_nat (length data) >? BSLHID_MTU then ret (-1)
  else
    let outbuf := outbuf_of data in
    send_loop fuel tr data.

(** [bslhid_recv]: the return value and the bytes copied out to the
    caller's buffer. *)
Definition bslhid_recv (tr : bslhid_transport) (max_len : Z)
  : M (Z * list Z) :=
  if handle tr =? 0 then ret (-1, [])
  else
    '(rc, inbuf) <- libusb_bulk_in env (handle tr) (in_ep tr)
                                   BSLHID_XFER_SIZE BSLHID_TIMEOUT ;;
    let r := Z.of_nat (length inbuf) in
    if negb (rc =? 0) && negb (rc =? LIBUSB_ERROR_TIMEOUT)
    then ret (-1, [])
    else if r <? 2 then ret (-1, [])
    else if negb (load inbuf 0 =? BSLHID_HEADER) then ret (-1, [])
    else
      let len := load inbuf 1 in
      if (len >? max_len) || (len + 2 >? r) then ret (-1, [])
      else ret (len, firstn (Z.to_nat len) (skipn 2 inbuf)).

Definition bslhid_suspend (tr : bslhid_transport)
  : M (Z * bslhid_transport) :=
  if negb (handle tr =? 0) then
    libusb env (c_release_interface (handle tr) (int_number tr)) ;;;
    libusb env (c_close (handle tr)) ;;;
    ret (0, set_handle tr 0)
  else ret (0, tr).

Definition bslhid_resume (tr : bslhid_transport)
  : M (Z * bslhid_transport) :=
  if negb (handle tr =? 0) then ret (0, tr)
  else
    dev <- usbutil_find_by_loc env (Some (path tr)) ;;
    match dev with
    | None => ret (-1, tr)
    | Some dev =>
        '(r, tr) <- open_device tr dev ;;
        if r <? 0 then ret (-1, tr) else ret (0, tr)
    end.

(** [bslhid_destroy] of a non-null instance. *)
Definition bslhid_destroy (tr : bslhid_transport) : M unit :=
  if negb (handle tr =? 0) then
    libusb env (c_release_interface (handle tr) (int_number tr)) ;;;
    libusb env (c_unref_device_of (handle tr)) ;;;
    libusb env (c_close (handle tr)) ;;;
    ret tt
  else ret tt.

(** [bslhid_set_modem]. *)
Definition bslhid_set_modem (tr : bslhid_transport) (state : Z) : M Z :=
  ret (-1).

(** [bslhid_open]; the result [None] is [NULL]. *)
Definition bslhid_open (fuel : nat) (dev_path requested_serial : option string)
  : M (option bslhid_transport) :=
  let tr := mk_tr 0 0 0 0 0 EmptyString EmptyString in
  located <-
    match dev_path with
    | Some p =>
        let len := String.length p in
        let tr := mk_tr 0 0 0 0 0
                        (prefix_chars (if (len <? 8)%nat then len else 7) p)
                        EmptyString in
        dev <- usbutil_find_by_loc env (Some p) ;;
        ret (tr, dev)
    | None =>
        match requested_serial with
        | None => stuck
        | Some s =>
            let len := String.length s in
            let tr := mk_tr 0 0 0 0 0 EmptyString
                            (prefix_chars
                               (if (len <? 128)%nat then len else 127) s) in
            dev <- usbutil_find_by_id env BSLHID_VID BSLHID_PID
                                      requested_serial ;;
            ret (tr, dev)
        end
    end ;;
  match snd located with
  | None => ret None
  | Some dev =>
      '(r, tr) <- open_device (fst located) dev ;;
      if r <? 0 then ret None
      else bslhid_flush fuel tr ;;; ret (Some tr)
  end.

End WithEnv.
End Bslhid.


(* ================================================================= *)
(** ** transport/ftdi.c: the FTDI backend (Linux build) *)

Module Ftdi.
Import Libusb Usbutil.
Local Open Scope usb_scope.

Record ftdi_transport : Type := mk_tr {
  handle : usb_handle
}.

Definition USB_INTERFACE : Z := 0.
Definition EP_IN : Z := 129.            (* 0x81 *)
Definition EP_OUT : Z := 2.
Definition TIMEOUT_S : Z := 30.
Definition REQ_TIMEOUT_MS : Z := 100.
Definition REQTYPE_HOST_TO_DEVICE : Z := 64.   (* 0x40 *)

Definition FTDI_SIO_RESET : Z := 0.
Definition FTDI_SIO_MODEM_CTRL : Z := 1.
Definition FTDI_SIO_SET_FLOW_CTRL : Z := 2.
Definition FTDI_SIO_SET_BAUD_RATE : Z := 3.
Definition FTDI_SIO_SET_DATA : Z := 4.
Definition FTDI_SIO_SET_LATENCY_TIMER : Z := 9.

Definition FTDI_SIO_RESET_SIO : Z := 0.
Definition FTDI_SIO_RESET_PURGE_RX : Z := 1.
Definition FTDI_SIO_RESET_PURGE_TX : Z := 2.

Definition FTDI_CLOCK : Z := 3000000.

Definition FTDI_DTR : Z := 1.           (* 0x0001 *)
Definition FTDI_RTS : Z := 2.           (* 0x0002 *)
Definition FTDI_WRITE_DTR : Z := 256.   (* 0x0100 *)
Definition FTDI_WRITE_RTS : Z := 512.   (* 0x0200 *)

Section WithEnv.
Variable env : usb_env.
(** The bits of [transport_modem_t] (transport.h). *)
Variables TRANSPORT_MODEM_DTR TRANSPORT_MODEM_RTS : Z.

(** [do_cfg]: a control transfer without data stage; [wValue] is a
    [uint16_t]. *)
Definition do_cfg (h : usb_handle) (request value : Z) : M Z :=
  rc <- libusb env (c_control_transfer h REQTYPE_HOST_TO_DEVICE
                                       request (uint16 value) 0 []
                                       REQ_TIMEOUT_MS) ;;
  if negb (rc =? 0) then ret (-1) else ret 0.

(** [a || b] on two configuration steps that fail with a negative
    value. *)
Definition or_else (a b : M bool) : M bool :=
  failed <- a ;; if failed then ret true else b.

Definition cfg_fails (h : usb_handle) (request value : Z) : M bool :=
  r <- do_cfg h request value ;; ret (r <? 0).

(** [configure_ftdi].  The quotient [FTDI_CLOCK / baud_rate] is computed
    when the fifth step is reached, after four requests; for
    [baud_rate = 0] the division has no value and the step is stuck. *)
Definition configure_ftdi (h : usb_handle) (baud_rate : Z) : M Z :=
  failed <-
    or_else (cfg_fails h FTDI_SIO_RESET FTDI_SIO_RESET_SIO)
   (or_else (cfg_fails h FTDI_SIO_SET_DATA 8)
   (or_else (cfg_fails h FTDI_SIO_SET_FLOW_CTRL 0)
   (or_else (cfg_fails h FTDI_SIO_MODEM_CTRL 771)
   (or_else (if baud_rate =? 0 then stuck
             else cfg_fails h FTDI_SIO_SET_BAUD_RATE
                            (Z.quot FTDI_CLOCK baud_rate))
   (or_else (cfg_fails h FTDI_SIO_SET_LATENCY_TIMER 50)
   (or_else (cfg_fails h FTDI_SIO_RESET FTDI_SIO_RESET_PURGE_TX)
            (cfg_fails h FTDI_SIO_RESET FTDI_SIO_RESET_PURGE_RX))))))) ;;
  if failed then ret (-1) else ret 0.

Definition open_device (tr : ftdi_transport) (dev : libusb_device)
           (baud_rate : Z) : M (Z * ftdi_transport) :=
  rc <- libusb env (c_get_device_descriptor dev) ;;
  if negb (rc =? 0) then ret (-1, tr)
  else
    '(rc, h) <- libusb_open env dev (handle tr) ;;
    let tr := mk_tr h in
    if handle tr =? 0 then ret (-1, tr)
    else
      active <- libusb env (c_kernel_driver_active (handle tr) USB_INTERFACE) ;;
      (if active =? 1
       then libusb env (c_detach_kernel_driver (handle tr) USB_INTERFACE)
       else ret 0) ;;;
      rc <- libusb env (c_claim_interface (handle tr) USB_INTERFACE) ;;
      if negb (rc =? 0) then
        libusb env (c_close (handle tr)) ;;; ret (-1, tr)
      else
        r <- configure_ftdi (handle tr) baud_rate ;;
        if r <? 0 then
          libusb env (c_close (handle tr)) ;;; ret (-1, tr)
        else ret (0, tr).

Definition tr_destroy (tr : ftdi_transport) : M unit :=
  libusb env (c_close (handle tr)) ;;; ret tt.

(** The loop of [tr_recv]; a physical transfer carries two status bytes
    before the payload. *)
Fixpoint recv_loop (fuel : nat) (tr : ftdi_transport) (max_len deadline : Z)
  : M (Z * list Z) :=
  match fuel with
  | O => stuck
  | S fuel' =>
      now <- time env ;;
      if now <? deadline then
        '(rc, tmpbuf) <- libusb_bulk_in env (handle tr) EP_IN (max_len + 2)
                                        (TIMEOUT_S * 1000) ;;
        let received := Z.of_nat (length tmpbuf) in
        if negb (rc =? 0) && negb (rc =? LIBUSB_ERROR_TIMEOUT)
        then ret (-1, [])
        else if (rc =? 0) && (received >? 2)
        then ret (received - 2, skipn 2 tmpbuf)
        else recv_loop fuel' tr max_len deadline
      else ret (-1, [])
  end.


Fixpoint send_loop (fuel : nat) (tr : ftdi_transport) (databuf : list Z)
  : M Z :=
  if Z.of_nat (length databuf) =? 0 then ret 0
  else
    match fuel with
    | O => stuck
    | S fuel' =>
        '(rc, sent) <- libusb_bulk_out env (handle tr) EP_OUT databuf
                                       (TIMEOUT_S * 1000) ;;
        if negb (rc =? 0) && negb (rc =? LIBUSB_ERROR_TIMEOUT)
        then ret (-1)
        else send_loop fuel' tr (skipn (Z.to_nat sent) databuf)
    end.

Definition tr_send (fuel : nat) (tr : ftdi_transport) (databuf : list Z)
  : M Z :=
  send_loop fuel tr databuf.

(** [tr_flush].  The function does not use [tr_base]: it takes a new
    block from [malloc] and reads the handle out of it.  [fresh] is that
    block, its contents whatever the allocator left there. *)
Definition tr_flush (tr_base : ftdi_transport) (fresh : ftdi_transport)
  : M Z :=
  let tr := fresh in
  do_cfg (handle tr) FTDI_SIO_RESET FTDI_SIO_RESET_PURGE_RX.

(** The wire value [tr_set_modem] computes from the requested state. *)
Definition modem_value (state : Z) : Z :=
  let value := Z.lor FTDI_WRITE_DTR FTDI_WRITE_RTS in
  let value :=
    if Z.land state TRANSPORT_MODEM_DTR =? 0
    then Z.lor value FTDI_DTR else value in
  let value :=
    if Z.land state TRANSPORT_MODEM_RTS =? 0
    then Z.lor value FTDI_RTS else value in
  value.

(** [tr_set_modem], with the same fresh block in place of [tr_base]. *)
Definition tr_set_modem (tr_base : ftdi_transport) (fresh : ftdi_transport)
           (state : Z) : M Z :=
  let tr := fresh in
  do_cfg (handle tr) FTDI_SIO_MODEM_CTRL (modem_value state).

(** [ftdi_open]; [None] is [NULL]. *)
Definition ftdi_open (devpath requested_serial : option string)
           (vendor product baud_rate : Z) : M (option ftdi_transport) :=
  let tr := mk_tr 0 in
  dev <- match devpath with
         | Some _ => usbutil_find_by_loc env devpath
         | None => usbutil_find_by_id env vendor product requested_serial
         end ;;
  match dev with
  | None => ret None
  | Some dev =>
      '(r, tr) <- open_device tr dev baud_rate ;;
      if r <? 0 then ret None else ret (Some tr)
  end.

End WithEnv.
End Ftdi.

(* ================================================================= *)
(** ** transport/cp210x.c: the CP210x backend (Linux build) *)

Module Cp210x.
Import Libusb Usbutil.
Local Open Scope usb_scope.

Record cp210x_transport : Type := mk_tr {
  handle : usb_handle;
  int_number : Z
}.

Definition CP210X_CLOCK : Z := 3500000.
Definition V1_INTERFACE_CLASS : Z := 255.
Definition V1_IN_EP : Z := 129.         (* 0x81 *)
Definition V1_OUT_EP : Z := 1.
Definition CP210x_REQTYPE_HOST_TO_DEVICE : Z := 65.   (* 0x41 *)
Definition CP210X_IFC_ENABLE : Z := 0.
Definition CP210X_SET_BAUDDIV : Z := 1.
Definition CP210X_SET_MHS : Z := 7.
Definition CP210X_DTR : Z := 1.         (* 0x0001 *)
Definition CP210X_RTS : Z := 2.         (* 0x0002 *)
Definition CP210X_WRITE_DTR : Z := 256. (* 0x0100 *)
Definition CP210X_WRITE_RTS : Z := 512. (* 0x0200 *)
Definition TIMEOUT_S : Z := 30.

Section WithEnv.
Variable env : usb_env.
(** The bits of [transport_modem_t] (transport.h). *)
Variables TRANSPORT_MODEM_DTR TRANSPORT_MODEM_RTS : Z.

(** A control transfer without data stage; [wValue] is a [uint16_t]. *)
Definition control (tr : cp210x_transport) (request value : Z) : M Z :=
  libusb env (c_control_transfer (handle tr) CP210x_REQTYPE_HOST_TO_DEVICE
                                 request (uint16 value) 0 [] 300).

(** [configure_port].  The quotient [CP210X_CLOCK / baud_rate] is
    computed once the first request has passed; for [baud_rate = 0] the
    division has no value and the step is stuck. *)
Definition configure_port (tr : cp210x_transport) (baud_rate : Z) : M Z :=
  rc <- control tr CP210X_IFC_ENABLE 1 ;;
  if rc <? 0 then ret (-1)
  else
    rc <- (if baud_rate =? 0 then stuck
           else control tr CP210X_SET_BAUDDIV
                        (Z.quot CP210X_CLOCK baud_rate)) ;;
    if rc <? 0 then ret (-1)
    else
      rc <- control tr CP210X_SET_MHS 771 ;;
      if rc <? 0 then ret (-1) else ret 0.

Definition open_interface (tr : cp210x_transport) (dev : libusb_device)
           (ino baud_rate : Z) : M (Z * cp210x_transport) :=
  rc <- libusb env (c_get_device_descriptor dev) ;;
  if negb (rc =? 0) then ret (-1, tr)
  else
    let tr := mk_tr (handle tr) ino in
    '(rc, h) <- libusb_open env dev (handle tr) ;;
    let tr := mk_tr h (int_number tr) in
    if handle tr =? 0 then ret (-1, tr)
    else
      active <- libusb env (c_kernel_driver_active (handle tr) (int_number tr)) ;;
      (if active =? 1
       then libusb env (c_detach_kernel_driver (handle tr) (int_number tr))
       else ret 0) ;;;
      rc <- libusb env (c_claim_interface (handle tr) (int_number tr)) ;;
      if negb (rc =? 0) then
        libusb env (c_close (handle tr)) ;;; ret (-1, tr)
      else
        r <- configure_port tr baud_rate ;;
        if r <? 0 then
          libusb env (c_close (handle tr)) ;;; ret (-1, tr)
        else ret (0, tr).

(** The interface loop of [open_device]. *)
Fixpoint open_device_loop (tr : cp210x_transport) (dev : libusb_device)
         (intfs : list interface_descriptor) (baud_rate : Z)
  : M (Z * cp210x_transport) :=
  match intfs with
  | [] => ret (-1, tr)
  | desc :: rest =>
      if bInterfaceClass desc =? V1_INTERFACE_CLASS then
        '(r, tr) <- open_interface tr dev (bInterfaceNumber desc) baud_rate ;;
        if r =? 0 then ret (0, tr)
        else open_device_loop tr dev rest baud_rate
      else open_device_loop tr dev rest baud_rate
  end.

Definition open_device (tr : cp210x_transport) (dev : libusb_device)
           (baud_rate : Z) : M (Z * cp210x_transport) :=
  rc <- libusb env (c_get_config_descriptor dev) ;;
  if negb (rc =? 0) then ret (-1, tr)
  else open_device_loop tr dev (interface (config dev)) baud_rate.

Fixpoint send_loop (fuel : nat) (tr : cp210x_transport) (data : list Z)
  : M Z :=
  if Z.of_nat (length data) =? 0 then ret 0
  else
    match fuel with
    | O => stuck
    | S fuel' =>
        '(rc, sent) <- libusb_bulk_out env (handle tr) V1_OUT_EP data
                                       (TIMEOUT_S * 1000) ;;
        if negb (rc =? 0) && negb (rc =? LIBUSB_ERROR_TIMEOUT)
        then ret (-1)
        else send_loop fuel' tr (skipn (Z.to_nat sent) data)
    end.

Definition usbtr_send (fuel : nat) (tr : cp210x_transport) (data : list Z)
  : M Z :=
  send_loop fuel tr data.

Fixpoint recv_loop (fuel : nat) (tr : cp210x_transport)
         (max_len deadline : Z) : M (Z * list Z) :=
  match fuel with
  | O => stuck
  | S fuel' =>
      now <- time env ;;
      if now <? deadline then
        '(rc, databuf) <- libusb_bulk_in env (handle tr) V1_IN_EP max_len
                                         (TIMEOUT_S * 1000) ;;
        let received := Z.of_nat (length databuf) in
        if negb (rc =? 0) && negb (rc =? LIBUSB_ERROR_TIMEOUT)
        then ret (-1, [])
        else if rc =? 0 then ret (received, databuf)
        else recv_loop fuel' tr max_len deadline
      else ret (-1, [])
  end.

(** [usbtr_recv]: the return value and the bytes left in [databuf]. *)
Definition usbtr_recv (fuel : nat) (tr : cp210x_transport) (max_len : Z)
  : M (Z * list Z) :=
  start <- time env ;;
  recv_loop fuel tr max_len (start + TIMEOUT_S).

Definition usbtr_destroy (tr : cp210x_transport) : M unit :=
  libusb env (c_release_interface (handle tr) (int_number tr)) ;;;
  libusb env (c_close (handle tr)) ;;;
  ret tt.

Fixpoint flush_loop (fuel : nat) (tr : cp210x_transport) : M unit :=
  match fuel with
  | O => stuck
  | S fuel' =>
      '(rc, _) <- libusb_bulk_in env (handle tr) V1_IN_EP 64 100 ;;
      if negb (rc =? 0) then flush_loop fuel' tr else ret tt
  end.

Definition usbtr_flush (fuel : nat) (tr : cp210x_transport) : M Z :=
  flush_loop fuel tr ;;; ret 0.

(** The wire value [usbtr_set_modem] computes from the requested
    state. *)
Definition modem_value (state : Z) : Z :=
  let value := Z.lor CP210X_WRITE_DTR CP210X_WRITE_RTS in
  let value :=
    if Z.land state TRANSPORT_MODEM_DTR =? 0
    then Z.lor value CP210X_DTR else value in
  let value :=
    if Z.land state TRANSPORT_MODEM_RTS =? 0
    then Z.lor value CP210X_RTS else value in
  value.

Definition usbtr_set_modem (tr : cp210x_transport) (state : Z) : M Z :=
  rc <- control tr CP210X_SET_MHS (modem_value state) ;;
  if negb (rc =? 0) then ret (-1) else ret 0.

(** [cp210x_open]; [None] is [NULL].  The last two parameters are named
    [product] and [vendor] and handed to [usbutil_find_by_id] in that
    order. *)
Definition cp210x_open (fuel : nat) (devpath requested_serial : option string)
           (baud_rate product vendor : Z) : M (option cp210x_transport) :=
  let tr := mk_tr 0 0 in
  dev <- match devpath with
         | Some _ => usbutil_find_by_loc env devpath
         | None => usbutil_find_by_id env product vendor requested_serial
         end ;;
  match dev with
  | None => ret None
  | Some dev =>
      '(r, tr) <- open_device tr dev baud_rate ;;
      if r <? 0 then ret None
      else usbtr_flush fuel tr ;;; ret (Some tr)
  end.

End WithEnv.
End Cp210x.


(* ================================================================= *)
(** ** transport/cdc_acm.c: the CDC-ACM backend (Linux build) *)

Module CdcAcm.
Import Libusb Usbutil.
Local Open Scope usb_scope.

Definition READ_BUFFER_SIZE : Z := 1024.
Definition CDC_INTERFACE_CLASS : Z := 10.
Definition TIMEOUT : Z := 30000.
Definition CDC_REQTYPE_HOST_TO_DEVICE : Z := 33.   (* 0x21 *)
Definition CDC_SET_CONTROL : Z := 34.              (* 0x22 *)
Definition CDC_SET_LINE_CODING : Z := 32.          (* 0x20 *)
Definition CDC_CTRL_DTR : Z := 1.
Definition CDC_CTRL_RTS : Z := 2.

Record cdc_acm_transport : Type := mk_tr {
  int_number : Z;
  handle : usb_handle;
  in_ep : Z;
  out_ep : Z;
  rbuf_len : Z;
  rbuf_ptr : Z;
  rbuf : list Z
}.

Definition set_eps (tr : cdc_acm_transport) (i o : Z) :=
  mk_tr (int_number tr) (handle tr) i o (rbuf_len tr) (rbuf_ptr tr) (rbuf tr).

Definition set_int_number (tr : cdc_acm_transport) (n : Z) :=
  mk_tr n (handle tr) (in_ep tr) (out_ep tr)
        (rbuf_len tr) (rbuf_ptr tr) (rbuf tr).

Definition set_handle (tr : cdc_acm_transport) (h : usb_handle) :=
  mk_tr (int_number tr) h (in_ep tr) (out_ep tr)
        (rbuf_len tr) (rbuf_ptr tr) (rbuf tr).

Definition set_rbuf (tr : cdc_acm_transport) (len ptr : Z) (buf : list Z) :=
  mk_tr (int_number tr) (handle tr) (in_ep tr) (out_ep tr) len ptr buf.

(** The endpoint loop of [find_interface], from [in_ep = out_ep = -1]. *)
Definition scan_endpoints (eps : list endpoint_descriptor) : Z * Z :=
  fold_left
    (fun (io : Z * Z) (ep : endpoint_descriptor) =>
       let type := Z.land (bmAttributes ep) USB_ENDPOINT_TYPE_MASK in
       let addr := bEndpointAddress ep in
       if negb (type =? USB_ENDPOINT_TYPE_BULK) then io
       else if negb (Z.land addr USB_ENDPOINT_DIR_MASK =? 0)
            then (addr, snd io)
            else (fst io, addr))
    eps (-1, -1).

Fixpoint find_interface_loop (i : Z) (intfs : list interface_descriptor)
         (tr : cdc_acm_transport) : Z * cdc_acm_transport :=
  match intfs with
  | [] => (-1, tr)
  | desc :: rest =>
      if negb (bInterfaceClass desc =? CDC_INTERFACE_CLASS)
      then find_interface_loop (i + 1) rest tr
      else
        let io := scan_endpoints (endpoint desc) in
        let tr := set_eps tr (fst io) (snd io) in
        if (in_ep tr >=? 0) && (out_ep tr >=? 0)
        then (0, set_int_number tr i)
        else find_interface_loop (i + 1) rest tr
  end.

(** The read buffer is well formed: the cursor is within the valid
    length, the valid length within the capacity, and the array has its
    declared size. *)
Definition rbuf_ok (tr : cdc_acm_transport) : Prop :=
  0 <= rbuf_ptr tr <= rbuf_len tr /\
  rbuf_len tr <= READ_BUFFER_SIZE /\
  Z.of_nat (length (rbuf tr)) = READ_BUFFER_SIZE.

(** The seven bytes of the line-coding block of [configure_port]. *)
Definition line_coding (baud_rate : Z) : list Z :=
  [ Z.land baud_rate 255;
    Z.land (Z.shiftr baud_rate 8) 255;
    Z.land (Z.shiftr baud_rate 16) 255;
    Z.land (Z.shiftr baud_rate 24) 255;
    0; 0; 8 ].

Section WithEnv.
Variable env : usb_env.

Fixpoint send_loop (fuel : nat) (tr : cdc_acm_transport) (data : list Z)
  : M Z :=
  if Z.of_nat (length data) >? 0 then
    match fuel with
    | O => stuck
    | S fuel' =>
        '(rc, sent) <- libusb_bulk_out env (handle tr) (out_ep tr) data
                                       TIMEOUT ;;
        if negb (rc =? 0) && negb (rc =? LIBUSB_ERROR_TIMEOUT)
        then ret (-1)
        else send_loop fuel' tr (skipn (Z.to_nat sent) data)
    end
  else ret 0.

Definition usbtr_send (fuel : nat) (tr : cdc_acm_transport) (data : list Z)
  : M Z :=
  send_loop fuel tr data.

(** [usbtr_recv]: the return value, the bytes copied to [databuf], and
    the transport with its read buffer updated.  The sum
    [rbuf_ptr + len] is an [int]: where it would leave the range of
    [int], and where [memcpy] would be given a negative count, the call
    has no defined result. *)
Definition usbtr_recv (tr : cdc_acm_transport) (len : Z)
  : M (Z * list Z * cdc_acm_transport) :=
  refill <-
    (if rbuf_ptr tr >=? rbuf_len tr then
       let tr := set_rbuf tr (rbuf_len tr) 0 (rbuf tr) in
       '(rc, got) <- libusb_bulk_in env (handle tr) (in_ep tr)
                                    READ_BUFFER_SIZE TIMEOUT ;;
       if negb (rc =? 0) && negb (rc =? LIBUSB_ERROR_TIMEOUT)
       then ret (false, tr)
       else ret (true,
                 set_rbuf tr (Z.of_nat (length got)) 0
                          (got ++ skipn (length got) (rbuf tr)))
     else ret (true, tr)) ;;
  let tr := snd refill in
  if negb (fst refill) then ret (-1, [], tr)
  else if (rbuf_ptr tr + len >? INT_MAX) || (rbuf_ptr tr + len <? INT_MIN)
  then stuck
  else
    let len :=
      if rbuf_ptr tr + len >? rbuf_len tr
      then rbuf_len tr - rbuf_ptr tr else len in
    if len <? 0 then stuck
    else
    ret (len,
         firstn (Z.to_nat len) (skipn (Z.to_nat (rbuf_ptr tr)) (rbuf tr)),
         set_rbuf tr (rbuf_len tr) (rbuf_ptr tr + len) (rbuf tr)).

Definition usbtr_destroy (tr : cdc_acm_transport) : M unit :=
  libusb env (c_release_interface (handle tr) (int_number tr)) ;;;
  libusb env (c_unref_device_of (handle tr)) ;;;
  libusb env (c_close (handle tr)) ;;;
  ret tt.

Fixpoint flush_loop (fuel : nat) (tr : cdc_acm_transport) : M unit :=
  match fuel with
  | O => stuck
  | S fuel' =>
      '(rc, _) <- libusb_bulk_in env (handle tr) (in_ep tr) 64 100 ;;
      if negb (rc =? 0) then flush_loop fuel' tr else ret tt
  end.

Definition usbtr_flush (fuel : nat) (tr : cdc_acm_transport)
  : M (Z * cdc_acm_transport) :=
  flush_loop fuel tr ;;;
  ret (0, set_rbuf tr 0 0 (rbuf tr)).

Definition find_interface (tr : cdc_acm_transport) (dev : libusb_device)
  : M (Z * cdc_acm_transport) :=
  rc <- libusb env (c_get_config_descriptor dev) ;;
  if negb (rc =? 0) then ret (-1, tr)
  else ret (find_interface_loop 0 (interface (config dev)) tr).

Definition open_interface (tr : cdc_acm_transport) (dev : libusb_device)
  : M (Z * cdc_acm_transport) :=
  '(rc, h) <- libusb_open env dev (handle tr) ;;
  let tr := set_handle tr h in
  if handle tr =? 0 then ret (-1, tr)
  else
    active <- libusb env (c_kernel_driver_active (handle tr) (int_number tr)) ;;
    (if active =? 1
     then libusb env (c_detach_kernel_driver (handle tr) (int_number tr))
     else ret 0) ;;;
    rc <- libusb env (c_claim_interface (handle tr) (int_number tr)) ;;
    if negb (rc =? 0) then
      libusb env (c_close (handle tr)) ;;; ret (-1, tr)
    else ret (0, tr).

(** [configure_port]: the line coding, then the control lines. *)
Definition configure_port (tr : cdc_acm_transport) (baud_rate : Z) : M Z :=
  rc <- libusb env (c_control_transfer (handle tr) CDC_REQTYPE_HOST_TO_DEVICE
                                       CDC_SET_LINE_CODING 0 0
                                       (line_coding baud_rate) 300) ;;
  if negb (rc =? 0) then ret (-1)
  else
    rc <- libusb env (c_control_transfer (handle tr)
                                         CDC_REQTYPE_HOST_TO_DEVICE
                                         CDC_SET_CONTROL 0 0 [] 300) ;;
    if negb (rc =? 0) then ret (-1) else ret 0.

(** The bits of [transport_modem_t] (transport.h). *)
Variables TRANSPORT_MODEM_DTR TRANSPORT_MODEM_RTS : Z.

(** The wire value [usbtr_set_modem] computes from the requested
    state. *)
Definition modem_value (state : Z) : Z :=
  let value := 0 in
  let value :=
    if negb (Z.land state TRANSPORT_MODEM_DTR =? 0)
    then Z.lor value CDC_CTRL_DTR else value in
  let value :=
    if negb (Z.land state TRANSPORT_MODEM_RTS =? 0)
    then Z.lor value CDC_CTRL_RTS else value in
  value.

Definition usbtr_set_modem (tr : cdc_acm_transport) (state : Z) : M Z :=
  rc <- libusb env (c_control_transfer (handle tr) CDC_REQTYPE_HOST_TO_DEVICE
                                       CDC_SET_CONTROL
                                       (uint16 (modem_value state)) 0 []
                                       300) ;;
  if negb (rc =? 0) then ret (-1) else ret 0.

(** [cdc_acm_open]; [None] is [NULL]. *)
Definition cdc_acm_open (fuel : nat) (devpath requested_serial : option string)
           (baud_rate vendor product : Z) : M (option cdc_acm_transport) :=
  let tr := mk_tr 0 0 0 0 0 0 (memset 0 (Z.to_nat READ_BUFFER_SIZE)) in
  dev <- match devpath with
         | Some _ => usbutil_find_by_loc env devpath
         | None => usbutil_find_by_id env vendor product requested_serial
         end ;;
  match dev with
  | None => ret None
  | Some dev =>
      '(r, tr) <- find_interface tr dev ;;
      if r <? 0 then ret None
      else
        '(r, tr) <- open_interface tr dev ;;
        if r <? 0 then ret None
        else
          r <- configure_port tr baud_rate ;;
          if r <? 0 then usbtr_destroy tr ;;; ret None
          else
            '(_, tr) <- usbtr_flush fuel tr ;;
            ret (Some tr)
  end.

End WithEnv.
End CdcAcm.

(* ================================================================= *)
(** ** transport/ti3410.c: port bring-up and byte stream *)

Module Ti3410.
Import Libusb Usbutil Ti3410Fw.
Local Open Scope usb_scope.

Definition TI_BOOT_CONFIG : Z := 1.
Definition TI_ACTIVE_CONFIG : Z := 2.
Definition TI_PIPE_MODE_CONTINOUS : Z := 1.
Definition TI_PIPE_TIMEOUT_ENABLE : Z := 128.
Definition TI_UART1_PORT : Z := 3.
Definition TI_RAM_PORT : Z := 5.
Definition TI_PURGE_OUTPUT : Z := 0.
Definition TI_PURGE_INPUT : Z := 128.
Definition TI_SET_CONFIG : Z := 5.
Definition TI_OPEN_PORT : Z := 6.
Definition TI_CLOSE_PORT : Z := 7.
Definition TI_START_PORT : Z := 8.
Definition TI_PURGE_PORT : Z := 11.
Definition TI_WRITE_DATA : Z := 128.
Definition TI_UART_8_DATA_BITS : Z := 3.
Definition TI_UART_NO_PARITY : Z := 0.
Definition TI_UART_1_STOP_BITS : Z := 0.
Definition TI_MCR_LOOP : Z := 4.
Definition TI_MCR_DTR : Z := 16.
Definition TI_MCR_RTS : Z := 32.
Definition TI_RW_DATA_ADDR_XDATA : Z := 48.
Definition TI_RW_DATA_BYTE : Z := 1.
Definition TI_TRANSFER_TIMEOUT : Z := 2.

Definition TI_DOWNLOAD_MAX_PACKET_SIZE : Z := 64.
Definition USB_FET_VENDOR : Z := 1105.     (* 0x0451 *)
Definition USB_FET_PRODUCT : Z := 62512.   (* 0xf430 *)
Definition USB_FDL_INTERFACE : Z := 0.
Definition USB_FDL_OUT_EP : Z := 1.
Definition USB_FET_INTERFACE : Z := 0.
Definition USB_FET_IN_EP : Z := 129.
Definition USB_FET_OUT_EP : Z := 1.
Definition USB_FET_INT_EP : Z := 131.
Definition TIMEOUT : Z := 1000.
Definition READ_TIMEOUT : Z := 5000.

Record ti3410_transport : Type := mk_tr {
  handle : usb_handle
}.

(** The UART configuration block of [set_termios]. *)
Definition tios_data : list Z :=
  [ 0; 2; 96; 0;
    TI_UART_8_DATA_BITS; TI_UART_NO_PARITY; TI_UART_1_STOP_BITS;
    0; 0; 0 ].

(** The write block of [set_mcr]. *)
Definition wb_data : list Z :=
  [ TI_RW_DATA_ADDR_XDATA; TI_RW_DATA_BYTE; 1;
    0; 0; 255; 164;
    Z.lor (Z.lor TI_MCR_LOOP TI_MCR_RTS) TI_MCR_DTR;
    Z.lor TI_MCR_RTS TI_MCR_DTR ].

Section WithEnv.
Variable env : usb_env.

Definition vendor_request (tr : ti3410_transport)
           (request value index : Z) (data : list Z) : M Z :=
  libusb env (c_control_transfer (handle tr)
                                 (Z.lor USB_TYPE_VENDOR USB_RECIP_DEVICE)
                                 request value index data TIMEOUT).

Definition open_device (tr : ti3410_transport) (dev : libusb_device)
  : M (Z * ti3410_transport) :=
  rc <- libusb env (c_get_device_descriptor dev) ;;
  if negb (rc =? 0) then ret (-1, tr)
  else
    rc <- libusb env (c_get_config_descriptor dev) ;;
    if negb (rc =? 0) then ret (-1, tr)
    else
      '(rc, h) <- libusb_open env dev (handle tr) ;;
      let tr := mk_tr h in
      if handle tr =? 0 then ret (-1, tr)
      else
        active <- libusb env (c_kernel_driver_active (handle tr)
                                                     USB_FET_INTERFACE) ;;
        (if active =? 1
         then libusb env (c_detach_kernel_driver (handle tr)
                                                 USB_FET_INTERFACE)
         else ret 0) ;;;
        cfg_ok <-
          (if bConfigurationValue (config dev) =? TI_BOOT_CONFIG then
             rc <- libusb env (c_set_configuration (handle tr)
                                                   TI_ACTIVE_CONFIG) ;;
             ret (rc =? 0)
           else ret true) ;;
        if negb cfg_ok then
          libusb env (c_close (handle tr)) ;;; ret (-1, tr)
        else
          rc <- libusb env (c_claim_interface (handle tr)
                                              USB_FET_INTERFACE) ;;
          if negb (rc =? 0) then
            libusb env (c_close (handle tr)) ;;; ret (-1, tr)
          else ret (0, tr).

Definition set_termios (tr : ti3410_transport) : M Z :=
  rc <- vendor_request tr TI_SET_CONFIG 0 TI_UART1_PORT tios_data ;;
  if negb (rc =? 0) then ret (-1) else ret 0.

Definition set_mcr (tr : ti3410_transport) : M Z :=
  rc <- vendor_request tr TI_WRITE_DATA 0 TI_RAM_PORT wb_data ;;
  if negb (rc =? 0) then ret (-1) else ret 0.

Definition do_open_start (tr : ti3410_transport) : M Z :=
  r <- set_termios tr ;;
  if r <? 0 then ret (-1)
  else
    r <- set_mcr tr ;;
    if r <? 0 then ret (-1)
    else
      rc <- vendor_request tr TI_OPEN_PORT
              (Z.lor (Z.lor TI_PIPE_MODE_CONTINOUS TI_PIPE_TIMEOUT_ENABLE)
                     (Z.shiftl TI_TRANSFER_TIMEOUT 2))
              TI_UART1_PORT [] ;;
      if negb (rc =? 0) then ret (-1)
      else
        rc <- vendor_request tr TI_START_PORT 0 TI_UART1_PORT [] ;;
        if negb (rc =? 0) then ret (-1) else ret 0.

Definition interrupt_flush (tr : ti3410_transport) : M Z :=
  libusb env (c_interrupt_in (handle tr) USB_FET_INT_EP 2 TIMEOUT).

Definition setup_port (tr : ti3410_transport) : M Z :=
  interrupt_flush tr ;;;
  r <- do_open_start tr ;;
  if r <? 0 then ret (-1)
  else
    rc <- vendor_request tr TI_PURGE_PORT TI_PURGE_INPUT TI_UART1_PORT [] ;;
    if negb (rc =? 0) then ret (-1)
    else
      interrupt_flush tr ;;;
      interrupt_flush tr ;;;
      rc <- vendor_request tr TI_PURGE_PORT TI_PURGE_OUTPUT TI_UART1_PORT [] ;;
      if negb (rc =? 0) then ret (-1)
      else
        interrupt_flush tr ;;;
        rc1 <- libusb env (c_clear_halt (handle tr) USB_FET_IN_EP) ;;
        halted <-
          (if negb (rc1 =? 0) then ret true
           else rc2 <- libusb env (c_clear_halt (handle tr) USB_FET_OUT_EP) ;;
                ret (negb (rc2 =? 0))) ;;
        if halted then ret (-1)
        else
          r <- do_open_start tr ;;
          if r <? 0 then ret (-1) else ret 0.

Definition teardown_port (tr : ti3410_transport) : M unit :=
  vendor_request tr TI_CLOSE_PORT 0 TI_UART1_PORT [] ;;; ret tt.

Fixpoint send_loop (fuel : nat) (tr : ti3410_transport) (data : list Z)
  : M Z :=
  if Z.of_nat (length data) =? 0 then ret 0
  else
    match fuel with
    | O => stuck
    | S fuel' =>
        '(rc, sent) <- libusb_bulk_out env (handle tr) USB_FET_OUT_EP data
                                       TIMEOUT ;;
        if negb (rc =? 0) && negb (rc =? LIBUSB_ERROR_TIMEOUT)
        then ret (-1)
        else send_loop fuel' tr (skipn (Z.to_nat sent) data)
    end.

Definition ti3410_send (fuel : nat) (tr : ti3410_transport) (data : list Z)
  : M Z :=
  send_loop fuel tr data.

Fixpoint recv_loop (fuel : nat) (tr : ti3410_transport)
         (max_len deadline : Z) : M (Z * list Z) :=
  match fuel with
  | O => stuck
  | S fuel' =>
      now <- time env ;;
      if now <? deadline then
        '(rc, databuf) <- libusb_bulk_in env (handle tr) USB_FET_IN_EP
                                         max_len READ_TIMEOUT ;;
        let rlen := Z.of_nat (length databuf) in
        if negb (rc =? 0) && negb (rc =? LIBUSB_ERROR_TIMEOUT)
        then ret (-1, [])
        else if rlen >? 0 then ret (rlen, databuf)
        else recv_loop fuel' tr max_len deadline
      else ret (-1, [])
  end.


Definition ti3410_destroy (tr : ti3410_transport) : M unit :=
  teardown_port tr.

(** [ti3410_flush] and [ti3410_set_modem]. *)
Definition ti3410_flush (tr : ti3410_transport) : M Z := ret 0.

Definition ti3410_set_modem (tr : ti3410_transport) (state : Z) : M Z :=
  ret (-1).

(** The packet loop of [do_download], at [offset] into the image. *)
Fixpoint download_loop (fuel : nat) (h : usb_handle) (f : firmware)
         (offset : Z) : M Z :=
  if offset <? size f then
    match fuel with
    | O => stuck
    | S fuel' =>
        let plen := size f - offset in
        let plen :=
          if plen >? TI_DOWNLOAD_MAX_PACKET_SIZE
          then TI_DOWNLOAD_MAX_PACKET_SIZE else plen in
        '(rc, r) <- libusb_bulk_out env h USB_FDL_OUT_EP
                      (firstn (Z.to_nat plen)
                              (skipn (Z.to_nat offset) (buf f)))
                      TIMEOUT ;;
        if negb (rc =? 0) && negb (rc =? LIBUSB_ERROR_TIMEOUT)
        then libusb env (c_close h) ;;; ret (-1)
        else download_loop fuel' h f (offset + r)
    end
  else ret 0.

(** [do_download].  The local [handle] is not initialised before
    [libusb_open]; [uninit] is the value it happens to hold. *)
Definition do_download (fuel : nat) (uninit : usb_handle)
           (dev : libusb_device) (f : firmware) : M Z :=
  rc <- libusb env (c_get_device_descriptor dev) ;;
  if negb (rc =? 0) then ret (-1)
  else
    '(rc, h) <- libusb_open env dev uninit ;;
    if h =? 0 then ret (-1)
    else
      active <- libusb env (c_kernel_driver_active h USB_FDL_INTERFACE) ;;
      (if active =? 1
       then libusb env (c_detach_kernel_driver h USB_FDL_INTERFACE)
       else ret 0) ;;;
      rc <- libusb env (c_claim_interface h USB_FDL_INTERFACE) ;;
      if negb (rc =? 0) then libusb env (c_close h) ;;; ret (-1)
      else
        r <- download_loop fuel h f 0 ;;
        if r <? 0 then ret (-1)
        else
          libusb env (c_reset_device h) ;;;
          libusb env (c_close h) ;;;
          ret 0.

(** [download_firmware].  [file] is what [find_firmware], [ihex_check]
    and the decoder make of the file system: the chunks of the first
    firmware file found, or [None] when there is none or it is not
    Intel-HEX. *)
Definition download_firmware (fuel : nat) (uninit : usb_handle)
           (file : option (list binfile_chunk)) (dev : libusb_device)
  : M Z :=
  match file with
  | None => ret (-1)
  | Some chunks =>
      match load_firmware chunks with
      | (extract_ok, frm) =>
          r <- do_download fuel uninit dev (prepare_firmware frm) ;;
          if r <? 0 then ret (-1) else ret 0
      | _ => ret (-1)
      end
  end.

Definition locate (devpath requested_serial : option string)
  : M (option libusb_device) :=
  match devpath with
  | Some _ => usbutil_find_by_loc env devpath
  | None => usbutil_find_by_id env USB_FET_VENDOR USB_FET_PRODUCT
                               requested_serial
  end.

(** [ti3410_open]; [None] is [NULL]. *)
Definition ti3410_open (fuel : nat) (uninit : usb_handle)
           (file : option (list binfile_chunk))
           (devpath requested_serial : option string)
  : M (option ti3410_transport) :=
  let tr := mk_tr 0 in
  dev <- locate devpath requested_serial ;;
  match dev with
  | None => ret None
  | Some dev =>
      rc <- libusb env (c_get_device_descriptor dev) ;;
      if negb (rc =? 0) then ret None
      else
        relocated <-
          (if bNumConfigurations dev =? 1 then
             r <- download_firmware fuel uninit file dev ;;
             if r <? 0 then ret (false, None)
             else dev' <- locate devpath requested_serial ;;
                  ret (true, dev')
           else ret (true, Some dev)) ;;
        match relocated with
        | (false, _) => ret None
        | (true, None) => ret None
        | (true, Some dev) =>
            '(r, tr) <- open_device tr dev ;;
            if r <? 0 then ret None
            else
              r <- setup_port tr ;;
              if r <? 0 then
                teardown_port tr ;;;
                libusb env (c_close (handle tr)) ;;;
                ret None
              else ret (Some tr)
        end
  end.

End WithEnv.
End Ti3410.


(* ================================================================= *)
(** ** Concrete devices and hosts *)

Module Scenarios.
Import Libusb.

(** Every outbound transfer is taken whole. *)
Definition take_all (c : call) : Z :=
  match c with
  | c_bulk_out _ _ data _ => Z.of_nat (length data)
  | _ => 0
  end.

(** A host with [devs] plugged in, where every call returns 0, nothing
    arrives inbound and every outbound transfer is taken whole. *)
Definition plugged_env (devs : list libusb_device) : usb_env :=
  {| answer := fun _ _ => 0;
     inbound := fun _ _ => [];
     accepted := fun _ => take_all;
     bus := fun _ => devs |}.

Definition accepting_env : usb_env := plugged_env [].

(** A device that answers every inbound transfer with [frame]. *)
Definition replying_env (frame : list Z) : usb_env :=
  {| answer := fun _ _ => 0;
     inbound := fun _ _ => frame;
     accepted := fun _ => take_all;
     bus := fun _ => [] |}.

(** The HID frame carrying the payload [1;2;3]. *)
Definition framing_env : usb_env :=
  replying_env ([63;3;1;2;3] ++ repeat 172 59).

(** A host that follows the libusb contract for control transfers: a
    transfer that succeeds returns the number of bytes of its data
    stage. *)
Definition counting_env (devs : list libusb_device) : usb_env :=
  {| answer := fun _ c =>
       match c with
       | c_control_transfer _ _ _ _ _ data _ => Z.of_nat (length data)
       | _ => 0
       end;
     inbound := fun _ _ => [];
     accepted := fun _ => take_all;
     bus := fun _ => devs |}.

(** A device that stalls every control transfer (LIBUSB_ERROR_PIPE). *)
Definition stalling_env (devs : list libusb_device) : usb_env :=
  {| answer := fun _ c =>
       match c with
       | c_control_transfer _ _ _ _ _ _ _ => -9
       | _ => 0
       end;
     inbound := fun _ _ => [];
     accepted := fun _ => take_all;
     bus := fun _ => devs |}.

(** An open HID instance. *)
Definition open_instance : Bslhid.bslhid_transport :=
  Bslhid.mk_tr 1 0 5 129 1 "001:002" "".

(** A bootloader device at 001:002 with serial "ABC": one HID interface
    with a bulk endpoint in each direction. *)
Definition bsl_device : libusb_device :=
  mk_device 1 2 8263 512 1 3 "ABC"
            (mk_config 1 [mk_interface 0 3 [mk_endpoint 2 129;
                                            mk_endpoint 2 1]]).

(** A serial bridge at 001:002 with one interface of class [class], a
    bulk endpoint in each direction and two configurations. *)
Definition bridge_device (vendor product class : Z) : libusb_device :=
  mk_device 1 2 vendor product 2 3 "XYZ"
            (mk_config 2 [mk_interface 0 class [mk_endpoint 2 129;
                                                mk_endpoint 2 1]]).

(** A silent device on a host whose clock advances by one second with
    every call. *)
Definition ticking_env : usb_env :=
  {| answer := fun n c => match c with c_time => Z.of_nat n | _ => 0 end;
     inbound := fun _ _ => [];
     accepted := fun _ => take_all;
     bus := fun _ => [] |}.

(** A device that takes one byte of every outbound transfer. *)
Definition trickling_env : usb_env :=
  {| answer := fun _ _ => 0;
     inbound := fun _ _ => [];
     accepted := fun _ _ => 1;
     bus := fun _ => [] |}.

(** A device that answers every transfer with the timeout, taking and
    delivering nothing. *)
Definition idle_env : usb_env :=
  {| answer := fun _ _ => LIBUSB_ERROR_TIMEOUT;
     inbound := fun _ _ => [];
     accepted := fun _ _ => 0;
     bus := fun _ => [] |}.

(** The firmware decoded from the single chunk [1;2;3;4;5] at address
    0. *)
Definition five_byte_firmware : Ti3410Fw.firmware :=
  snd (Ti3410Fw.load_firmware [Ti3410Fw.mk_chunk 0 [1;2;3;4;5]]).

(** Two debuggers with the same ids on one bus, a bootloader between
    them. *)
Definition second_fet : libusb_device :=
  mk_device 1 9 1105 62512 2 3 "B" (mk_config 2 []).

Definition two_fets_env : usb_env :=
  plugged_env [bridge_device 1105 62512 255; bsl_device; second_fet].

(** The bus with the bootloader plugged in. *)
Definition bsl_env : usb_env := plugged_env [bsl_device].


End Scenarios.


(* ================================================================= *)
(** * Properties *)

Section Ti3410FirmwareFacts.
Import Ti3410Fw Scenarios.

Lemma memcpy_length (dst src : list Z) (off : nat) :
  (off + length src <= length dst)%nat ->
  length (memcpy dst off src) = length dst.
Proof.
  intros H. unfold memcpy.
  rewrite !length_app, length_firstn, length_skipn. lia.
Qed.

Lemma memcpy_prefix (dst src : list Z) (off : nat) :
  (off <= length dst)%nat ->
  firstn (off + length src) (memcpy dst off src) = firstn off dst ++ src.
Proof.
  intros H. unfold memcpy.
  rewrite app_assoc.
  rewrite firstn_app.
  rewrite length_app, length_firstn, Nat.min_l by exact H.
  replace (off + length src - (off + length src))%nat with 0%nat by lia.
  rewrite firstn_O, app_nil_r.
  apply firstn_all2. rewrite length_app, length_firstn. lia.
Qed.

Lemma do_extract_gap (f : firmware) (ch : binfile_chunk) :
  addr ch <> size f -> do_extract f ch = (firmware_gap, f).
Proof.
  intros H. unfold do_extract.
  destruct (size f =? addr ch) eqn:E; [apply Z.eqb_eq in E; congruence | reflexivity].
Qed.

Lemma ihex_extract_app (pre post : list binfile_chunk) (f f' : firmware) :
  ihex_extract pre f = (extract_ok, f') ->
  ihex_extract (pre ++ post) f = ihex_extract post f'.
Proof.
  revert f. induction pre as [|c pre IH]; intros f H; simpl in *.
  - now inversion H.
  - destruct (do_extract f c) as [[| |] g]; try discriminate.
    now apply IH.
Qed.

(** One accepted chunk: the image grows by exactly the chunk's data. *)
Lemma do_extract_accepts (f : firmware) (ch : binfile_chunk) :
  addr ch = size f ->
  0 <= size f ->
  size f + len ch <= TI_FIRMWARE_BUF_SIZE ->
  Z.of_nat (length (buf f)) = TI_FIRMWARE_BUF_SIZE ->
  exists f',
    do_extract f ch = (extract_ok, f') /\
    size f' = size f + len ch /\
    length (buf f') = length (buf f) /\
    image f' = image f ++ data ch.
Proof.
  intros Ha H0 Hfit Hlen. unfold do_extract.
  rewrite Ha, Z.eqb_refl. simpl negb. cbv iota.
  assert (Hl : 0 <= len ch) by (unfold len; lia).
  assert (Hw : uint32 (size f + len ch) = size f + len ch).
  { unfold uint32. apply Z.mod_small. unfold TI_FIRMWARE_BUF_SIZE in *. lia. }
  rewrite Hw.
  destruct (size f + len ch >? TI_FIRMWARE_BUF_SIZE) eqn:E.
  { apply Z.gtb_lt in E. lia. }
  eexists. split; [reflexivity|]. simpl. split; [reflexivity|].
  unfold len in *. split.
  - apply memcpy_length. lia.
  - unfold image. simpl.
    replace (Z.to_nat (size f + Z.of_nat (length (data ch))))
      with (Z.to_nat (size f) + length (data ch))%nat by lia.
    apply memcpy_prefix. lia.
Qed.

Lemma ihex_extract_contiguous (chunks : list binfile_chunk) :
  forall f,
    contiguous_from (size f) chunks ->
    0 <= size f ->
    size f + total_len chunks <= TI_FIRMWARE_BUF_SIZE ->
    Z.of_nat (length (buf f)) = TI_FIRMWARE_BUF_SIZE ->
    exists f',
      ihex_extract chunks f = (extract_ok, f') /\
      size f' = size f + total_len chunks /\
      length (buf f') = length (buf f) /\
      image f' = image f ++ concat (map data chunks).
Proof.
  induction chunks as [|c cs IH]; intros f Hc H0 Hfit Hlen.
  - exists f. simpl. unfold total_len. simpl.
    rewrite app_nil_r. repeat split; lia.
  - destruct Hc as [Ha Hc].
    assert (Ht : total_len (c :: cs) = len c + total_len cs).
    { unfold total_len, len. simpl. rewrite length_app. lia. }
    assert (Hcs : 0 <= total_len cs) by (unfold total_len; lia).
    destruct (do_extract_accepts f c Ha H0) as (g & Hg & Hs & Hb & Hi);
      [lia | exact Hlen |].
    destruct (IH g) as (f' & Hf' & Hs' & Hb' & Hi').
    + now rewrite Hs.
    + unfold len in Hs. lia.
    + lia.
    + lia.
    + exists f'. simpl. rewrite Hg. split; [exact Hf'|].
      split; [lia|]. split; [congruence|].
      rewrite Hi', Hi. now rewrite app_assoc.
Qed.

(** C7.  Firmware accumulation.  (1) When the chunks before [ch] were
    accepted and [ch] does not start at the current image length, the
    decode stops at [ch] with the "firmware gap" failure, whatever chunks
    follow, and the firmware is left exactly as the accepted chunks made
    it: nothing is written, the length does not move, no filler is
    inserted.  (2) A chunk list that is contiguous and ascending from
    address 0 and fits the buffer is accepted whole, and the accumulated
    image is the concatenation of the chunks' data in order. *)
Theorem firmware_accumulation_contract :
  (forall (pre post : list binfile_chunk) (ch : binfile_chunk)
          (f f' : firmware),
      ihex_extract pre f = (extract_ok, f') ->
      addr ch <> size f' ->
      ihex_extract (pre ++ ch :: post) f = (firmware_gap, f')) /\
  (forall chunks : list binfile_chunk,
      contiguous_from 0 chunks ->
      total_len chunks <= TI_FIRMWARE_BUF_SIZE ->
      exists f',
        load_firmware chunks = (extract_ok, f') /\
        size f' = total_len chunks /\
        image f' = concat (map data chunks)).
Proof.
  split.
  - intros pre post ch f f' Hpre Hgap.
    rewrite (ihex_extract_app pre (ch :: post) f f' Hpre).
    simpl. now rewrite do_extract_gap.
  - intros chunks Hc Hfit. unfold load_firmware.
    assert (Hs0 : size empty_firmware = 0) by reflexivity.
    assert (Hb0 : Z.of_nat (length (buf empty_firmware)) = TI_FIRMWARE_BUF_SIZE).
    { unfold empty_firmware, buf, memset. rewrite repeat_length.
      unfold TI_FIRMWARE_BUF_SIZE. lia. }
    assert (Hi0 : image empty_firmware = []).
    { unfold image. rewrite Hs0. apply firstn_O. }
    destruct (ihex_extract_contiguous chunks empty_firmware)
      as (f' & Hf' & Hs & _ & Hi).
    + now rewrite Hs0.
    + lia.
    + lia.
    + exact Hb0.
    + exists f'. split; [exact Hf'|]. split; [lia|].
      rewrite Hi, Hi0. reflexivity.
Qed.

(** The two chunk lists of the spec: "AAAA" at 0 then "BBBB" at 4 give an
    8-byte image; "AAAA" at 0 then "BBBB" at 8 stop with a gap after the
    first chunk. *)
Lemma firmware_accumulation_contract_witness :
  ihex_extract ([mk_chunk 0 [65;65;65;65]]
                  ++ mk_chunk 8 [66;66;66;66] :: [mk_chunk 12 [67]])
               empty_firmware
  = (firmware_gap, snd (ihex_extract [mk_chunk 0 [65;65;65;65]] empty_firmware))
  /\ exists f',
      load_firmware [mk_chunk 0 [65;65;65;65]; mk_chunk 4 [66;66;66;66]]
      = (extract_ok, f') /\
      size f' = 8 /\
      image f' = [65;65;65;65;66;66;66;66].
Proof.
  split.
  - apply (proj1 firmware_accumulation_contract
             [mk_chunk 0 [65;65;65;65]] [mk_chunk 12 [67]]
             (mk_chunk 8 [66;66;66;66]) empty_firmware
             (snd (ihex_extract [mk_chunk 0 [65;65;65;65]] empty_firmware))).
    + vm_compute. reflexivity.
    + vm_compute. discriminate.
  - apply (proj2 firmware_accumulation_contract
             [mk_chunk 0 [65;65;65;65]; mk_chunk 4 [66;66;66;66]]).
    + vm_compute. repeat split.
    + vm_compute. discriminate.
Defined.

Lemma cksum_loop_from (bytes : list Z) (acc : Z) :
  fold_left (fun cksum b => uint8 (cksum + b)) bytes (uint8 acc)
  = uint8 (acc + sum_bytes bytes).
Proof.
  revert acc. induction bytes as [|b bs IH]; intros acc; simpl.
  - now rewrite Z.add_0_r.
  - replace (uint8 (uint8 acc + b)) with (uint8 (acc + b)).
    + rewrite IH. f_equal. lia.
    + unfold uint8. now rewrite Zplus_mod_idemp_l.
Qed.

Lemma cksum_loop_sum (bytes : list Z) :
  cksum_loop bytes = sum_bytes bytes mod 256.
Proof.
  unfold cksum_loop. change 0 with (uint8 0) at 1.
  now rewrite cksum_loop_from.
Qed.

(** C8 (as the code has it).  Finalization of a decoded firmware of
    length [L], [3 <= L], writes the header over the first three bytes of
    the accumulated buffer, in place: the length stays [L] and the bytes
    from offset 3 on are untouched; the first two bytes of the finished
    image are the little-endian encoding of [L - 3], and the third is the
    sum modulo 256 of all image bytes from offset 3 on. *)
Theorem prepare_firmware_header_in_place (f : firmware) :
  3 <= size f <= TI_FIRMWARE_BUF_SIZE ->
  Z.of_nat (length (buf f)) = TI_FIRMWARE_BUF_SIZE ->
  size (prepare_firmware f) = size f /\
  length (image (prepare_firmware f)) = length (image f) /\
  skipn 3 (image (prepare_firmware f)) = skipn 3 (image f) /\
  load (image (prepare_firmware f)) 0 = (size f - 3) mod 256 /\
  load (image (prepare_firmware f)) 1 = (size f - 3) / 256 /\
  load (image (prepare_firmware f)) 0
    + 256 * load (image (prepare_firmware f)) 1 = size f - 3 /\
  load (image (prepare_firmware f)) 2
    = sum_bytes (skipn 3 (image (prepare_firmware f))) mod 256.
Proof.
  intros [Hlo Hhi] Hbuf. unfold TI_FIRMWARE_BUF_SIZE in *.
  destruct f as [b sz]. cbn [buf size] in *.
  destruct b as [|x0 [|x1 [|x2 rest]]]; simpl in Hbuf; try lia.
  assert (Hn : exists k, Z.to_nat sz = S (S (S k)) /\ Z.to_nat (sz - 3) = k).
  { exists (Z.to_nat (sz - 3)). lia. }
  destruct Hn as (k & Hk & Hk3).
  assert (Hr : uint16 (sz - 3) = sz - 3).
  { unfold uint16. apply Z.mod_small. lia. }
  assert (H0 : uint8 (Z.land (sz - 3) 255) = (sz - 3) mod 256).
  { change 255 with (Z.ones 8). rewrite Z.land_ones by lia.
    unfold uint8. change (2 ^ 8) with 256. apply Z.mod_mod. lia. }
  assert (H1 : uint8 (Z.shiftr (sz - 3) 8) = (sz - 3) / 256).
  { rewrite Z.shiftr_div_pow2 by lia. change (2 ^ 8) with 256.
    unfold uint8. apply Z.mod_small.
    split; [apply Z.div_pos; lia | apply Z.div_lt_upper_bound; lia]. }
  unfold prepare_firmware, image, load, store. simpl size. simpl buf.
  rewrite Hr, H0, H1, Hk, Hk3. cbn [firstn skipn app nth].
  rewrite cksum_loop_sum.
  repeat split; try reflexivity.
  pose proof (Z.div_mod (sz - 3) 256). lia.
Qed.

Lemma prepare_firmware_header_in_place_witness :
  load (image (prepare_firmware five_byte_firmware)) 0
  = (size five_byte_firmware - 3) mod 256 /\
  load (image (prepare_firmware five_byte_firmware)) 2
  = sum_bytes (skipn 3 (image (prepare_firmware five_byte_firmware)))
    mod 256.
Proof.
  assert (Hs : 3 <= size five_byte_firmware <= TI_FIRMWARE_BUF_SIZE)
    by (vm_compute; split; discriminate).
  assert (Hb : Z.of_nat (length (buf five_byte_firmware))
               = TI_FIRMWARE_BUF_SIZE)
    by (vm_compute; reflexivity).
  pose proof (prepare_firmware_header_in_place five_byte_firmware Hs Hb)
    as H.
  split; [apply H | apply H].
Defined.

(** C8 (as stated) fails: decoding the single chunk [1;2;3;4;5] at
    address 0 gives a 5-byte image; finalization turns it into the 5-byte
    image [2;0;9;4;5], the first three decoded bytes replaced by the
    header, so no 3-byte header was put in front of the accumulated
    image. *)
Lemma prepare_firmware_does_not_prepend :
  image five_byte_firmware = [1;2;3;4;5] /\
  image (prepare_firmware five_byte_firmware) = [2;0;9;4;5] /\
  ~ finalized_as_specified five_byte_firmware
      (prepare_firmware five_byte_firmware).
Proof.
  assert (Hi : image five_byte_firmware = [1;2;3;4;5])
    by (vm_compute; reflexivity).
  assert (Hp : image (prepare_firmware five_byte_firmware) = [2;0;9;4;5])
    by (vm_compute; reflexivity).
  split; [exact Hi|]. split; [exact Hp|].
  intros [[hdr [Hl He]] _].
  rewrite Hi, Hp in He. apply (f_equal (@length Z)) in He.
  rewrite length_app, Hl in He. simpl in He. lia.
Qed.

End Ti3410FirmwareFacts.


(* ================================================================= *)
(** ** HID framing backend *)

Section BslhidFacts.
Import Libusb Usbutil Bslhid Scenarios.

Lemma load_octet (l : list Z) (i : nat) :
  0 <= load (map uint8 l) i < 256.
Proof.
  unfold load. destruct (Nat.lt_ge_cases i (length (map uint8 l))) as [Hlt|Hge].
  - assert (Hin : In (nth i (map uint8 l) 0) (map uint8 l)) by now apply nth_In.
    apply in_map_iff in Hin. destruct Hin as (x & Hx & _).
    rewrite <- Hx. unfold uint8. apply Z.mod_pos_bound. lia.
  - rewrite nth_overflow by exact Hge. lia.
Qed.

Lemma skipn_repeat_sub (x : Z) (n m : nat) :
  skipn n (repeat x m) = repeat x (m - n).
Proof.
  revert m. induction n as [|n IH]; intros m.
  - now rewrite Nat.sub_0_r.
  - destruct m as [|m]; [reflexivity|]. simpl. apply IH.
Qed.

(** The frame [bslhid_send] builds in [outbuf] has the wire format: 64
    bytes, header 0x3F, length, payload, filler 0xAC. *)
Lemma outbuf_of_wire_format (data : list Z) :
  Z.of_nat (length data) <= BSLHID_MTU ->
  outbuf_of data
  = [BSLHID_HEADER; Z.of_nat (length data)] ++ data
      ++ repeat 172 (62 - length data).
Proof.
  unfold BSLHID_MTU, BSLHID_XFER_SIZE. intros H.
  unfold outbuf_of, BSLHID_XFER_SIZE, memset.
  assert (Hrep : repeat 172 (Z.to_nat 64) = 172 :: 172 :: repeat 172 62)
    by reflexivity.
  rewrite Hrep. unfold store, memcpy.
  cbn [firstn skipn app Nat.add].
  assert (Hu : uint8 (Z.of_nat (length data)) = Z.of_nat (length data)).
  { unfold uint8. apply Z.mod_small. lia. }
  rewrite Hu. do 3 f_equal.
  apply skipn_repeat_sub.
Qed.

(** C1 at a concrete input.  Sending the 3-byte payload [1;2;3] on an
    open instance puts one 3-byte bulk transfer carrying the bare payload
    on the bus; the 64-byte frame assembled in [outbuf] is not what is
    transmitted.  Sending the empty payload puts nothing on the bus. *)
Theorem bslhid_send_transmits_bare_payload :
  run (bslhid_send accepting_env 8 open_instance [1;2;3])
  = Some (0, [Ev (c_bulk_out 5 1 [1;2;3] BSLHID_TIMEOUT) 0]) /\
  outbuf_of [1;2;3] = [63;3;1;2;3] ++ repeat 172 59 /\
  run (bslhid_send accepting_env 8 open_instance []) = Some (0, []).
Proof.
  repeat split; vm_compute; reflexivity.
Qed.

(** The first transfer of [bslhid_send] always carries the caller's bytes
    as they are. *)
Lemma bslhid_send_first_transfer (env : usb_env) (fuel : nat)
      (tr : bslhid_transport) (data : list Z) (res : Z) (w' : world) :
  handle tr <> 0 ->
  data <> [] ->
  Z.of_nat (length data) <= BSLHID_MTU ->
  run (bslhid_send env fuel tr data) = Some (res, w') ->
  exists rc rest,
    w' = Ev (c_bulk_out (handle tr) (out_ep tr) data BSLHID_TIMEOUT) rc
           :: rest.
Proof.
  intros Hh Hd Hm. unfold run, bslhid_send.
  destruct (handle tr =? 0) eqn:E; [apply Z.eqb_eq in E; contradiction|].
  destruct (Z.gtb_spec (Z.of_nat (length data)) BSLHID_MTU) as [Hgt|_];
    [lia|].
  cbv zeta. destruct data as [|b bs]; [contradiction|].
  destruct fuel as [|fuel]; [discriminate|].
  cbn [send_loop].
  replace (Z.of_nat (Datatypes.length (b :: bs)) =? 0) with false
    by (symmetry; apply Z.eqb_neq; simpl; lia).
  unfold bind at 1. unfold libusb_bulk_out at 1. cbn [length app].
  set (rc := answer env 0%nat _).
  set (k := skipn _ _).
  destruct (negb (rc =? 0) && negb (rc =? LIBUSB_ERROR_TIMEOUT)).
  - intros H. inversion H. eauto.
  - intros H. exists rc.
    assert (G : forall f d w r w2, send_loop env f tr d w = Some (r, w2) ->
                              exists tl, w2 = w ++ tl).
    { clear. induction f as [|f IH]; intros d w r w2.
      - simpl. destruct (Z.of_nat (length d) =? 0).
        + intros H. inversion H. exists []. now rewrite app_nil_r.
        + discriminate.
      - simpl. destruct (Z.of_nat (length d) =? 0).
        + intros H. inversion H. exists []. now rewrite app_nil_r.
        + unfold bind at 1. unfold libusb_bulk_out at 1.
          destruct (negb _ && negb _).
          * intros H. inversion H. eauto.
          * intros H. apply IH in H. destruct H as [tl ->].
            rewrite <- app_assoc. eauto. }
    apply G in H. destruct H as [tl ->]. simpl. eauto.
Qed.

(** C2.  On an open instance, [bslhid_recv] issues one inbound transfer
    of 64 bytes.  When that transfer completes (or times out) with [r]
    bytes, the call fails exactly when [r < 2], or byte 0 is not 0x3F, or
    the declared length (byte 1) exceeds [max_len], or the declared
    length plus 2 exceeds [r]; otherwise it returns the declared length
    and copies out exactly bytes [2 .. 2+length) of the transfer. *)
Theorem bslhid_recv_validation (env : usb_env) (tr : bslhid_transport)
        (max_len : Z) (w w' : world) (rc : Z) (inbuf : list Z) :
  handle tr <> 0 ->
  libusb_bulk_in env (handle tr) (in_ep tr) 64 BSLHID_TIMEOUT w
    = Some ((rc, inbuf), w') ->
  rc = 0 \/ rc = LIBUSB_ERROR_TIMEOUT ->
  let r := Z.of_nat (length inbuf) in
  let len := load inbuf 1 in
  let invalid :=
    r < 2 \/ load inbuf 0 <> 63 \/ len > max_len \/ len + 2 > r in
  exists (ret : Z) (out : list Z),
    bslhid_recv env tr max_len w = Some ((ret, out), w') /\
    w' = w ++ [Ev (c_bulk_in (handle tr) (in_ep tr) 64 BSLHID_TIMEOUT) rc] /\
    (ret < 0 <-> invalid) /\
    (~ invalid ->
     ret = len /\
     out = firstn (Z.to_nat len) (skipn 2 inbuf) /\
     Z.of_nat (length out) = len).
Proof.
  intros Hh Hx Hrc.
  pose proof Hx as Hx'. unfold libusb_bulk_in in Hx'.
  injection Hx' as Hans Hin Hw'.
  assert (Hoct : 0 <= load inbuf 1 < 256)
    by (rewrite <- Hin; apply load_octet).
  assert (Hw : w' = w ++ [Ev (c_bulk_in (handle tr) (in_ep tr) 64 BSLHID_TIMEOUT) rc])
    by (rewrite <- Hw', Hans; reflexivity).
  clear Hans Hin Hw'.
  intros r len invalid.
  unfold bslhid_recv.
  destruct (handle tr =? 0) eqn:E; [apply Z.eqb_eq in E; contradiction|].
  unfold bind. change BSLHID_XFER_SIZE with 64. rewrite Hx.
  assert (Hhard : negb (rc =? 0) && negb (rc =? LIBUSB_ERROR_TIMEOUT) = false).
  { destruct Hrc as [-> | ->]; reflexivity. }
  rewrite Hhard. fold r. fold len. unfold BSLHID_HEADER.
  assert (Hrej : invalid ->
                 exists (ret0 : Z) (out : list Z),
                   ret (-1, []) w' = Some ((ret0, out), w') /\
                   w' = w ++ [Ev (c_bulk_in (handle tr) (in_ep tr) 64 BSLHID_TIMEOUT) rc] /\
                   (ret0 < 0 <-> invalid) /\
                   (~ invalid ->
                    ret0 = len /\
                    out = firstn (Z.to_nat len) (skipn 2 inbuf) /\
                    Z.of_nat (length out) = len)).
  { intros Hbad. exists (-1), []. split; [reflexivity|]. split; [exact Hw|].
    split; [split; [intros _; exact Hbad | lia] | intros Hn; contradiction]. }
  destruct (r <? 2) eqn:E1.
  { apply Z.ltb_lt in E1. apply Hrej. left. exact E1. }
  apply Z.ltb_ge in E1.
  destruct (load inbuf 0 =? 63) eqn:E2; cbn [negb].
  2:{ apply Z.eqb_neq in E2. apply Hrej. right. left. exact E2. }
  apply Z.eqb_eq in E2.
  destruct ((len >? max_len) || (len + 2 >? r)) eqn:E3.
  { apply Hrej. apply orb_true_iff in E3.
    destruct E3 as [E3|E3]; apply Z.gtb_lt in E3;
      [right; right; left | right; right; right]; lia. }
  apply orb_false_iff in E3. destruct E3 as [E3 E4].
  assert (len <= max_len) by (destruct (Z.gtb_spec len max_len); [discriminate|lia]).
  assert (len + 2 <= r) by (destruct (Z.gtb_spec (len + 2) r); [discriminate|lia]).
  exists len, (firstn (Z.to_nat len) (skipn 2 inbuf)). unfold ret, invalid.
  split; [reflexivity|]. split; [exact Hw|]. split.
  - split; [lia | intros [?|[?|[?|?]]]; lia].
  - intros _. split; [reflexivity|]. split; [reflexivity|].
    rewrite length_firstn, length_skipn. unfold r in *. lia.
Qed.

(** A transfer that ends in an error other than the timeout makes
    [bslhid_recv] fail before it looks at the frame. *)
Lemma bslhid_recv_transfer_error (env : usb_env) (tr : bslhid_transport)
      (max_len : Z) (w w' : world) (rc : Z) (inbuf : list Z) :
  handle tr <> 0 ->
  libusb_bulk_in env (handle tr) (in_ep tr) 64 BSLHID_TIMEOUT w
    = Some ((rc, inbuf), w') ->
  rc <> 0 -> rc <> LIBUSB_ERROR_TIMEOUT ->
  bslhid_recv env tr max_len w = Some ((-1, []), w').
Proof.
  intros Hh Hx H0 Ht. unfold bslhid_recv.
  destruct (handle tr =? 0) eqn:E; [apply Z.eqb_eq in E; contradiction|].
  unfold bind. change BSLHID_XFER_SIZE with 64. rewrite Hx.
  apply Z.eqb_neq in H0, Ht. now rewrite H0, Ht.
Qed.

Lemma bslhid_recv_validation_witness :
  exists (ret : Z) (out : list Z),
    bslhid_recv framing_env open_instance 16 []
    = Some ((ret, out), [Ev (c_bulk_in 5 129 64 BSLHID_TIMEOUT) 0]) /\
    ret = 3 /\ out = [1;2;3].
Proof.
  destruct (bslhid_recv_validation framing_env open_instance 16 []
              [Ev (c_bulk_in 5 129 64 BSLHID_TIMEOUT) 0] 0
              ([63;3;1;2;3] ++ repeat 172 59))
    as (ret & out & Hrun & _ & _ & Hok).
  - vm_compute. discriminate.
  - vm_compute. reflexivity.
  - left. reflexivity.
  - exists ret, out. split; [exact Hrun|].
    assert (Hvalid : ~ (Z.of_nat (length ([63;3;1;2;3] ++ repeat 172 59)) < 2 \/
                        load ([63;3;1;2;3] ++ repeat 172 59) 0 <> 63 \/
                        load ([63;3;1;2;3] ++ repeat 172 59) 1 > 16 \/
                        load ([63;3;1;2;3] ++ repeat 172 59) 1 + 2
                        > Z.of_nat (length ([63;3;1;2;3] ++ repeat 172 59)))).
    { vm_compute. intros [H|[H|[H|H]]]; try discriminate H. now apply H. }
    destruct (Hok Hvalid) as (Hr & Ho & _).
    split; [exact Hr | exact Ho].
Defined.

End BslhidFacts.


(* ================================================================= *)
(** ** Modem lines and auxiliary operations of the serial bridges *)

Section ModemFacts.
Import Libusb Scenarios.

(** [tr_flush] and [tr_set_modem] of the FTDI backend do not depend on
    the instance they are called on. *)
Lemma ftdi_aux_ignore_instance (env : usb_env) (dtr rts state : Z)
      (a b fresh : Ftdi.ftdi_transport) :
  Ftdi.tr_flush env a fresh = Ftdi.tr_flush env b fresh /\
  Ftdi.tr_set_modem env dtr rts a fresh state
  = Ftdi.tr_set_modem env dtr rts b fresh state.
Proof. split; reflexivity. Qed.

(** C3 at a concrete input.  The instance holds the open handle 5; the
    block [malloc] returns holds a null handle.  [tr_flush] and
    [tr_set_modem] send their control transfer to handle 0, not to
    handle 5. *)
Theorem ftdi_aux_operations_use_fresh_block :
  run (Ftdi.tr_flush accepting_env (Ftdi.mk_tr 5) (Ftdi.mk_tr 0))
  = Some (0, [Ev (c_control_transfer 0 64 0 1 0 [] 100) 0]) /\
  run (Ftdi.tr_set_modem accepting_env 1 2 (Ftdi.mk_tr 5) (Ftdi.mk_tr 0) 3)
  = Some (0, [Ev (c_control_transfer 0 64 1 768 0 [] 100) 0]).
Proof. split; vm_compute; reflexivity. Qed.




End ModemFacts.


(* ================================================================= *)
(** ** HID backend: identity across suspend and resume *)

Section BslhidIdentity.
Import Libusb Usbutil Bslhid Scenarios.

Lemma find_interface_loop_identity (cfgval : Z)
      (intfs : list interface_descriptor) :
  forall (i : Z) (tr : bslhid_transport),
    path (snd (find_interface_loop cfgval i intfs tr)) = path tr /\
    serial (snd (find_interface_loop cfgval i intfs tr)) = serial tr.
Proof.
  induction intfs as [|d rest IH]; intros i tr; simpl.
  - split; reflexivity.
  - destruct (negb (bInterfaceClass d =? BSLHID_CLASS)); [apply IH|].
    match goal with |- context [if ?b then _ else _] => destruct b end.
    + split; reflexivity.
    + destruct (IH (i + 1) (set_eps tr (fst (scan_endpoints (endpoint d)))
                                     (snd (scan_endpoints (endpoint d)))))
        as [Hp Hs].
      split; [rewrite Hp | rewrite Hs]; reflexivity.
Qed.

(** [open_device] never touches the recorded identity. *)
Lemma open_device_identity (env : usb_env) (tr tr' : bslhid_transport)
      (dev : libusb_device) (r : Z) (w w' : world) :
  open_device env tr dev w = Some ((r, tr'), w') ->
  path tr' = path tr /\ serial tr' = serial tr.
Proof.
  unfold open_device, find_interface, bind, libusb, libusb_open, ret.
  destruct (find_interface_loop_identity
              (bConfigurationValue (config dev)) (interface (config dev)) 0 tr)
    as [Hp Hs].
  destruct (find_interface_loop (bConfigurationValue (config dev)) 0
                                (interface (config dev)) tr) as [r1 tr1].
  simpl in Hp, Hs.
  repeat match goal with
         | |- context [if ?b then _ else _] => destruct b
         end;
    intros H; injection H as _ <- _; simpl; split;
    solve [reflexivity | assumption].
Qed.

(** Suspend keeps the identity and leaves the handle null. *)
Lemma bslhid_suspend_identity (env : usb_env) (tr tr' : bslhid_transport)
      (r : Z) (w w' : world) :
  bslhid_suspend env tr w = Some ((r, tr'), w') ->
  path tr' = path tr /\ serial tr' = serial tr /\ handle tr' = 0.
Proof.
  unfold bslhid_suspend, bind, libusb, ret.
  destruct (handle tr =? 0) eqn:E; simpl; intros H; injection H as _ <- _.
  - apply Z.eqb_eq in E. repeat split; assumption.
  - repeat split.
Qed.

(** A suspended instance without a recorded path cannot be resumed,
    whatever is on the bus: [bslhid_resume] fails without a single USB
    call. *)
Lemma bslhid_resume_needs_path (env : usb_env) (tr : bslhid_transport)
      (w : world) :
  handle tr = 0 ->
  path tr = EmptyString ->
  bslhid_resume env tr w = Some ((-1, tr), w).
Proof.
  intros Hh Hp. unfold bslhid_resume. rewrite Hh, Hp. reflexivity.
Qed.

(** An instance opened by serial number records the serial and no
    path. *)
Lemma bslhid_open_by_serial_identity (env : usb_env) (fuel : nat)
      (s : string) (tr : bslhid_transport) (w w' : world) :
  bslhid_open env fuel None (Some s) w = Some (Some tr, w') ->
  path tr = EmptyString /\
  serial tr
  = prefix_chars (if (String.length s <? 128)%nat
                  then String.length s else 127%nat) s.
Proof.
  unfold bslhid_open. unfold bind at 1 2.
  destruct (usbutil_find_by_id env BSLHID_VID BSLHID_PID (Some s) w)
    as [[dev w1]|]; [|discriminate].
  unfold ret at 1. cbn [fst snd].
  destruct dev as [dev|]; [|discriminate].
  unfold bind at 1.
  destruct (open_device env _ dev w1) as [[[r tr1] w2]|] eqn:Ho; [|discriminate].
  apply open_device_identity in Ho. cbn [path serial] in Ho.
  destruct (r <? 0); [discriminate|].
  unfold bind. destruct (bslhid_flush env fuel tr1 w2) as [[? ?]|]; [|discriminate].
  unfold ret. intros H. injection H as <- _. exact Ho.
Qed.

(** For every host and device: an instance opened by serial number,
    once suspended, still holds its serial, and resume fails without
    looking for the device. *)
Lemma bslhid_serial_instance_cannot_resume (env : usb_env) (fuel : nat)
      (s : string) (tr tr' : bslhid_transport) (r : Z) (w w1 w2 : world) :
  bslhid_open env fuel None (Some s) w = Some (Some tr, w1) ->
  bslhid_suspend env tr w1 = Some ((r, tr'), w2) ->
  serial tr' = serial tr /\
  bslhid_resume env tr' w2 = Some ((-1, tr'), w2).
Proof.
  intros Ho Hs.
  apply bslhid_open_by_serial_identity in Ho. destruct Ho as [Hp _].
  apply bslhid_suspend_identity in Hs. destruct Hs as (Hp' & Hs' & Hh).
  split; [exact Hs'|].
  apply bslhid_resume_needs_path; [exact Hh | congruence].
Qed.

(** C4 at a concrete input.  A bootloader with serial "ABC" sits at
    001:002 and every USB call succeeds.  The instance opened by serial
    "abc" records the serial; suspend keeps it and the device can still
    be found by that serial; resume fails, without looking for the
    device.  The instance opened by path "001:002" on the same bus
    resumes. *)
Theorem bslhid_resume_ignores_serial :
  (exists tr w1 tr' w2 w3,
      run (bslhid_open bsl_env 4 None (Some "abc"%string)) = Some (Some tr, w1) /\
      serial tr = "abc"%string /\ path tr = EmptyString /\ handle tr = 9 /\
      bslhid_suspend bsl_env tr w1 = Some ((0, tr'), w2) /\
      serial tr' = "abc"%string /\ handle tr' = 0 /\
      usbutil_find_by_id bsl_env BSLHID_VID BSLHID_PID (Some (serial tr')) w2
      = Some (Some bsl_device, w3) /\
      bslhid_resume bsl_env tr' w2 = Some ((-1, tr'), w2)) /\
  (exists tr w1 tr' w2 tr'' w3,
      run (bslhid_open bsl_env 4 (Some "001:002"%string) None)
      = Some (Some tr, w1) /\
      path tr = "001:002"%string /\
      bslhid_suspend bsl_env tr w1 = Some ((0, tr'), w2) /\
      path tr' = "001:002"%string /\ handle tr' = 0 /\
      bslhid_resume bsl_env tr' w2 = Some ((0, tr''), w3) /\
      handle tr'' <> 0).
Proof.
  split.
  - do 5 eexists.
    split; [vm_compute; reflexivity|].
    split; [reflexivity|]. split; [reflexivity|]. split; [reflexivity|].
    split; [vm_compute; reflexivity|].
    split; [reflexivity|]. split; [reflexivity|].
    split; vm_compute; reflexivity.
  - do 6 eexists.
    split; [vm_compute; reflexivity|].
    split; [reflexivity|].
    split; [vm_compute; reflexivity|].
    split; [reflexivity|]. split; [reflexivity|].
    split; [vm_compute; reflexivity|].
    vm_compute. discriminate.
Qed.

(** The path is kept in an array of 8 characters: of a longer path only
    the first 7 are recorded, and it is that prefix resume looks up. *)
Lemma bslhid_open_records_path_prefix :
  exists tr w,
    run (bslhid_open bsl_env 4 (Some "001:0002"%string) None)
    = Some (Some tr, w) /\
    path tr = "001:000"%string.
Proof.
  do 2 eexists. split; [vm_compute; reflexivity | reflexivity].
Qed.

End BslhidIdentity.


(* ================================================================= *)
(** ** Failure paths of open *)

Section OpenFailure.
Import Libusb Usbutil Scenarios.

Lemma released_snoc (w : world) (e : event) :
  released (w ++ [e]) = released w ++ released [e].
Proof.
  induction w as [|[c rc] w IH]; [reflexivity|].
  destruct c; simpl; rewrite ?IH; reflexivity.
Qed.

Lemma never_releases_ret {A : Type} (a : A) : never_releases (ret a).
Proof. intros w w' b H. now inversion H. Qed.

Lemma never_releases_bind {A B : Type} (m : M A) (k : A -> M B) :
  never_releases m -> (forall a, never_releases (k a)) ->
  never_releases (bind m k).
Proof.
  intros Hm Hk w w' b. unfold bind.
  destruct (m w) as [[a w1]|] eqn:E; [|discriminate].
  intros H. rewrite (Hk a w1 w' b H). exact (Hm w w1 a E).
Qed.

Lemma never_releases_libusb (env : usb_env) (c : call) :
  (forall h i, c <> c_release_interface h i) ->
  never_releases (libusb env c).
Proof.
  intros Hc w w' a H. unfold libusb in H. injection H as _ <-.
  rewrite released_snoc.
  destruct c; simpl; rewrite ?app_nil_r; try reflexivity.
  exfalso. eapply Hc. reflexivity.
Qed.

Lemma never_releases_open (env : usb_env) (dev : libusb_device)
      (h : usb_handle) :
  never_releases (libusb_open env dev h).
Proof.
  intros w w' a H. unfold libusb_open in H. injection H as _ <-.
  rewrite released_snoc. simpl. now rewrite app_nil_r.
Qed.

Lemma never_releases_stuck {A : Type} : never_releases (@stuck A).
Proof. intros w w' a H. discriminate H. Qed.

Ltac never_releases_step :=
  first
    [ apply never_releases_ret
    | apply never_releases_stuck
    | apply never_releases_open
    | apply never_releases_libusb; intros; discriminate
    | apply never_releases_bind; [|intros]
    | match goal with
      | |- never_releases (if ?b then _ else _) => destruct b
      | |- never_releases (match ?x with (_, _) => _ end) => destruct x
      end ].

(** The FTDI [open_device] never calls [libusb_release_interface]. *)
Lemma ftdi_open_device_never_releases (env : usb_env)
      (tr : Ftdi.ftdi_transport) (dev : libusb_device) (baud_rate : Z) :
  never_releases (Ftdi.open_device env tr dev baud_rate).
Proof.
  unfold Ftdi.open_device, Ftdi.configure_ftdi, Ftdi.or_else,
    Ftdi.cfg_fails, Ftdi.do_cfg.
  repeat never_releases_step.
Qed.

(** Neither does the CP210x [open_interface]. *)
Lemma cp210x_open_interface_never_releases (env : usb_env)
      (tr : Cp210x.cp210x_transport) (dev : libusb_device)
      (ino baud_rate : Z) :
  never_releases (Cp210x.open_interface env tr dev ino baud_rate).
Proof.
  unfold Cp210x.open_interface, Cp210x.configure_port, Cp210x.control.
  repeat never_releases_step.
Qed.

(** C5 at a concrete input.  A bridge at 001:002 stalls every control
    transfer.  [cp210x_open] and [ftdi_open] open the device, claim
    interface 0, fail in port configuration and return NULL having
    closed the handle; the claimed interface was not released. *)
Theorem failed_open_leaves_interface_claimed :
  (exists w,
      run (Cp210x.cp210x_open (stalling_env [bridge_device 4292 60000 255])
                              4 (Some "001:002"%string) None
                              9600 4292 60000)
      = Some (None, w) /\
      opened w = [4] /\ closed w = [4] /\
      claimed w = [(4, 0)] /\ released w = [] /\
      dangling_claims w = [(4, 0)]) /\
  (exists w,
      run (Ftdi.ftdi_open (stalling_env [bridge_device 1027 24577 255])
                          (Some "001:002"%string) None 1027 24577 9600)
      = Some (None, w) /\
      opened w = [3] /\ closed w = [3] /\
      claimed w = [(3, 0)] /\ released w = [] /\
      dangling_claims w = [(3, 0)]).
Proof.
  split; eexists; (split; [vm_compute; reflexivity|]);
    repeat split; vm_compute; reflexivity.
Qed.

(** On the same failure the CDC-ACM backend unwinds through
    [usbtr_destroy]: the interface is released before the handle is
    closed. *)
Lemma cdc_acm_failed_open_releases :
  exists w,
    run (CdcAcm.cdc_acm_open (stalling_env [bridge_device 1027 24577 10])
                             4 (Some "001:002"%string) None
                             9600 1027 24577)
    = Some (None, w) /\
    opened w = [3] /\ closed w = [3] /\
    claimed w = [(3, 0)] /\ released w = [(3, 0)] /\
    dangling_claims w = [] /\ dangling_handles w = [].
Proof.
  eexists; (split; [vm_compute; reflexivity|]);
    repeat split; vm_compute; reflexivity.
Qed.

(** A control transfer with a data stage that is answered by the number
    of bytes transferred makes [configure_port] of the CDC-ACM backend
    fail, for every host. *)
Lemma cdc_configure_port_rejects_byte_count (env : usb_env)
      (tr : CdcAcm.cdc_acm_transport) (baud_rate : Z) (w : world) :
  answer env (length w)
         (c_control_transfer (CdcAcm.handle tr) 33 32 0 0
                             (CdcAcm.line_coding baud_rate) 300)
  = 7 ->
  exists w',
    CdcAcm.configure_port env tr baud_rate w = Some (-1, w').
Proof.
  intros H. unfold CdcAcm.configure_port, bind, libusb.
  unfold CdcAcm.CDC_REQTYPE_HOST_TO_DEVICE, CdcAcm.CDC_SET_LINE_CODING.
  rewrite H. eexists. reflexivity.
Qed.

End OpenFailure.


(* ================================================================= *)
(** ** Port bring-up: control transfers with a data stage *)

Section BringUp.
Import Libusb Usbutil Scenarios.

(** [set_termios] fails on every answer other than 0, the byte count of
    a complete transfer included. *)
Lemma set_termios_rejects_byte_count (env : usb_env)
      (tr : Ti3410.ti3410_transport) (w : world) :
  answer env (length w)
         (c_control_transfer (Ti3410.handle tr) 64 5 0 3
                             Ti3410.tios_data 1000)
  = 10 ->
  exists w', Ti3410.set_termios env tr w = Some (-1, w').
Proof.
  intros H. unfold Ti3410.set_termios, Ti3410.vendor_request, bind, libusb.
  change (Z.lor USB_TYPE_VENDOR USB_RECIP_DEVICE) with 64.
  unfold Ti3410.TI_SET_CONFIG, Ti3410.TI_UART1_PORT, Ti3410.TIMEOUT.
  rewrite H. eexists. reflexivity.
Qed.

(** C6 at a concrete input.  The host answers every control transfer
    with the number of bytes of its data stage, as a transfer that
    delivered everything does.  The 7-byte line-coding transfer is
    answered 7 and [configure_port] returns -1; the 10-byte UART
    configuration is answered 10 and [set_termios] returns -1; in both
    backends open stops there and returns NULL. *)
Theorem complete_transfer_taken_for_failure :
  run (CdcAcm.configure_port (counting_env [])
                             (CdcAcm.mk_tr 0 5 129 1 0 0 []) 9600)
  = Some (-1, [Ev (c_control_transfer 5 33 32 0 0 [128;37;0;0;0;0;8] 300) 7])
  /\
  run (Ti3410.set_termios (counting_env []) (Ti3410.mk_tr 5))
  = Some (-1, [Ev (c_control_transfer 5 64 5 0 3 [0;2;96;0;3;0;0;0;0;0] 1000)
                 10])
  /\
  (exists w,
      run (CdcAcm.cdc_acm_open (counting_env [bridge_device 1027 24577 10])
                               4 (Some "001:002"%string) None
                               9600 1027 24577)
      = Some (None, w) /\
      last w (Ev c_time 0) = Ev (c_close 3) 0 /\
      existsb (fun e => match e with
                        | Ev (c_control_transfer _ _ _ _ _ (_ :: _) _) rc =>
                            rc =? 7
                        | _ => false
                        end) w = true)
  /\
  (exists w,
      run (Ti3410.ti3410_open (counting_env [bridge_device 1105 62512 255])
                              4 0 None (Some "001:002"%string) None)
      = Some (None, w) /\
      existsb (fun e => match e with
                        | Ev (c_control_transfer _ _ _ _ _ (_ :: _) _) rc =>
                            rc =? 10
                        | _ => false
                        end) w = true).
Proof.
  split; [vm_compute; reflexivity|].
  split; [vm_compute; reflexivity|].
  split; eexists; (split; [vm_compute; reflexivity|]);
    repeat split; vm_compute; reflexivity.
Qed.

(** When the same transfers are answered 0 the bring-up goes through:
    the failure above is due to the byte count alone. *)
Lemma bring_up_passes_on_zero :
  run (CdcAcm.configure_port accepting_env
                             (CdcAcm.mk_tr 0 5 129 1 0 0 []) 9600)
  = Some (0, [Ev (c_control_transfer 5 33 32 0 0 [128;37;0;0;0;0;8] 300) 0;
              Ev (c_control_transfer 5 33 34 0 0 [] 300) 0])
  /\
  run (Ti3410.set_termios accepting_env (Ti3410.mk_tr 5))
  = Some (0, [Ev (c_control_transfer 5 64 5 0 3 [0;2;96;0;3;0;0;0;0;0] 1000)
                0]).
Proof. split; vm_compute; reflexivity. Qed.

(** The CP210x bring-up tests [rc < 0]: for a baud rate other than 0,
    no answer that is zero or positive is taken for a failure there. *)
Lemma cp210x_configure_port_accepts_nonnegative (env : usb_env)
      (tr : Cp210x.cp210x_transport) (baud_rate : Z) (w : world) :
  baud_rate <> 0 ->
  (forall n c, 0 <= answer env n c) ->
  exists w', Cp210x.configure_port env tr baud_rate w = Some (0, w').
Proof.
  intros Hb Hpos. apply Z.eqb_neq in Hb.
  unfold Cp210x.configure_port, Cp210x.control, bind, libusb.
  rewrite Hb.
  repeat match goal with
         | |- context [answer env ?n ?c <? 0] =>
             let E := fresh "E" in
             destruct (Z.ltb_spec (answer env n c) 0) as [E|E];
             [specialize (Hpos n c); lia|]
         end.
  eexists. reflexivity.
Qed.

End BringUp.


(* ================================================================= *)
(** ** What recv returns *)

Section RecvFacts.
Import Libusb Usbutil Scenarios.

Lemma libusb_bulk_in_spec (env : usb_env) (h : usb_handle)
      (ep len t : Z) (w : world) :
  exists (rc : Z) (tmp : list Z),
    libusb_bulk_in env h ep len t w
    = Some ((rc, tmp), w ++ [Ev (c_bulk_in h ep len t) rc]) /\
    tmp = map uint8 (firstn (Z.to_nat len)
                            (inbound env (length w) (c_bulk_in h ep len t))) /\
    (length tmp <= Z.to_nat len)%nat.
Proof.
  eexists. eexists. split; [reflexivity|]. split; [reflexivity|].
  rewrite length_map, length_firstn. lia.
Qed.

Lemma time_spec (env : usb_env) (w : world) :
  time env w
  = Some (answer env (length w) c_time,
          w ++ [Ev c_time (answer env (length w) c_time)]).
Proof. reflexivity. Qed.












(** The CDC-ACM [usbtr_recv] makes one transfer and returns what is in
    its buffer: when nothing arrived it returns 0.  The CP210x
    [usbtr_recv] returns the length of any transfer that completed, a
    zero-length one included. *)
Lemma serial_recv_empty_success :
  fst_of (run (CdcAcm.usbtr_recv accepting_env
                                 (CdcAcm.mk_tr 0 5 129 1 0 0 (repeat 0 8))
                                 16))
  = Some (0, [], CdcAcm.mk_tr 0 5 129 1 0 0 (repeat 0 8)) /\
  run (Cp210x.usbtr_recv accepting_env 3 (Cp210x.mk_tr 5 0) 16)
  = Some ((0, []),
          [Ev c_time 0; Ev c_time 0; Ev (c_bulk_in 5 129 16 30000) 0]).
Proof. split; vm_compute; reflexivity. Qed.

End RecvFacts.

(* ================================================================= *)
(** ** Locating a device *)

Section UsbutilFacts.
Import Libusb Usbutil Scenarios.

Lemma prefix_chars_all (n : nat) (s : string) :
  (String.length s <= n)%nat -> prefix_chars n s = s.
Proof.
  unfold prefix_chars. revert n.
  induction s as [|c s IH]; intros n H.
  - destruct n; reflexivity.
  - destruct n as [|n]; simpl in H; [lia|].
    simpl. f_equal. apply IH. lia.
Qed.

Lemma take_token_first (bt rest : string) :
  no_delim bt = true ->
  take_token (String.append bt (String ":"%char rest)) = (bt, rest).
Proof.
  induction bt as [|c bt IH]; intros H.
  - reflexivity.
  - simpl in H. apply andb_true_iff in H. destruct H as [Hc Hr].
    apply negb_true_iff in Hc.
    simpl. rewrite Hc, (IH Hr). reflexivity.
Qed.

Lemma take_token_last (dt : string) :
  no_delim dt = true -> take_token dt = (dt, EmptyString).
Proof.
  induction dt as [|c dt IH]; intros H.
  - reflexivity.
  - simpl in H. apply andb_true_iff in H. destruct H as [Hc Hr].
    apply negb_true_iff in Hc.
    simpl. rewrite Hc, (IH Hr). reflexivity.
Qed.

(** The two [strtok] calls of [usbutil_find_by_loc] on "<bus>:<device>". *)
Lemma strtok_location (bt dt : string) :
  no_delim bt = true -> bt <> EmptyString ->
  no_delim dt = true -> dt <> EmptyString ->
  strtok (String.append bt (String ":"%char dt)) = Some (bt, dt) /\
  strtok dt = Some (dt, EmptyString).
Proof.
  intros Hb Hbn Hd Hdn. unfold strtok. split.
  - destruct bt as [|c bt]; [contradiction|].
    pose proof Hb as Hb'. simpl in Hb'.
    apply andb_true_iff in Hb'. destruct Hb' as [Hc _].
    apply negb_true_iff in Hc.
    cbn [String.append skip_delims]. rewrite Hc.
    change (String c (String.append bt (String ":"%char dt)))
      with (String.append (String c bt) (String ":"%char dt)).
    now rewrite take_token_first.
  - destruct dt as [|c dt]; [contradiction|].
    pose proof Hd as Hd'. simpl in Hd'.
    apply andb_true_iff in Hd'. destruct Hd' as [Hc _].
    apply negb_true_iff in Hc.
    cbn [skip_delims]. rewrite Hc.
    now rewrite take_token_last.
Qed.

Lemma strtok_single (s : string) :
  no_delim s = true ->
  strtok s = None \/ strtok s = Some (s, EmptyString).
Proof.
  intros H. unfold strtok. destruct s as [|c s]; [left; reflexivity|].
  pose proof H as H'. simpl in H'.
  apply andb_true_iff in H'. destruct H' as [Hc _].
  apply negb_true_iff in Hc.
  cbn [skip_delims]. rewrite Hc. right. now rewrite take_token_last.
Qed.

Lemma n_opened_snoc (w : world) (e : event) :
  n_opened (w ++ [e]) = (n_opened w + n_opened [e])%nat.
Proof. unfold n_opened. now rewrite filter_app, length_app. Qed.

Lemma n_closed_snoc (w : world) (e : event) :
  n_closed (w ++ [e]) = (n_closed w + n_closed [e])%nat.
Proof. unfold n_closed. now rewrite filter_app, length_app. Qed.

Lemma n_claimed_snoc (w : world) (e : event) :
  n_claimed (w ++ [e]) = (n_claimed w + n_claimed [e])%nat.
Proof. unfold n_claimed. now rewrite filter_app, length_app. Qed.

Lemma n_released_snoc (w : world) (e : event) :
  n_released (w ++ [e]) = (n_released w + n_released [e])%nat.
Proof. unfold n_released. now rewrite filter_app, length_app. Qed.

(** The device loop of [usbutil_find_by_loc]: what it returns is a
    device of the list at the wanted position, or what was found
    before; no device is opened. *)
Lemma find_by_loc_loop_spec (env : usb_env) (tb td : Z)
      (devs : list libusb_device) :
  forall (found : option libusb_device) (w : world),
  exists (found' : option libusb_device) (w' : world),
    find_by_loc_loop env tb td devs found w = Some (found', w') /\
    (forall dev, found' = Some dev ->
                 found = Some dev \/
                 (In dev devs /\ bus_number dev = tb /\
                  device_address dev = td)) /\
    (found' = None ->
     found = None /\
     forall dev, In dev devs ->
                 ~ (bus_number dev = tb /\ device_address dev = td)) /\
    n_opened w' = n_opened w.
Proof.
  induction devs as [|d devs IH]; intros found w.
  - exists found, w. split; [reflexivity|]. split; [auto|].
    split; [|reflexivity]. intros ->. split; [reflexivity|].
    intros dev [].
  - cbn [find_by_loc_loop].
    destruct ((bus_number d =? tb) && (device_address d =? td)) eqn:E.
    + apply andb_true_iff in E. destruct E as [Eb Ed].
      apply Z.eqb_eq in Eb, Ed.
      destruct (IH (Some d) w) as (f' & w' & Hrun & Hs & Hn & Ho).
      exists f', w'. split; [exact Hrun|]. split; [|split; [|exact Ho]].
      * intros dev Hdev. right.
        destruct (Hs dev Hdev) as [Hd | (Hin & Hb & Ha)].
        -- injection Hd as <-. split; [left; reflexivity|]. now split.
        -- split; [right; exact Hin|]. now split.
      * intros Hnone. destruct (Hn Hnone) as [Hd _]. discriminate.
    + unfold bind at 1. unfold libusb at 1.
      destruct (IH found (w ++ [Ev (c_unref_device d)
                                   (answer env (length w) (c_unref_device d))]))
        as (f' & w' & Hrun & Hs & Hn & Ho).
      exists f', w'. split; [exact Hrun|]. split; [|split].
      * intros dev Hdev.
        destruct (Hs dev Hdev) as [Hd | (Hin & Hb & Ha)]; [left; exact Hd|].
        right. split; [right; exact Hin|]. now split.
      * intros Hnone. destruct (Hn Hnone) as [Hd Hall].
        split; [exact Hd|]. intros dev [<- | Hin]; [|now apply Hall].
        intros [Hb Ha]. apply Z.eqb_eq in Hb, Ha.
        rewrite Hb, Ha in E. discriminate.
      * rewrite Ho, n_opened_snoc. unfold n_opened. simpl. lia.
Qed.

(** X1.  A location "<bus>:<device>" of at most 63 characters, both
    parts non-empty, free of the delimiters and denoting numbers that
    fit an [int], makes [usbutil_find_by_loc] enumerate the bus once
    and return a device whose bus number and address are the two
    numbers read by [atoi]; it returns NULL exactly when no enumerated
    device sits there, and it opens no device. *)
Theorem usbutil_find_by_loc_finds_location (env : usb_env)
        (bt dt : string) (w : world) :
  no_delim bt = true -> bt <> EmptyString ->
  no_delim dt = true -> dt <> EmptyString ->
  (String.length (String.append bt (String ":"%char dt)) <= 63)%nat ->
  fits_int (atoi bt) -> fits_int (atoi dt) ->
  exists (found : option libusb_device) (w' : world),
    usbutil_find_by_loc env (Some (String.append bt (String ":"%char dt))) w
    = Some (found, w') /\
    (forall dev, found = Some dev ->
                 In dev (bus env (length w)) /\
                 bus_number dev = atoi bt /\
                 device_address dev = atoi dt) /\
    (found = None <->
     forall dev, In dev (bus env (length w)) ->
                 ~ (bus_number dev = atoi bt /\
                    device_address dev = atoi dt)) /\
    n_opened w' = n_opened w.
Proof.
  intros Hb Hbn Hd Hdn Hlen _ _.
  destruct (strtok_location bt dt Hb Hbn Hd Hdn) as [H1 H2].
  unfold usbutil_find_by_loc.
  rewrite (prefix_chars_all 63 _ Hlen), H1, H2.
  unfold bind, libusb_get_device_list.
  destruct (find_by_loc_loop_spec env (atoi bt) (atoi dt)
              (bus env (length w)) None
              (w ++ [Ev c_get_device_list 0]))
    as (f' & w' & Hrun & Hs & Hn & Ho).
  exists f', w'. split; [exact Hrun|]. split; [|split].
  - intros dev Hdev.
    destruct (Hs dev Hdev) as [Hx | Hx]; [discriminate | exact Hx].
  - split.
    + intros Hnone. apply (Hn Hnone).
    + intros Hall. destruct f' as [dev|]; [|reflexivity].
      destruct (Hs dev eq_refl) as [Hx | (Hin & Hm)]; [discriminate|].
      exfalso. exact (Hall dev Hin Hm).
  - rewrite Ho, n_opened_snoc. unfold n_opened. simpl. lia.
Qed.

Lemma usbutil_find_by_loc_finds_location_witness :
  exists (found : option libusb_device) (w' : world),
    usbutil_find_by_loc bsl_env (Some "001:002"%string) []
    = Some (found, w') /\
    (forall dev, found = Some dev ->
                 In dev [bsl_device] /\
                 bus_number dev = 1 /\ device_address dev = 2).
Proof.
  destruct (usbutil_find_by_loc_finds_location bsl_env "001"%string
              "002"%string [])
    as (found & w' & Hrun & Hs & _ & _).
  - reflexivity.
  - discriminate.
  - reflexivity.
  - discriminate.
  - simpl. lia.
  - vm_compute. split; discriminate.
  - vm_compute. split; discriminate.
  - exists found, w'. split; [exact Hrun | exact Hs].
Defined.

(** X2.  A location without a second token (no ':' nor any other
    delimiter in its first 63 characters, the empty string included)
    makes [usbutil_find_by_loc] return NULL without enumerating the
    bus. *)
Theorem usbutil_find_by_loc_rejects_single_token (env : usb_env)
        (loc : string) (w : world) :
  no_delim (prefix_chars 63 loc) = true ->
  usbutil_find_by_loc env (Some loc) w = Some (None, w).
Proof.
  intros H. unfold usbutil_find_by_loc.
  destruct (strtok_single _ H) as [-> | ->]; [reflexivity|].
  reflexivity.
Qed.

Lemma usbutil_find_by_loc_rejects_single_token_witness :
  usbutil_find_by_loc bsl_env (Some "usb1"%string) [] = Some (None, []).
Proof.
  apply (usbutil_find_by_loc_rejects_single_token bsl_env "usb1"%string []).
  reflexivity.
Defined.

(** [read_serial] closes the handle it opens on every path, and on
    success hands back the first [max_len - 1] characters of the serial
    string. *)
Lemma read_serial_spec (env : usb_env) (dev : libusb_device)
      (max_len : nat) (w : world) :
  exists (r : Z) (buf : string) (w' : world) (k : nat),
    read_serial env dev max_len w = Some ((r, buf), w') /\
    (r = 0 -> buf = prefix_chars (max_len - 1) (serial_string dev)) /\
    n_opened w' = (n_opened w + k)%nat /\
    n_closed w' = (n_closed w + k)%nat /\
    n_claimed w' = n_claimed w.
Proof.
  unfold read_serial, bind, libusb_open, libusb, ret.
  destruct (answer env (length w) (c_open dev) =? 0) eqn:E0; cbn [negb].
  2:{ exists (-1), EmptyString. eexists. exists 0%nat.
      split; [reflexivity|]. split; [discriminate|].
      rewrite n_opened_snoc, n_closed_snoc, n_claimed_snoc.
      unfold n_opened, n_closed, n_claimed. simpl. rewrite E0. simpl. lia. }
  repeat match goal with
         | |- context [if ?b then _ else _] => destruct b
         end;
    eexists; eexists; eexists; exists 1%nat;
    (split; [reflexivity|]);
    (split; [try discriminate; intros _; reflexivity|]);
    rewrite ?n_opened_snoc, ?n_closed_snoc, ?n_claimed_snoc;
    unfold n_opened, n_closed, n_claimed; simpl; rewrite E0; simpl; lia.
Qed.

Lemma find_by_id_loop_spec (env : usb_env) (vendor product : Z)
      (rs : option string) (devs : list libusb_device) :
  forall (found : option libusb_device) (w : world),
  exists (found' : option libusb_device) (w' : world) (k : nat),
    find_by_id_loop env vendor product rs devs found w = Some (found', w') /\
    (forall dev, found' = Some dev ->
                 found = Some dev \/
                 (In dev devs /\ idVendor dev = vendor /\
                  idProduct dev = product /\
                  forall s, rs = Some s ->
                            strcasecmp_eq
                              s (prefix_chars 127 (serial_string dev))
                            = true)) /\
    n_opened w' = (n_opened w + k)%nat /\
    n_closed w' = (n_closed w + k)%nat /\
    n_claimed w' = n_claimed w.
Proof.
  induction devs as [|d devs IH]; intros found w.
  - exists found, w, 0%nat. split; [reflexivity|].
    split; [auto|]. repeat split; lia.
  - cbn [find_by_id_loop]. unfold bind at 1. unfold libusb at 1.
    set (w1 := w ++ [Ev (c_get_device_descriptor d)
                        (answer env (length w) (c_get_device_descriptor d))]).
    assert (Hw1 : n_opened w1 = n_opened w /\ n_closed w1 = n_closed w /\
                  n_claimed w1 = n_claimed w).
    { unfold w1. rewrite n_opened_snoc, n_closed_snoc, n_claimed_snoc.
      unfold n_opened, n_closed, n_claimed. simpl. lia. }
    destruct Hw1 as (Ho1 & Hc1 & Hk1).
    assert (Hskip : forall f0,
      (forall dev, f0 = Some dev -> found = Some dev) ->
      exists found' w' k,
        find_by_id_loop env vendor product rs devs f0 w1 = Some (found', w') /\
        (forall dev, found' = Some dev ->
                 found = Some dev \/
                 (In dev (d :: devs) /\ idVendor dev = vendor /\
                  idProduct dev = product /\
                  forall s, rs = Some s ->
                            strcasecmp_eq
                              s (prefix_chars 127 (serial_string dev))
                            = true)) /\
        n_opened w' = (n_opened w + k)%nat /\
        n_closed w' = (n_closed w + k)%nat /\
        n_claimed w' = n_claimed w).
    { intros f0 Hf0.
      destruct (IH f0 w1) as (f' & w' & k & Hrun & Hs & Ho & Hc & Hk).
      exists f', w', k. split; [exact Hrun|]. split.
      - intros dev Hdev.
        destruct (Hs dev Hdev) as [Hx | (Hin & Hrest)];
          [left; now apply Hf0 | right; split; [right; exact Hin | exact Hrest]].
      - repeat split; lia. }
    destruct (negb (answer env (length w) (c_get_device_descriptor d) =? 0)).
    { apply Hskip. auto. }
    destruct ((idVendor d =? vendor) && (idProduct d =? product)) eqn:Evp.
    2:{ apply Hskip. auto. }
    apply andb_true_iff in Evp. destruct Evp as [Ev1 Ev2].
    apply Z.eqb_eq in Ev1, Ev2.
    destruct rs as [wanted|].
    + unfold bind at 1.
      destruct (read_serial_spec env d 128 w1)
        as (r & buf & w2 & k2 & Hrs & Hbuf & Ho2 & Hc2 & Hk2).
      rewrite Hrs.
      destruct ((r =? 0) && strcasecmp_eq wanted buf) eqn:Em.
      * apply andb_true_iff in Em. destruct Em as [Er Es].
        apply Z.eqb_eq in Er. specialize (Hbuf Er).
        change (128 - 1)%nat with 127%nat in Hbuf. subst buf.
        destruct (IH (Some d) w2) as (f' & w' & k & Hrun & Hs & Ho & Hc & Hk).
        exists f', w', (k2 + k)%nat. split; [exact Hrun|]. split.
        -- intros dev Hdev. right.
           destruct (Hs dev Hdev) as [Hx | (Hin & Hrest)].
           ++ injection Hx as <-. split; [left; reflexivity|].
              split; [exact Ev1|]. split; [exact Ev2|].
              intros s Hs'. injection Hs' as <-. exact Es.
           ++ split; [right; exact Hin | exact Hrest].
        -- repeat split; lia.
      * unfold bind at 1. unfold libusb at 1.
        set (w3 := w2 ++ [Ev (c_unref_device d)
                             (answer env (length w2) (c_unref_device d))]).
        assert (Hw3 : n_opened w3 = n_opened w2 /\
                      n_closed w3 = n_closed w2 /\
                      n_claimed w3 = n_claimed w2).
        { unfold w3. rewrite n_opened_snoc, n_closed_snoc, n_claimed_snoc.
          unfold n_opened, n_closed, n_claimed. simpl. lia. }
        destruct Hw3 as (Ho3 & Hc3 & Hk3).
        destruct (IH found w3) as (f' & w' & k & Hrun & Hs & Ho & Hc & Hk).
        exists f', w', (k2 + k)%nat. split; [exact Hrun|]. split.
        -- intros dev Hdev.
           destruct (Hs dev Hdev) as [Hx | (Hin & Hrest)];
             [left; exact Hx | right; split; [right; exact Hin | exact Hrest]].
        -- repeat split; lia.
    + destruct (IH (Some d) w1) as (f' & w' & k & Hrun & Hs & Ho & Hc & Hk).
      exists f', w', k. split; [exact Hrun|]. split.
      * intros dev Hdev. right.
        destruct (Hs dev Hdev) as [Hx | (Hin & Hrest)].
        -- injection Hx as <-. split; [left; reflexivity|].
           split; [exact Ev1|]. split; [exact Ev2|]. intros s Hs'. discriminate.
        -- split; [right; exact Hin | exact Hrest].
      * repeat split; lia.
Qed.

(** X3.  What [usbutil_find_by_id] returns is a device of the
    enumeration with the wanted vendor and product id and, when a serial
    number was requested, a serial string whose first 127 characters
    equal it up to case.  Every handle it opened to read a serial number
    is closed again, and it claims nothing. *)
Theorem usbutil_find_by_id_sound (env : usb_env) (vendor product : Z)
        (rs : option string) (w w' : world)
        (found : option libusb_device) :
  usbutil_find_by_id env vendor product rs w = Some (found, w') ->
  (forall dev, found = Some dev ->
               In dev (bus env (length w)) /\
               idVendor dev = vendor /\ idProduct dev = product /\
               forall s, rs = Some s ->
                         strcasecmp_eq s (prefix_chars 127 (serial_string dev))
                         = true) /\
  (exists k : nat,
      n_opened w' = (n_opened w + k)%nat /\
      n_closed w' = (n_closed w + k)%nat) /\
  n_claimed w' = n_claimed w.
Proof.
  unfold usbutil_find_by_id, bind, libusb_get_device_list.
  destruct (find_by_id_loop_spec env vendor product rs (bus env (length w))
              None (w ++ [Ev c_get_device_list 0]))
    as (f' & w2 & k & Hrun & Hs & Ho & Hc & Hk).
  rewrite Hrun. intros H. injection H as <- <-.
  rewrite n_opened_snoc in Ho. rewrite n_closed_snoc in Hc.
  rewrite n_claimed_snoc in Hk.
  unfold n_opened at 3 in Ho. unfold n_closed at 3 in Hc.
  unfold n_claimed at 3 in Hk. simpl in Ho, Hc, Hk.
  split; [|split; [exists k; split; lia | lia]].
  intros dev Hdev.
  destruct (Hs dev Hdev) as [Hx | Hx]; [discriminate | exact Hx].
Qed.

Lemma usbutil_find_by_id_sound_witness :
  idVendor bsl_device = 8263 /\
  strcasecmp_eq "abc" (prefix_chars 127 (serial_string bsl_device)) = true.
Proof.
  assert (Hrun : usbutil_find_by_id bsl_env 8263 512 (Some "abc"%string) []
                 = Some (Some bsl_device,
                         snd (match usbutil_find_by_id bsl_env 8263 512
                                      (Some "abc"%string) [] with
                              | Some p => p
                              | None => (None, [])
                              end)))
    by (vm_compute; reflexivity).
  destruct (usbutil_find_by_id_sound _ _ _ _ _ _ _ Hrun) as (Hs & _ & _).
  destruct (Hs bsl_device eq_refl) as (_ & Hv & _ & Hser).
  split; [exact Hv | exact (Hser "abc"%string eq_refl)].
Defined.

End UsbutilFacts.

(* ================================================================= *)
(** ** The send loops *)

Section SendFacts.
Import Libusb Usbutil Scenarios.

Lemma ftdi_send_loop_shape (env : usb_env) (tr : Ftdi.ftdi_transport) :
  forall (fuel : nat) (d : list Z) (w : world),
    Ftdi.send_loop env fuel tr d w
    = write_all env fuel (Ftdi.handle tr) Ftdi.EP_OUT
                (Ftdi.TIMEOUT_S * 1000) d w.
Proof.
  induction fuel as [|f IH]; intros d w; simpl;
    destruct (Z.of_nat (length d) =? 0); try reflexivity.
  unfold bind. destruct (libusb_bulk_out _ _ _ _ _ w) as [[[rc sent] w1]|];
    [|reflexivity].
  destruct (negb (rc =? 0) && negb (rc =? LIBUSB_ERROR_TIMEOUT));
    [reflexivity | apply IH].
Qed.

Lemma cp210x_send_loop_shape (env : usb_env) (tr : Cp210x.cp210x_transport) :
  forall (fuel : nat) (d : list Z) (w : world),
    Cp210x.send_loop env fuel tr d w
    = write_all env fuel (Cp210x.handle tr) Cp210x.V1_OUT_EP
                (Cp210x.TIMEOUT_S * 1000) d w.
Proof.
  induction fuel as [|f IH]; intros d w; simpl;
    destruct (Z.of_nat (length d) =? 0); try reflexivity.
  unfold bind. destruct (libusb_bulk_out _ _ _ _ _ w) as [[[rc sent] w1]|];
    [|reflexivity].
  destruct (negb (rc =? 0) && negb (rc =? LIBUSB_ERROR_TIMEOUT));
    [reflexivity | apply IH].
Qed.

Lemma ti3410_send_loop_shape (env : usb_env) (tr : Ti3410.ti3410_transport) :
  forall (fuel : nat) (d : list Z) (w : world),
    Ti3410.send_loop env fuel tr d w
    = write_all env fuel (Ti3410.handle tr) Ti3410.USB_FET_OUT_EP
                Ti3410.TIMEOUT d w.
Proof.
  induction fuel as [|f IH]; intros d w; simpl;
    destruct (Z.of_nat (length d) =? 0); try reflexivity.
  unfold bind. destruct (libusb_bulk_out _ _ _ _ _ w) as [[[rc sent] w1]|];
    [|reflexivity].
  destruct (negb (rc =? 0) && negb (rc =? LIBUSB_ERROR_TIMEOUT));
    [reflexivity | apply IH].
Qed.

Lemma bslhid_send_loop_shape (env : usb_env) (tr : Bslhid.bslhid_transport) :
  forall (fuel : nat) (d : list Z) (w : world),
    Bslhid.send_loop env fuel tr d w
    = write_all env fuel (Bslhid.handle tr) (Bslhid.out_ep tr)
                Bslhid.BSLHID_TIMEOUT d w.
Proof.
  induction fuel as [|f IH]; intros d w; simpl;
    destruct (Z.of_nat (length d) =? 0); try reflexivity.
  unfold bind. destruct (libusb_bulk_out _ _ _ _ _ w) as [[[rc sent] w1]|];
    [|reflexivity].
  destruct (negb (rc =? 0) && negb (rc =? LIBUSB_ERROR_TIMEOUT));
    [reflexivity | apply IH].
Qed.

(** The CDC-ACM loop tests [len > 0] where the others test [len]. *)
Lemma cdc_send_loop_shape (env : usb_env) (tr : CdcAcm.cdc_acm_transport) :
  forall (fuel : nat) (d : list Z) (w : world),
    CdcAcm.send_loop env fuel tr d w
    = write_all env fuel (CdcAcm.handle tr) (CdcAcm.out_ep tr)
                CdcAcm.TIMEOUT d w.
Proof.
  assert (Hpos : forall d : list Z,
             (Z.of_nat (length d) >? 0) = negb (Z.of_nat (length d) =? 0)).
  { intros d. destruct d; [reflexivity|]. simpl length.
    destruct (Z.gtb_spec (Z.of_nat (S (length d))) 0);
      destruct (Z.eqb_spec (Z.of_nat (S (length d))) 0); try reflexivity; lia. }
  induction fuel as [|f IH]; intros d w; simpl; rewrite Hpos;
    destruct (Z.of_nat (length d) =? 0); try reflexivity.
  simpl. unfold bind.
  destruct (libusb_bulk_out _ _ _ _ _ w) as [[[rc sent] w1]|];
    [|reflexivity].
  destruct (negb (rc =? 0) && negb (rc =? LIBUSB_ERROR_TIMEOUT));
    [reflexivity | apply IH].
Qed.

(** Whatever the loop returns, it returns 0 or -1, the log only grows,
    and on 0 the bytes the device took, transfer after transfer, are the
    data. *)
Lemma write_all_delivers (env : usb_env) (h : usb_handle) (ep t : Z) :
  forall (fuel : nat) (data : list Z) (w w' : world) (r : Z),
    write_all env fuel h ep t data w = Some (r, w') ->
    exists evs : list event,
      w' = w ++ evs /\
      (r = 0 \/ r = -1) /\
      (r = 0 -> delivered_from env (length w) evs = data).
Proof.
  induction fuel as [|f IH]; intros data w w' r; simpl.
  - destruct (Z.of_nat (length data) =? 0) eqn:E; [|discriminate].
    intros H. injection H as <- <-. exists []. rewrite app_nil_r.
    split; [reflexivity|]. split; [left; reflexivity|].
    intros _. destruct data; [reflexivity|]. simpl in E. lia.
  - destruct (Z.of_nat (length data) =? 0) eqn:E.
    + intros H. injection H as <- <-. exists []. rewrite app_nil_r.
      split; [reflexivity|]. split; [left; reflexivity|].
      intros _. destruct data; [reflexivity|]. simpl in E. lia.
    + unfold bind at 1. unfold libusb_bulk_out at 1.
      set (c := c_bulk_out h ep data t).
      set (rc := answer env (length w) c).
      set (sent := Z.max 0 (Z.min (Z.of_nat (length data))
                                  (accepted env (length w) c))).
      destruct (negb (rc =? 0) && negb (rc =? LIBUSB_ERROR_TIMEOUT)).
      * intros H. injection H as <- <-. exists [Ev c rc].
        split; [reflexivity|]. split; [right; reflexivity|]. discriminate.
      * intros H. apply IH in H. destruct H as (evs & -> & Hr & Hd).
        exists (Ev c rc :: evs). rewrite <- app_assoc.
        split; [reflexivity|]. split; [exact Hr|].
        intros Hr0. specialize (Hd Hr0).
        rewrite length_app in Hd. simpl in Hd.
        replace (length w + 1)%nat with (S (length w)) in Hd by lia.
        cbn [delivered_from call_of]. rewrite Hd.
        unfold taken, c. fold c. fold sent.
        apply firstn_skipn.
Qed.

Lemma issued_events (w evs : world) : skipn (length w) (w ++ evs) = evs.
Proof.
  rewrite skipn_app, Nat.sub_diag, skipn_all. reflexivity.
Qed.

(** X4.  A send that returns 0 has delivered the payload: the bytes the
    device took from the successive transfers, concatenated in order,
    are exactly the caller's bytes, however the transfers were cut by
    partial acceptance or timeouts.  For all five backends. *)
Theorem send_success_delivers_payload (env : usb_env) (fuel : nat)
        (data : list Z) (w w' : world) :
  (forall tr, Ftdi.tr_send env fuel tr data w = Some (0, w') ->
              delivered_from env (length w) (skipn (length w) w') = data) /\
  (forall tr, Cp210x.usbtr_send env fuel tr data w = Some (0, w') ->
              delivered_from env (length w) (skipn (length w) w') = data) /\
  (forall tr, CdcAcm.usbtr_send env fuel tr data w = Some (0, w') ->
              delivered_from env (length w) (skipn (length w) w') = data) /\
  (forall tr, Ti3410.ti3410_send env fuel tr data w = Some (0, w') ->
              delivered_from env (length w) (skipn (length w) w') = data) /\
  (forall tr, Bslhid.bslhid_send env fuel tr data w = Some (0, w') ->
              delivered_from env (length w) (skipn (length w) w') = data).
Proof.
  assert (G : forall h ep t,
             write_all env fuel h ep t data w = Some (0, w') ->
             delivered_from env (length w) (skipn (length w) w') = data).
  { intros h ep t H. apply write_all_delivers in H.
    destruct H as (evs & -> & _ & Hd). rewrite issued_events. now apply Hd. }
  repeat split; intros tr H.
  - unfold Ftdi.tr_send in H. rewrite ftdi_send_loop_shape in H. eapply G, H.
  - unfold Cp210x.usbtr_send in H. rewrite cp210x_send_loop_shape in H.
    eapply G, H.
  - unfold CdcAcm.usbtr_send in H. rewrite cdc_send_loop_shape in H.
    eapply G, H.
  - unfold Ti3410.ti3410_send in H. rewrite ti3410_send_loop_shape in H.
    eapply G, H.
  - unfold Bslhid.bslhid_send in H.
    destruct (Bslhid.handle tr =? 0); [discriminate|].
    destruct (Z.of_nat (length data) >? Bslhid.BSLHID_MTU); [discriminate|].
    cbv zeta in H. rewrite bslhid_send_loop_shape in H. eapply G, H.
Qed.

Lemma send_success_delivers_payload_witness :
  delivered_from trickling_env 0
    [Ev (c_bulk_out 5 1 [7;8;9] 30000) 0;
     Ev (c_bulk_out 5 1 [8;9] 30000) 0;
     Ev (c_bulk_out 5 1 [9] 30000) 0]
  = [7;8;9].
Proof.
  destruct (send_success_delivers_payload trickling_env 3 [7;8;9] []
              [Ev (c_bulk_out 5 1 [7;8;9] 30000) 0;
               Ev (c_bulk_out 5 1 [8;9] 30000) 0;
               Ev (c_bulk_out 5 1 [9] 30000) 0])
    as (_ & Hcp & _).
  apply (Hcp (Cp210x.mk_tr 5 0)). vm_compute. reflexivity.
Defined.

Lemma write_all_progress (env : usb_env) (h : usb_handle) (ep t : Z) :
  (forall n c, (answer env n c = 0 \/ answer env n c = LIBUSB_ERROR_TIMEOUT)
               /\ 1 <= accepted env n c) ->
  forall (fuel : nat) (data : list Z) (w : world),
    (length data <= fuel)%nat ->
    exists w', write_all env fuel h ep t data w = Some (0, w').
Proof.
  intros Henv. induction fuel as [|f IH]; intros data w Hlen.
  - destruct data; [|simpl in Hlen; lia]. eexists. reflexivity.
  - simpl. destruct (Z.of_nat (length data) =? 0) eqn:E;
      [eexists; reflexivity|].
    apply Z.eqb_neq in E.
    unfold bind at 1. unfold libusb_bulk_out at 1.
    set (c := c_bulk_out h ep data t).
    destruct (Henv (length w) c) as [Hrc Hacc].
    assert (Hsoft : negb (answer env (length w) c =? 0)
                    && negb (answer env (length w) c =? LIBUSB_ERROR_TIMEOUT)
                    = false)
      by (destruct Hrc as [-> | ->]; reflexivity).
    rewrite Hsoft. apply IH.
    rewrite length_skipn. lia.
Qed.

Lemma write_all_stalls (env : usb_env) (h : usb_handle) (ep t : Z) :
  (forall n c, answer env n c = LIBUSB_ERROR_TIMEOUT /\ accepted env n c <= 0) ->
  forall (fuel : nat) (data : list Z) (w : world),
    data <> [] -> write_all env fuel h ep t data w = None.
Proof.
  intros Henv. induction fuel as [|f IH]; intros data w Hd.
  - destruct data; [contradiction | reflexivity].
  - simpl. destruct (Z.of_nat (length data) =? 0) eqn:E.
    { destruct data; [contradiction | simpl in E; lia]. }
    unfold bind at 1. unfold libusb_bulk_out at 1.
    set (c := c_bulk_out h ep data t).
    destruct (Henv (length w) c) as [Hrc Hacc]. rewrite Hrc.
    cbn [negb andb Z.eqb LIBUSB_ERROR_TIMEOUT].
    replace (Z.max 0 (Z.min (Z.of_nat (length data))
                            (accepted env (length w) c))) with 0 by lia.
    simpl skipn. now apply IH.
Qed.

(** X5.  On a device that answers every outbound transfer with success
    or the timeout and takes at least one byte of it, every send
    returns 0 within as many transfers as the payload has bytes (for the
    HID backend: on an open instance and a payload of at most 62
    bytes). *)
Theorem send_returns_under_progress (env : usb_env) (fuel : nat)
        (data : list Z) (w : world) :
  (forall n c, (answer env n c = 0 \/ answer env n c = LIBUSB_ERROR_TIMEOUT)
               /\ 1 <= accepted env n c) ->
  (length data <= fuel)%nat ->
  (forall tr, exists w', Ftdi.tr_send env fuel tr data w = Some (0, w')) /\
  (forall tr, exists w', Cp210x.usbtr_send env fuel tr data w = Some (0, w')) /\
  (forall tr, exists w', CdcAcm.usbtr_send env fuel tr data w = Some (0, w')) /\
  (forall tr, exists w', Ti3410.ti3410_send env fuel tr data w = Some (0, w')) /\
  (forall tr, Bslhid.handle tr <> 0 ->
              Z.of_nat (length data) <= Bslhid.BSLHID_MTU ->
              exists w', Bslhid.bslhid_send env fuel tr data w = Some (0, w')).
Proof.
  intros Henv Hfuel.
  repeat split; intros tr.
  - unfold Ftdi.tr_send. rewrite ftdi_send_loop_shape.
    now apply write_all_progress.
  - unfold Cp210x.usbtr_send. rewrite cp210x_send_loop_shape.
    now apply write_all_progress.
  - unfold CdcAcm.usbtr_send. rewrite cdc_send_loop_shape.
    now apply write_all_progress.
  - unfold Ti3410.ti3410_send. rewrite ti3410_send_loop_shape.
    now apply write_all_progress.
  - intros Hh Hm. unfold Bslhid.bslhid_send.
    destruct (Bslhid.handle tr =? 0) eqn:E;
      [apply Z.eqb_eq in E; contradiction|].
    destruct (Z.gtb_spec (Z.of_nat (length data)) Bslhid.BSLHID_MTU);
      [lia|].
    cbv zeta. rewrite bslhid_send_loop_shape.
    now apply write_all_progress.
Qed.

Lemma send_returns_under_progress_witness :
  exists w',
    Cp210x.usbtr_send trickling_env 3 (Cp210x.mk_tr 5 0) [7;8;9] []
    = Some (0, w').
Proof.
  destruct (send_returns_under_progress trickling_env 3 [7;8;9] [])
    as (_ & Hcp & _).
  - intros n c. split; [left; reflexivity | simpl; lia].
  - simpl. lia.
  - apply Hcp.
Defined.

(** X6.  The send loops have no deadline: on a device that answers
    every transfer with the timeout and takes nothing, a send of a
    non-empty payload never returns, whatever the number of rounds it is
    given. *)
Theorem send_has_no_deadline (env : usb_env) (data : list Z) (w : world) :
  (forall n c, answer env n c = LIBUSB_ERROR_TIMEOUT /\ accepted env n c <= 0) ->
  data <> [] ->
  forall fuel : nat,
    (forall tr, Ftdi.tr_send env fuel tr data w = None) /\
    (forall tr, Cp210x.usbtr_send env fuel tr data w = None) /\
    (forall tr, CdcAcm.usbtr_send env fuel tr data w = None) /\
    (forall tr, Ti3410.ti3410_send env fuel tr data w = None) /\
    (forall tr, Bslhid.handle tr <> 0 ->
                Z.of_nat (length data) <= Bslhid.BSLHID_MTU ->
                Bslhid.bslhid_send env fuel tr data w = None).
Proof.
  intros Henv Hd fuel.
  repeat split; intros tr.
  - unfold Ftdi.tr_send. rewrite ftdi_send_loop_shape.
    now apply write_all_stalls.
  - unfold Cp210x.usbtr_send. rewrite cp210x_send_loop_shape.
    now apply write_all_stalls.
  - unfold CdcAcm.usbtr_send. rewrite cdc_send_loop_shape.
    now apply write_all_stalls.
  - unfold Ti3410.ti3410_send. rewrite ti3410_send_loop_shape.
    now apply write_all_stalls.
  - intros Hh Hm. unfold Bslhid.bslhid_send.
    destruct (Bslhid.handle tr =? 0) eqn:E;
      [apply Z.eqb_eq in E; contradiction|].
    destruct (Z.gtb_spec (Z.of_nat (length data)) Bslhid.BSLHID_MTU);
      [lia|].
    cbv zeta. rewrite bslhid_send_loop_shape.
    now apply write_all_stalls.
Qed.

Lemma send_has_no_deadline_witness :
  Ti3410.ti3410_send idle_env 1000 (Ti3410.mk_tr 5) [1] [] = None.
Proof.
  destruct (send_has_no_deadline idle_env [1] []) with (fuel := 1000%nat)
    as (_ & _ & _ & Hti & _).
  - intros n c. split; [reflexivity | simpl; lia].
  - discriminate.
  - apply Hti.
Defined.

End SendFacts.

(* ================================================================= *)
(** ** The flush loops *)

Section FlushFacts.
Import Libusb Usbutil Scenarios.

Lemma cp210x_flush_loop_shape (env : usb_env) (tr : Cp210x.cp210x_transport) :
  forall (fuel : nat) (w : world),
    Cp210x.flush_loop env fuel tr w
    = drain env fuel (Cp210x.handle tr) Cp210x.V1_IN_EP w.
Proof.
  induction fuel as [|f IH]; intros w; simpl; [reflexivity|].
  unfold bind. destruct (libusb_bulk_in _ _ _ _ _ w) as [[[rc got] w1]|];
    [|reflexivity].
  destruct (negb (rc =? 0)); [apply IH | reflexivity].
Qed.

Lemma cdc_flush_loop_shape (env : usb_env) (tr : CdcAcm.cdc_acm_transport) :
  forall (fuel : nat) (w : world),
    CdcAcm.flush_loop env fuel tr w
    = drain env fuel (CdcAcm.handle tr) (CdcAcm.in_ep tr) w.
Proof.
  induction fuel as [|f IH]; intros w; simpl; [reflexivity|].
  unfold bind. destruct (libusb_bulk_in _ _ _ _ _ w) as [[[rc got] w1]|];
    [|reflexivity].
  destruct (negb (rc =? 0)); [apply IH | reflexivity].
Qed.

Lemma bslhid_flush_loop_shape (env : usb_env) (tr : Bslhid.bslhid_transport) :
  forall (fuel : nat) (w : world),
    Bslhid.flush_loop env fuel tr w
    = drain env fuel (Bslhid.handle tr) (Bslhid.in_ep tr) w.
Proof.
  induction fuel as [|f IH]; intros w; simpl; [reflexivity|].
  change Bslhid.BSLHID_XFER_SIZE with 64.
  unfold bind. destruct (libusb_bulk_in _ _ _ _ _ w) as [[[rc got] w1]|];
    [|reflexivity].
  destruct (negb (rc =? 0)); [apply IH | reflexivity].
Qed.

(** When the loop returns, its last read was answered 0 and every read
    before it was answered by a non-zero code. *)
Lemma drain_stops_at_zero (env : usb_env) (h : usb_handle) (ep : Z) :
  forall (fuel : nat) (w w' : world) (u : unit),
    drain env fuel h ep w = Some (u, w') ->
    exists pre : list event,
      w' = w ++ pre ++ [Ev (c_bulk_in h ep 64 100) 0] /\
      Forall (fun e => exists rc, e = Ev (c_bulk_in h ep 64 100) rc /\ rc <> 0)
             pre.
Proof.
  induction fuel as [|f IH]; intros w w' u; simpl; [discriminate|].
  unfold bind at 1. unfold libusb_bulk_in at 1.
  set (c := c_bulk_in h ep 64 100).
  destruct (answer env (length w) c =? 0) eqn:E; cbn [negb].
  - apply Z.eqb_eq in E. rewrite E.
    intros H. injection H as _ <-. exists []. split; [reflexivity|].
    constructor.
  - apply Z.eqb_neq in E. intros H. apply IH in H.
    destruct H as (pre & -> & Hpre).
    exists (Ev c (answer env (length w) c) :: pre).
    split; [now rewrite <- app_assoc|].
    constructor; [|exact Hpre]. eexists. split; [reflexivity | exact E].
Qed.

Lemma drain_never_returns (env : usb_env) (h : usb_handle) (ep : Z) :
  (forall n h' ep' len t, answer env n (c_bulk_in h' ep' len t) <> 0) ->
  forall (fuel : nat) (w : world), drain env fuel h ep w = None.
Proof.
  intros Hidle. induction fuel as [|f IH]; intros w; simpl; [reflexivity|].
  unfold bind at 1. unfold libusb_bulk_in at 1.
  destruct (answer env (length w) (c_bulk_in h ep 64 100) =? 0) eqn:E.
  - apply Z.eqb_eq in E. exfalso. exact (Hidle _ _ _ _ _ E).
  - cbn [negb]. apply IH.
Qed.

(** X7.  A flush that returns has read 64 bytes at a time, with a
    100 ms timeout, until the first read that was answered 0: that read
    is the last call it made and every read before it was answered by a
    non-zero code.  The CDC-ACM flush also empties the read buffer; the
    HID flush of a suspended instance returns at once. *)
Theorem flush_stops_at_first_completed_read (env : usb_env) (fuel : nat)
        (w w' : world) :
  (forall tr r,
      Cp210x.usbtr_flush env fuel tr w = Some (r, w') ->
      r = 0 /\
      exists pre,
        w' = w ++ pre ++ [Ev (c_bulk_in (Cp210x.handle tr) 129 64 100) 0] /\
        Forall (fun e => exists rc,
                    e = Ev (c_bulk_in (Cp210x.handle tr) 129 64 100) rc /\
                    rc <> 0) pre) /\
  (forall tr tr' r,
      CdcAcm.usbtr_flush env fuel tr w = Some ((r, tr'), w') ->
      r = 0 /\ CdcAcm.rbuf_len tr' = 0 /\ CdcAcm.rbuf_ptr tr' = 0 /\
      exists pre,
        w' = w ++ pre ++ [Ev (c_bulk_in (CdcAcm.handle tr) (CdcAcm.in_ep tr)
                                        64 100) 0] /\
        Forall (fun e => exists rc,
                    e = Ev (c_bulk_in (CdcAcm.handle tr) (CdcAcm.in_ep tr)
                                      64 100) rc /\
                    rc <> 0) pre) /\
  (forall tr r,
      Bslhid.bslhid_flush env fuel tr w = Some (r, w') ->
      r = 0 /\
      ((Bslhid.handle tr = 0 /\ w' = w) \/
       (Bslhid.handle tr <> 0 /\
        exists pre,
          w' = w ++ pre ++ [Ev (c_bulk_in (Bslhid.handle tr)
                                          (Bslhid.in_ep tr) 64 100) 0] /\
          Forall (fun e => exists rc,
                      e = Ev (c_bulk_in (Bslhid.handle tr)
                                        (Bslhid.in_ep tr) 64 100) rc /\
                      rc <> 0) pre))).
Proof.
  split; [|split].
  - intros tr r. unfold Cp210x.usbtr_flush, bind.
    rewrite cp210x_flush_loop_shape.
    destruct (drain env fuel _ _ w) as [[u w1]|] eqn:E; [|discriminate].
    intros H. injection H as <- <-. split; [reflexivity|].
    exact (drain_stops_at_zero env _ _ fuel w w1 u E).
  - intros tr tr' r. unfold CdcAcm.usbtr_flush, bind.
    rewrite cdc_flush_loop_shape.
    destruct (drain env fuel _ _ w) as [[u w1]|] eqn:E; [|discriminate].
    intros H. injection H as <- <- <-.
    split; [reflexivity|]. split; [reflexivity|]. split; [reflexivity|].
    exact (drain_stops_at_zero env _ _ fuel w w1 u E).
  - intros tr r. unfold Bslhid.bslhid_flush.
    destruct (Bslhid.handle tr =? 0) eqn:Eh.
    + apply Z.eqb_eq in Eh. intros H. injection H as <- <-.
      split; [reflexivity|]. left. split; [exact Eh | reflexivity].
    + apply Z.eqb_neq in Eh. unfold bind.
      rewrite bslhid_flush_loop_shape.
      destruct (drain env fuel _ _ w) as [[u w1]|] eqn:E; [|discriminate].
      intros H. injection H as <- <-. split; [reflexivity|].
      right. split; [exact Eh|].
      exact (drain_stops_at_zero env _ _ fuel w w1 u E).
Qed.

Lemma flush_stops_at_first_completed_read_witness :
  exists pre,
    [Ev (c_bulk_in 5 129 64 100) 0]
    = [] ++ pre ++ [Ev (c_bulk_in 5 129 64 100) 0].
Proof.
  destruct (flush_stops_at_first_completed_read accepting_env 3 []
              [Ev (c_bulk_in 5 129 64 100) 0]) as (Hcp & _).
  destruct (Hcp (Cp210x.mk_tr 5 0) 0) as (_ & pre & Hw & _).
  - vm_compute. reflexivity.
  - exists pre. exact Hw.
Defined.

(** A successful HID [open_device] leaves a non-null handle. *)
Lemma bslhid_open_device_handle (env : usb_env)
      (tr tr' : Bslhid.bslhid_transport) (dev : libusb_device) (r : Z)
      (w w' : world) :
  Bslhid.open_device env tr dev w = Some ((r, tr'), w') ->
  (r <? 0) = false ->
  Bslhid.handle tr' <> 0.
Proof.
  unfold Bslhid.open_device, Bslhid.find_interface, bind, libusb,
    libusb_open, ret.
  destruct (Bslhid.find_interface_loop _ _ _ tr) as [r1 tr1].
  repeat match goal with
         | |- context [if ?b then _ else _] =>
             let E := fresh "E" in destruct b eqn:E
         end;
    intros H Hr; injection H as <- <- _; try discriminate Hr;
    cbn [Bslhid.handle Bslhid.set_handle] in *;
    match goal with
    | E : (_ =? 0) = false |- _ <> 0 => apply Z.eqb_neq in E; exact E
    end.
Qed.

(** X8.  On a device whose inbound reads never complete with 0 (an idle
    device answers each with the timeout) no flush returns, and since
    [cp210x_open], [cdc_acm_open] and [bslhid_open] end with a flush,
    none of them ever hands back an instance. *)
Theorem flush_spins_on_idle_device (env : usb_env) (fuel : nat) (w : world) :
  (forall n h ep len t, answer env n (c_bulk_in h ep len t) <> 0) ->
  (forall tr, Cp210x.usbtr_flush env fuel tr w = None) /\
  (forall tr, CdcAcm.usbtr_flush env fuel tr w = None) /\
  (forall tr, Bslhid.handle tr <> 0 ->
              Bslhid.bslhid_flush env fuel tr w = None) /\
  (forall devpath rs baud product vendor tr w',
      Cp210x.cp210x_open env fuel devpath rs baud product vendor w
      <> Some (Some tr, w')) /\
  (forall devpath rs baud vendor product tr w',
      CdcAcm.cdc_acm_open env fuel devpath rs baud vendor product w
      <> Some (Some tr, w')) /\
  (forall devpath rs tr w',
      Bslhid.bslhid_open env fuel devpath rs w <> Some (Some tr, w')).
Proof.
  intros Hidle.
  assert (Hcp : forall tr w0, Cp210x.usbtr_flush env fuel tr w0 = None).
  { intros tr w0. unfold Cp210x.usbtr_flush, bind.
    rewrite cp210x_flush_loop_shape.
    now rewrite (drain_never_returns env _ _ Hidle). }
  assert (Hcdc : forall tr w0, CdcAcm.usbtr_flush env fuel tr w0 = None).
  { intros tr w0. unfold CdcAcm.usbtr_flush, bind.
    rewrite cdc_flush_loop_shape.
    now rewrite (drain_never_returns env _ _ Hidle). }
  assert (Hbsl : forall tr w0, Bslhid.handle tr <> 0 ->
                               Bslhid.bslhid_flush env fuel tr w0 = None).
  { intros tr w0 Hh. unfold Bslhid.bslhid_flush.
    destruct (Bslhid.handle tr =? 0) eqn:E;
      [apply Z.eqb_eq in E; contradiction|].
    unfold bind. rewrite bslhid_flush_loop_shape.
    now rewrite (drain_never_returns env _ _ Hidle). }
  split; [intros tr; apply Hcp|]. split; [intros tr; apply Hcdc|].
  split; [intros tr; apply Hbsl|]. split; [|split].
  - intros devpath rs baud product vendor tr w'.
    unfold Cp210x.cp210x_open. unfold bind at 1.
    destruct (match devpath with
              | Some _ => usbutil_find_by_loc env devpath
              | None => usbutil_find_by_id env product vendor rs
              end w) as [[[dev|] w1]|]; try discriminate.
    unfold bind at 1.
    destruct (Cp210x.open_device env _ dev baud w1) as [[[r tr1] w2]|];
      [|discriminate].
    destruct (r <? 0); [discriminate|].
    unfold bind. rewrite Hcp. discriminate.
  - intros devpath rs baud vendor product tr w'.
    unfold CdcAcm.cdc_acm_open. unfold bind at 1.
    destruct (match devpath with
              | Some _ => usbutil_find_by_loc env devpath
              | None => usbutil_find_by_id env vendor product rs
              end w) as [[[dev|] w1]|]; try discriminate.
    unfold bind at 1.
    destruct (CdcAcm.find_interface env _ dev w1) as [[[r tr1] w2]|];
      [|discriminate].
    destruct (r <? 0); [discriminate|].
    unfold bind at 1.
    destruct (CdcAcm.open_interface env tr1 dev w2) as [[[r2 tr2] w3]|];
      [|discriminate].
    destruct (r2 <? 0); [discriminate|].
    unfold bind at 1.
    destruct (CdcAcm.configure_port env tr2 baud w3) as [[r3 w4]|];
      [|discriminate].
    destruct (r3 <? 0).
    + unfold bind. destruct (CdcAcm.usbtr_destroy env tr2 w4) as [[? ?]|];
        discriminate.
    + unfold bind. rewrite Hcdc. discriminate.
  - intros devpath rs tr w'.
    unfold Bslhid.bslhid_open. unfold bind at 1.
    match goal with
    | |- match ?m w with _ => _ end <> _ =>
        destruct (m w) as [[[tr0 [dev|]] w1]|]; try discriminate
    end.
    cbn [fst snd]. unfold bind at 1.
    destruct (Bslhid.open_device env tr0 dev w1) as [[[r tr1] w2]|] eqn:Eo;
      [|discriminate].
    destruct (r <? 0) eqn:Er; [discriminate|].
    unfold bind.
    rewrite (Hbsl tr1 w2 (bslhid_open_device_handle _ _ _ _ _ _ _ Eo Er)).
    discriminate.
Qed.

Lemma flush_spins_on_idle_device_witness :
  Cp210x.usbtr_flush idle_env 1000 (Cp210x.mk_tr 5 0) [] = None.
Proof.
  destruct (flush_spins_on_idle_device idle_env 1000 []) as (Hcp & _).
  - intros n h ep len t. discriminate.
  - apply Hcp.
Defined.

End FlushFacts.

(* ================================================================= *)
(** ** CDC-ACM: read buffer, line coding, control lines *)

Section CdcAcmFacts.
Import Libusb Usbutil CdcAcm Scenarios.

(** X9.  [usbtr_recv] on a well-formed read buffer (cursor within the
    valid length, valid length within the 1024-byte capacity), asked
    for [len] bytes with [0 <= len <= INT_MAX - 1024] so that
    [rbuf_ptr + len] stays an [int]: it returns, it keeps the buffer
    well formed, and what it returns is the failure or between 0 and
    [len] bytes. *)
Theorem cdc_recv_keeps_buffer_well_formed (env : usb_env)
        (tr : cdc_acm_transport) (len : Z) (w : world) :
  rbuf_ok tr -> 0 <= len <= INT_MAX - READ_BUFFER_SIZE ->
  exists (r : Z) (out : list Z) (tr' : cdc_acm_transport) (w' : world),
    usbtr_recv env tr len w = Some ((r, out, tr'), w') /\
    rbuf_ok tr' /\
    ((r = -1 /\ out = []) \/ (0 <= r <= len /\ Z.of_nat (length out) = r)).
Proof.
  intros (Hptr & Hcap & Hsize) Hlen. unfold READ_BUFFER_SIZE, INT_MAX in *.
  unfold usbtr_recv. unfold bind at 1.
  destruct (rbuf_ptr tr >=? rbuf_len tr) eqn:Efill.
  - unfold bind at 1.
    destruct (libusb_bulk_in_spec env (handle tr) (in_ep tr) 1024 TIMEOUT w)
      as (rc & got & Hx & _ & Hgot).
    change READ_BUFFER_SIZE with 1024.
    cbn [handle in_ep set_rbuf]. rewrite Hx.
    destruct (negb (rc =? 0) && negb (rc =? LIBUSB_ERROR_TIMEOUT)).
    + unfold ret. cbn [fst snd negb].
      do 4 eexists. split; [reflexivity|].
      split; [|left; split; reflexivity].
      unfold rbuf_ok, READ_BUFFER_SIZE. cbn. lia.
    + unfold ret. cbn [fst snd negb rbuf_ptr rbuf_len rbuf set_rbuf].
      rewrite Z.add_0_l.
      set (n := Z.of_nat (length got)).
      assert (Hn : 0 <= n <= 1024) by (unfold n; lia).
      unfold INT_MAX, INT_MIN.
      destruct (Z.gtb_spec len 2147483647) as [Ho|_]; [lia|].
      destruct (Z.ltb_spec len (-2147483648)) as [Ho|_]; [lia|].
      cbn [orb].
      destruct (Z.gtb_spec len n) as [Hgt|Hle].
      * match goal with
      | |- context [?x <? 0] =>
          destruct (Z.ltb_spec x 0) as [Hneg|_]; [lia|]
      end.
        do 4 eexists. split; [reflexivity|]. split.
        -- unfold rbuf_ok, READ_BUFFER_SIZE. cbn.
           rewrite length_app, length_skipn. fold n. lia.
        -- right. split; [lia|].
           change (Z.to_nat 0) with 0%nat. cbn [skipn].
           rewrite length_firstn, length_app, length_skipn.
           fold n. lia.
      * match goal with
      | |- context [?x <? 0] =>
          destruct (Z.ltb_spec x 0) as [Hneg|_]; [lia|]
      end.
        do 4 eexists. split; [reflexivity|]. split.
        -- unfold rbuf_ok, READ_BUFFER_SIZE. cbn.
           rewrite length_app, length_skipn. fold n. lia.
        -- right. split; [lia|].
           change (Z.to_nat 0) with 0%nat. cbn [skipn].
           rewrite length_firstn, length_app, length_skipn.
           fold n. lia.
  - unfold ret. cbn [fst snd negb].
    destruct (Z.geb_spec (rbuf_ptr tr) (rbuf_len tr)) as [|Hlt];
      [discriminate|].
    unfold INT_MAX, INT_MIN.
    destruct (Z.gtb_spec (rbuf_ptr tr + len) 2147483647) as [Ho|_]; [lia|].
    destruct (Z.ltb_spec (rbuf_ptr tr + len) (-2147483648)) as [Ho|_]; [lia|].
    cbn [orb].
    destruct (Z.gtb_spec (rbuf_ptr tr + len) (rbuf_len tr)) as [Hgt|Hle].
    + match goal with
      | |- context [?x <? 0] =>
          destruct (Z.ltb_spec x 0) as [Hneg|_]; [lia|]
      end.
      do 4 eexists. split; [reflexivity|].
      split; [unfold rbuf_ok, READ_BUFFER_SIZE; cbn; lia|].
      right. split; [lia|]. rewrite length_firstn, length_skipn. lia.
    + match goal with
      | |- context [?x <? 0] =>
          destruct (Z.ltb_spec x 0) as [Hneg|_]; [lia|]
      end.
      do 4 eexists. split; [reflexivity|].
      split; [unfold rbuf_ok, READ_BUFFER_SIZE; cbn; lia|].
      right. split; [lia|]. rewrite length_firstn, length_skipn. lia.
Qed.

Lemma cdc_recv_keeps_buffer_well_formed_witness :
  rbuf_ok (mk_tr 0 5 129 1 0 0 (memset 0 1024)) /\
  exists r out tr' w',
    usbtr_recv (replying_env [10;20;30]) (mk_tr 0 5 129 1 0 0 (memset 0 1024))
               2 []
    = Some ((r, out, tr'), w') /\ rbuf_ok tr'.
Proof.
  assert (Hok : rbuf_ok (mk_tr 0 5 129 1 0 0 (memset 0 1024))).
  { unfold rbuf_ok, READ_BUFFER_SIZE. cbn [rbuf_ptr rbuf_len rbuf].
    unfold memset. rewrite repeat_length. lia. }
  split; [exact Hok|].
  assert (H2 : 0 <= 2 <= INT_MAX - READ_BUFFER_SIZE)
    by (unfold INT_MAX, READ_BUFFER_SIZE; lia).
  destruct (cdc_recv_keeps_buffer_well_formed
              (replying_env [10;20;30])
              (mk_tr 0 5 129 1 0 0 (memset 0 1024)) 2 [] Hok H2)
    as (r & out & tr' & w' & E & Hok' & _).
  exists r, out, tr', w'. split; [exact E | exact Hok'].
Defined.

(** X10.  On a well-formed read buffer with unread bytes, [usbtr_recv]
    asked for [len] bytes, [0 <= len <= INT_MAX - 1024], makes no USB
    call: it returns the next [min len available] bytes and advances
    the cursor.  Reading [a] bytes and then [b >= 1] bytes, both
    available, gives the same bytes and leaves the same state as
    reading [a + b] bytes at once. *)
Theorem cdc_recv_serves_from_buffer (env : usb_env)
        (tr : cdc_acm_transport) (w : world) :
  rbuf_ok tr ->
  (forall len,
      0 <= len <= INT_MAX - READ_BUFFER_SIZE ->
      rbuf_ptr tr < rbuf_len tr ->
      usbtr_recv env tr len w
      = Some ((Z.min len (rbuf_len tr - rbuf_ptr tr),
               firstn (Z.to_nat (Z.min len (rbuf_len tr - rbuf_ptr tr)))
                      (skipn (Z.to_nat (rbuf_ptr tr)) (rbuf tr)),
               set_rbuf tr (rbuf_len tr)
                        (rbuf_ptr tr + Z.min len (rbuf_len tr - rbuf_ptr tr))
                        (rbuf tr)),
              w)) /\
  (forall a b,
      0 <= a -> 1 <= b ->
      rbuf_ptr tr + a + b <= rbuf_len tr ->
      exists o1 o2 tr1 tr2,
        usbtr_recv env tr a w = Some ((a, o1, tr1), w) /\
        usbtr_recv env tr1 b w = Some ((b, o2, tr2), w) /\
        usbtr_recv env tr (a + b) w = Some ((a + b, o1 ++ o2, tr2), w)).
Proof.
  intros Hok.
  assert (Hone : forall t len,
      0 <= rbuf_ptr t -> rbuf_len t <= READ_BUFFER_SIZE ->
      0 <= len <= INT_MAX - READ_BUFFER_SIZE ->
      rbuf_ptr t < rbuf_len t ->
      usbtr_recv env t len w
      = Some ((Z.min len (rbuf_len t - rbuf_ptr t),
               firstn (Z.to_nat (Z.min len (rbuf_len t - rbuf_ptr t)))
                      (skipn (Z.to_nat (rbuf_ptr t)) (rbuf t)),
               set_rbuf t (rbuf_len t)
                        (rbuf_ptr t + Z.min len (rbuf_len t - rbuf_ptr t))
                        (rbuf t)),
              w)).
  { intros t len Hp Hc Hlen Hav. unfold READ_BUFFER_SIZE, INT_MAX in *.
    unfold usbtr_recv. unfold bind at 1.
    destruct (Z.geb_spec (rbuf_ptr t) (rbuf_len t)) as [|_]; [lia|].
    unfold ret. cbn [fst snd negb]. unfold INT_MAX, INT_MIN.
    destruct (Z.gtb_spec (rbuf_ptr t + len) 2147483647) as [Ho|_]; [lia|].
    destruct (Z.ltb_spec (rbuf_ptr t + len) (-2147483648)) as [Ho|_]; [lia|].
    cbn [orb].
    destruct (Z.gtb_spec (rbuf_ptr t + len) (rbuf_len t)) as [Hgt|Hle].
    - match goal with
      | |- context [?x <? 0] =>
          destruct (Z.ltb_spec x 0) as [Hneg|_]; [lia|]
      end.
      replace (Z.min len (rbuf_len t - rbuf_ptr t))
        with (rbuf_len t - rbuf_ptr t) by lia.
      reflexivity.
    - match goal with
      | |- context [?x <? 0] =>
          destruct (Z.ltb_spec x 0) as [Hneg|_]; [lia|]
      end.
      replace (Z.min len (rbuf_len t - rbuf_ptr t)) with len by lia.
      reflexivity. }
  destruct Hok as (Hptr & Hcap & Hsize).
  split; [intros len Hlen Hav; apply Hone; [lia | exact Hcap | exact Hlen
                                            | exact Hav]|].
  intros a b Ha Hb Hfit.
  assert (Hcap' : rbuf_len tr <= 1024) by exact Hcap.
  assert (Hr : forall x, 0 <= x <= 1024 ->
                         0 <= x <= INT_MAX - READ_BUFFER_SIZE)
    by (intros x Hx; unfold INT_MAX, READ_BUFFER_SIZE; lia).
  do 4 eexists.
  rewrite (Hone tr a) by (try apply Hr; try exact Hcap; lia).
  replace (Z.min a (rbuf_len tr - rbuf_ptr tr)) with a by lia.
  split; [reflexivity|].
  rewrite Hone
    by (cbn [rbuf_ptr rbuf_len set_rbuf];
        try apply Hr; try exact Hcap; lia).
  cbn [rbuf_ptr rbuf_len rbuf set_rbuf].
  replace (Z.min b (rbuf_len tr - (rbuf_ptr tr + a))) with b by lia.
  split; [reflexivity|].
  rewrite (Hone tr (a + b)) by (try apply Hr; try exact Hcap; lia).
  replace (Z.min (a + b) (rbuf_len tr - rbuf_ptr tr)) with (a + b) by lia.
  assert (Hout :
      firstn (Z.to_nat (a + b)) (skipn (Z.to_nat (rbuf_ptr tr)) (rbuf tr))
      = firstn (Z.to_nat a) (skipn (Z.to_nat (rbuf_ptr tr)) (rbuf tr))
          ++ firstn (Z.to_nat b)
                    (skipn (Z.to_nat (rbuf_ptr tr + a)) (rbuf tr))).
  { replace (Z.to_nat (a + b)) with (Z.to_nat a + Z.to_nat b)%nat by lia.
    replace (Z.to_nat (rbuf_ptr tr + a))
      with (Z.to_nat a + Z.to_nat (rbuf_ptr tr))%nat by lia.
    rewrite <- skipn_skipn.
    set (l := skipn (Z.to_nat (rbuf_ptr tr)) (rbuf tr)).
    rewrite <- (firstn_skipn (Z.to_nat a) l) at 1.
    rewrite firstn_app, firstn_firstn, length_firstn.
    destruct (Nat.le_gt_cases (Z.to_nat a) (length l)) as [Hle|Hgt].
    - rewrite (Nat.min_r (Z.to_nat a + Z.to_nat b) (Z.to_nat a)) by lia.
      rewrite (Nat.min_l (Z.to_nat a) (length l)) by lia.
      replace (Z.to_nat a + Z.to_nat b - Z.to_nat a)%nat
        with (Z.to_nat b) by lia.
      reflexivity.
    - rewrite (Nat.min_r (Z.to_nat a + Z.to_nat b) (Z.to_nat a)) by lia.
      rewrite (skipn_all2 l) by lia.
      rewrite !firstn_nil. reflexivity. }
  rewrite Hout. unfold set_rbuf. cbn [int_number handle in_ep out_ep].
  replace (rbuf_ptr tr + (a + b)) with (rbuf_ptr tr + a + b) by lia.
  reflexivity.
Qed.

Lemma cdc_recv_serves_from_buffer_witness :
  exists o1 o2 tr1 tr2,
    usbtr_recv accepting_env
               (mk_tr 0 5 129 1 4 0 ([10;20;30;40] ++ memset 0 1020)) 1 []
    = Some ((1, o1, tr1), []) /\
    usbtr_recv accepting_env tr1 2 [] = Some ((2, o2, tr2), []) /\
    usbtr_recv accepting_env
               (mk_tr 0 5 129 1 4 0 ([10;20;30;40] ++ memset 0 1020))
               (1 + 2) []
    = Some ((1 + 2, o1 ++ o2, tr2), []).
Proof.
  assert (Hok : rbuf_ok (mk_tr 0 5 129 1 4 0
                               ([10;20;30;40] ++ memset 0 1020))).
  { unfold rbuf_ok, READ_BUFFER_SIZE. cbn [rbuf_ptr rbuf_len rbuf].
    rewrite length_app. unfold memset. rewrite repeat_length.
    cbn [length]. lia. }
  destruct (cdc_recv_serves_from_buffer accepting_env
              (mk_tr 0 5 129 1 4 0 ([10;20;30;40] ++ memset 0 1020)) [] Hok)
    as [_ H].
  apply (H 1 2); cbn [rbuf_ptr rbuf_len]; lia.
Defined.

(** X11.  The line-coding block carries the baud rate little-endian in
    its first four bytes, each an octet, followed by 0 (one stop bit),
    0 (no parity) and 8 (data bits). *)
Theorem cdc_line_coding_little_endian (baud_rate : Z) :
  0 <= baud_rate < 4294967296 ->
  exists b0 b1 b2 b3,
    line_coding baud_rate = [b0; b1; b2; b3; 0; 0; 8] /\
    0 <= b0 < 256 /\ 0 <= b1 < 256 /\ 0 <= b2 < 256 /\ 0 <= b3 < 256 /\
    b0 + 256 * b1 + 65536 * b2 + 16777216 * b3 = baud_rate.
Proof.
  intros Hb. unfold line_coding.
  do 4 eexists. split; [reflexivity|].
  change 255 with (Z.ones 8).
  rewrite !Z.land_ones by lia. rewrite !Z.shiftr_div_pow2 by lia.
  change (2 ^ 8) with 256. change (2 ^ 16) with 65536.
  change (2 ^ 24) with 16777216.
  Z.div_mod_to_equations. lia.
Qed.

Lemma cdc_line_coding_little_endian_witness :
  exists b0 b1 b2 b3,
    line_coding 115200 = [b0; b1; b2; b3; 0; 0; 8] /\
    b0 + 256 * b1 + 65536 * b2 + 16777216 * b3 = 115200.
Proof.
  destruct (cdc_line_coding_little_endian 115200)
    as (b0 & b1 & b2 & b3 & H & _ & _ & _ & _ & Hs); [lia|].
  exists b0, b1, b2, b3. split; assumption.
Defined.

(** X12.  The CDC-ACM [usbtr_set_modem] maps the requested lines
    directly: bit 0 of the wire value is set exactly when DTR is
    requested, bit 1 exactly when RTS is requested, no other bit is
    set, and the value goes out as [wValue] of one SET_CONTROL (0x22)
    request on the instance's handle; the call returns 0 exactly when
    that transfer is answered 0. *)
Theorem cdc_set_modem_direct_polarity (env : usb_env) (dtr rts state : Z)
        (tr : cdc_acm_transport) (w : world) :
  (Z.land (modem_value dtr rts state) 1 = 1 <-> Z.land state dtr <> 0) /\
  (Z.land (modem_value dtr rts state) 2 = 2 <-> Z.land state rts <> 0) /\
  0 <= modem_value dtr rts state <= 3 /\
  exists r rc,
    usbtr_set_modem env dtr rts tr state w
    = Some (r, w ++ [Ev (c_control_transfer (handle tr) 33 34
                                            (modem_value dtr rts state) 0 []
                                            300) rc]) /\
    (r = 0 \/ r = -1) /\ (r = 0 <-> rc = 0).
Proof.
  assert (Hv : modem_value dtr rts state
               = (if Z.land state dtr =? 0 then 0 else 1)
                 + (if Z.land state rts =? 0 then 0 else 2)).
  { unfold modem_value.
    destruct (Z.land state dtr =? 0), (Z.land state rts =? 0); reflexivity. }
  split; [|split; [|split]].
  - rewrite Hv.
    destruct (Z.eqb_spec (Z.land state dtr) 0) as [E|E],
             (Z.land state rts =? 0);
      cbn; split; intros H; try reflexivity; try discriminate;
      try exact E; try contradiction.
  - rewrite Hv.
    destruct (Z.land state dtr =? 0),
             (Z.eqb_spec (Z.land state rts) 0) as [E|E];
      cbn; split; intros H; try reflexivity; try discriminate;
      try exact E; try contradiction.
  - rewrite Hv.
    destruct (Z.land state dtr =? 0), (Z.land state rts =? 0); cbn; lia.
  - unfold usbtr_set_modem, bind, libusb.
    assert (Hu : uint16 (modem_value dtr rts state)
                 = modem_value dtr rts state).
    { rewrite Hv.
      destruct (Z.land state dtr =? 0), (Z.land state rts =? 0);
        reflexivity. }
    rewrite Hu.
    change CDC_REQTYPE_HOST_TO_DEVICE with 33.
    change CDC_SET_CONTROL with 34.
    set (rc := answer env (length w) _).
    destruct (Z.eqb_spec rc 0) as [E|E]; cbn [negb]; unfold ret;
      eexists; exists rc; (split; [reflexivity|]);
      (split; [auto|]); split; intros; try lia; try reflexivity.
Qed.

End CdcAcmFacts.

(* ================================================================= *)
(** ** Interface selection *)

Section InterfaceFacts.
Import Libusb Usbutil Scenarios.

(** The endpoint scan from any starting pair: each component is what it
    was or the address of a bulk endpoint of the right direction, and
    with octet addresses a component is non-negative as soon as it was
    or such an endpoint exists. *)
Lemma scan_step_spec (eps : list endpoint_descriptor) :
  forall acc : Z * Z,
    let r :=
      fold_left
        (fun (io : Z * Z) (ep : endpoint_descriptor) =>
           let type := Z.land (bmAttributes ep) USB_ENDPOINT_TYPE_MASK in
           let addr := bEndpointAddress ep in
           if negb (type =? USB_ENDPOINT_TYPE_BULK) then io
           else if negb (Z.land addr USB_ENDPOINT_DIR_MASK =? 0)
                then (addr, snd io)
                else (fst io, addr))
        eps acc in
    (fst r = fst acc \/
     exists ep, In ep eps /\ is_bulk ep /\ bEndpointAddress ep = fst r /\
                Z.land (fst r) USB_ENDPOINT_DIR_MASK <> 0) /\
    (snd r = snd acc \/
     exists ep, In ep eps /\ is_bulk ep /\ bEndpointAddress ep = snd r /\
                Z.land (snd r) USB_ENDPOINT_DIR_MASK = 0) /\
    (Forall (fun ep => 0 <= bEndpointAddress ep < 256) eps ->
     ((0 <= fst acc \/
       exists ep, In ep eps /\ is_bulk ep /\
                  Z.land (bEndpointAddress ep) USB_ENDPOINT_DIR_MASK <> 0) ->
      0 <= fst r) /\
     ((0 <= snd acc \/
       exists ep, In ep eps /\ is_bulk ep /\
                  Z.land (bEndpointAddress ep) USB_ENDPOINT_DIR_MASK = 0) ->
      0 <= snd r)).
Proof.
  induction eps as [|e eps IH]; intros acc; cbn [fold_left].
  - cbv zeta. split; [left; reflexivity|]. split; [left; reflexivity|].
    intros _. split; (intros [H | (ep & [] & _)]; exact H).
  - cbv zeta.
    destruct (Z.eqb_spec (Z.land (bmAttributes e) USB_ENDPOINT_TYPE_MASK)
                         USB_ENDPOINT_TYPE_BULK) as [Eb|Eb]; cbn [negb].
    2:{ destruct (IH acc) as (Hi & Ho & Hn). cbv zeta in Hi, Ho, Hn.
        split; [|split].
        - destruct Hi as [Hi | (ep & Hin & Hrest)]; [left; exact Hi|].
          right. exists ep. split; [right; exact Hin | exact Hrest].
        - destruct Ho as [Ho | (ep & Hin & Hrest)]; [left; exact Ho|].
          right. exists ep. split; [right; exact Hin | exact Hrest].
        - intros Hall. inversion Hall as [|? ? He Hall']; subst.
          destruct (Hn Hall') as [Hni Hno]. split.
          + intros [H | (ep & [<- | Hin] & Hb & Hd)].
            * apply Hni. left. exact H.
            * contradiction.
            * apply Hni. right. exists ep. auto.
          + intros [H | (ep & [<- | Hin] & Hb & Hd)].
            * apply Hno. left. exact H.
            * contradiction.
            * apply Hno. right. exists ep. auto. }
    destruct (Z.eqb_spec (Z.land (bEndpointAddress e) USB_ENDPOINT_DIR_MASK) 0)
      as [Ed|Ed]; cbn [negb].
    + destruct (IH (fst acc, bEndpointAddress e)) as (Hi & Ho & Hn).
      cbv zeta in Hi, Ho, Hn. cbn [fst snd] in Hi, Ho, Hn.
      split; [|split].
      * destruct Hi as [Hi | (ep & Hin & Hrest)]; [left; exact Hi|].
        right. exists ep. split; [right; exact Hin | exact Hrest].
      * right. destruct Ho as [Ho | (ep & Hin & Hrest)].
        -- exists e. split; [left; reflexivity|]. split; [exact Eb|].
           rewrite Ho. split; [reflexivity | exact Ed].
        -- exists ep. split; [right; exact Hin | exact Hrest].
      * intros Hall. inversion Hall as [|? ? He Hall']; subst.
        destruct (Hn Hall') as [Hni Hno]. split.
        -- intros [H | (ep & [<- | Hin] & Hb & Hd)].
           ++ apply Hni. left. exact H.
           ++ contradiction.
           ++ apply Hni. right. exists ep. auto.
        -- intros _. apply Hno. left. lia.
    + destruct (IH (bEndpointAddress e, snd acc)) as (Hi & Ho & Hn).
      cbv zeta in Hi, Ho, Hn. cbn [fst snd] in Hi, Ho, Hn.
      split; [|split].
      * right. destruct Hi as [Hi | (ep & Hin & Hrest)].
        -- exists e. split; [left; reflexivity|]. split; [exact Eb|].
           rewrite Hi. split; [reflexivity | exact Ed].
        -- exists ep. split; [right; exact Hin | exact Hrest].
      * destruct Ho as [Ho | (ep & Hin & Hrest)]; [left; exact Ho|].
        right. exists ep. split; [right; exact Hin | exact Hrest].
      * intros Hall. inversion Hall as [|? ? He Hall']; subst.
        destruct (Hn Hall') as [Hni Hno]. split.
        -- intros _. apply Hni. left. lia.
        -- intros [H | (ep & [<- | Hin] & Hb & Hd)].
           ++ apply Hno. left. exact H.
           ++ contradiction.
           ++ apply Hno. right. exists ep. auto.
Qed.

(** The scan of one interface: non-negative results are bulk endpoints
    of the interface, IN and OUT; with octet addresses both results are
    non-negative exactly when the interface has a bulk endpoint in each
    direction. *)
Lemma scan_endpoints_spec (desc : interface_descriptor) :
  let r := Bslhid.scan_endpoints (endpoint desc) in
  (0 <= fst r -> bulk_in_at desc (fst r)) /\
  (0 <= snd r -> bulk_out_at desc (snd r)) /\
  (octet_addresses desc ->
   ((exists a, bulk_in_at desc a) -> 0 <= fst r) /\
   ((exists a, bulk_out_at desc a) -> 0 <= snd r)).
Proof.
  cbv zeta. unfold Bslhid.scan_endpoints.
  destruct (scan_step_spec (endpoint desc) (-1, -1)) as (Hi & Ho & Hn).
  cbv zeta in Hi, Ho, Hn. cbn [fst snd] in Hi, Ho, Hn.
  split; [|split].
  - intros Hpos. destruct Hi as [Hi | Hi]; [lia | exact Hi].
  - intros Hpos. destruct Ho as [Ho | Ho]; [lia | exact Ho].
  - intros Hall. destruct (Hn Hall) as [Hni Hno]. split.
    + intros (a & ep & Hin & Hb & Ha & Hd). apply Hni. right.
      exists ep. subst a. auto.
    + intros (a & ep & Hin & Hb & Ha & Hd). apply Hno. right.
      exists ep. subst a. auto.
Qed.

Lemma bslhid_find_interface_loop_spec (cfgval : Z)
      (intfs : list interface_descriptor) :
  Forall octet_addresses intfs ->
  forall (i : Z) (tr tr' : Bslhid.bslhid_transport) (r : Z),
    Bslhid.find_interface_loop cfgval i intfs tr = (r, tr') ->
    (r = 0 /\
     exists (k : nat) (desc : interface_descriptor),
       nth_error intfs k = Some desc /\
       Bslhid.int_number tr' = i + Z.of_nat k /\
       Bslhid.cfg_number tr' = cfgval /\
       bInterfaceClass desc = Bslhid.BSLHID_CLASS /\
       bulk_in_at desc (Bslhid.in_ep tr') /\
       bulk_out_at desc (Bslhid.out_ep tr') /\
       forall (j : nat) (d : interface_descriptor),
         (j < k)%nat -> nth_error intfs j = Some d ->
         ~ usable Bslhid.BSLHID_CLASS d) \/
    (r = -1 /\
     forall d, In d intfs -> ~ usable Bslhid.BSLHID_CLASS d).
Proof.
  induction intfs as [|d rest IH]; intros Hoct i tr tr' r H.
  - simpl in H. injection H as <- <-. right. split; [reflexivity|].
    intros d [].
  - inversion Hoct as [|? ? Hd Hrest]; subst.
    cbn [Bslhid.find_interface_loop] in H.
    destruct (scan_endpoints_spec d) as (Hin & Hout & Hcomp).
    cbv zeta in Hin, Hout, Hcomp. destruct (Hcomp Hd) as [Hci Hco].
    assert (Hnext : forall t,
      Bslhid.find_interface_loop cfgval (i + 1) rest t = (r, tr') ->
      ~ usable Bslhid.BSLHID_CLASS d ->
      (r = 0 /\
       exists (k : nat) (desc : interface_descriptor),
         nth_error (d :: rest) k = Some desc /\
         Bslhid.int_number tr' = i + Z.of_nat k /\
         Bslhid.cfg_number tr' = cfgval /\
         bInterfaceClass desc = Bslhid.BSLHID_CLASS /\
         bulk_in_at desc (Bslhid.in_ep tr') /\
         bulk_out_at desc (Bslhid.out_ep tr') /\
         forall (j : nat) (d0 : interface_descriptor),
           (j < k)%nat -> nth_error (d :: rest) j = Some d0 ->
           ~ usable Bslhid.BSLHID_CLASS d0) \/
      (r = -1 /\
       forall d0, In d0 (d :: rest) -> ~ usable Bslhid.BSLHID_CLASS d0)).
    { intros t Ht Hnot.
      destruct (IH Hrest _ _ _ _ Ht)
        as [(Hr & k & desc & Hk & Hi & Hc & Hcl & Hbi & Hbo & Hfirst)
           | (Hr & Hnone)].
      - left. split; [exact Hr|]. exists (S k), desc.
        split; [exact Hk|]. split; [lia|]. split; [exact Hc|].
        split; [exact Hcl|]. split; [exact Hbi|]. split; [exact Hbo|].
        intros j d0 Hj Hd0. destruct j as [|j].
        + simpl in Hd0. injection Hd0 as <-. exact Hnot.
        + simpl in Hd0. apply (Hfirst j d0); [lia | exact Hd0].
      - right. split; [exact Hr|].
        intros d0 [<- | Hin0]; [exact Hnot | now apply Hnone]. }
    destruct (Z.eqb_spec (bInterfaceClass d) Bslhid.BSLHID_CLASS) as [Ec|Ec];
      cbn [negb] in H.
    2:{ apply (Hnext _ H). intros (Hc & _). contradiction. }
    cbn [Bslhid.in_ep Bslhid.out_ep Bslhid.set_eps] in H.
    destruct (Z.geb_spec (fst (Bslhid.scan_endpoints (endpoint d))) 0)
      as [Hi0|Hi0];
      destruct (Z.geb_spec (snd (Bslhid.scan_endpoints (endpoint d))) 0)
      as [Ho0|Ho0]; cbn [andb] in H.
    + injection H as <- <-. left. split; [reflexivity|].
      exists 0%nat, d. split; [reflexivity|].
      cbn [Bslhid.int_number Bslhid.cfg_number Bslhid.in_ep Bslhid.out_ep
           Bslhid.set_numbers Bslhid.set_eps].
      split; [lia|]. split; [reflexivity|]. split; [exact Ec|].
      split; [apply Hin; lia|]. split; [apply Hout; lia|].
      intros j d0 Hj. lia.
    + apply (Hnext _ H). intros (_ & _ & Hx). specialize (Hco Hx). lia.
    + apply (Hnext _ H). intros (_ & Hx & _). specialize (Hci Hx). lia.
    + apply (Hnext _ H). intros (_ & Hx & _). specialize (Hci Hx). lia.
Qed.

(** X13.  The HID [find_interface], on a device whose endpoint
    addresses are octets: when it returns 0 it has selected the first
    interface of class HID that has a bulk endpoint in each direction,
    recording its index, the configuration value and the two endpoint
    addresses (IN with the direction bit, OUT without); when it returns
    -1 with the configuration readable, the device has no such
    interface. *)
Theorem bslhid_find_interface_selects_first_usable (env : usb_env)
        (tr tr' : Bslhid.bslhid_transport) (dev : libusb_device)
        (r : Z) (w w' : world) :
  Forall octet_addresses (interface (config dev)) ->
  Bslhid.find_interface env tr dev w = Some ((r, tr'), w') ->
  (r = 0 /\
   exists (k : nat) (desc : interface_descriptor),
     nth_error (interface (config dev)) k = Some desc /\
     Bslhid.int_number tr' = Z.of_nat k /\
     Bslhid.cfg_number tr' = bConfigurationValue (config dev) /\
     bInterfaceClass desc = USB_CLASS_HID /\
     bulk_in_at desc (Bslhid.in_ep tr') /\
     bulk_out_at desc (Bslhid.out_ep tr') /\
     forall (j : nat) (d : interface_descriptor),
       (j < k)%nat -> nth_error (interface (config dev)) j = Some d ->
       ~ usable USB_CLASS_HID d) \/
  (r = -1 /\
   (answer env (length w) (c_get_config_descriptor dev) = 0 ->
    forall d, In d (interface (config dev)) -> ~ usable USB_CLASS_HID d)).
Proof.
  intros Hoct. unfold Bslhid.find_interface, bind, libusb, ret.
  destruct (Z.eqb_spec (answer env (length w) (c_get_config_descriptor dev)) 0)
    as [E|E]; cbn [negb].
  - intros H. injection H as H _.
    destruct (bslhid_find_interface_loop_spec _ _ Hoct _ _ _ _ H)
      as [(Hr & k & desc & Hk & Hi & Hrest) | (Hr & Hnone)].
    + left. split; [exact Hr|]. exists k, desc.
      split; [exact Hk|]. split; [lia | exact Hrest].
    + right. split; [exact Hr|]. intros _. exact Hnone.
  - intros H. injection H as <- _ _. right. split; [reflexivity|].
    intros E0. contradiction.
Qed.

Lemma bslhid_find_interface_selects_first_usable_witness :
  exists tr' w',
    Bslhid.find_interface bsl_env open_instance bsl_device []
    = Some ((0, tr'), w') /\
    bulk_in_at (mk_interface 0 3 [mk_endpoint 2 129; mk_endpoint 2 1])
               (Bslhid.in_ep tr').
Proof.
  destruct (Bslhid.find_interface bsl_env open_instance bsl_device [])
    as [[[r tr'] w']|] eqn:E; [|vm_compute in E; discriminate E].
  assert (Hr : r = 0) by (vm_compute in E; congruence).
  subst r. exists tr', w'. split; [reflexivity|].
  assert (Hoct : Forall octet_addresses (interface (config bsl_device))).
  { repeat constructor; cbn; lia. }
  destruct (bslhid_find_interface_selects_first_usable _ _ _ _ _ _ _ Hoct E)
    as [(_ & k & desc & Hk & _ & _ & _ & Hbi & _) | (Hbad & _)];
    [|discriminate Hbad].
  destruct k as [|[|k]]; simpl in Hk; try discriminate Hk.
  injection Hk as <-. exact Hbi.
Defined.

Lemma cdc_find_interface_loop_handle (intfs : list interface_descriptor) :
  forall (i : Z) (tr : CdcAcm.cdc_acm_transport),
    CdcAcm.handle (snd (CdcAcm.find_interface_loop i intfs tr))
    = CdcAcm.handle tr.
Proof.
  induction intfs as [|d rest IH]; intros i tr; simpl; [reflexivity|].
  destruct (negb (bInterfaceClass d =? CdcAcm.CDC_INTERFACE_CLASS));
    [apply IH|].
  match goal with |- context [if ?b then _ else _] => destruct b end.
  - reflexivity.
  - rewrite IH. reflexivity.
Qed.

Lemma cdc_find_interface_loop_spec (intfs : list interface_descriptor) :
  Forall octet_addresses intfs ->
  forall (i : Z) (tr tr' : CdcAcm.cdc_acm_transport) (r : Z),
    CdcAcm.find_interface_loop i intfs tr = (r, tr') ->
    (r = 0 /\
     exists (k : nat) (desc : interface_descriptor),
       nth_error intfs k = Some desc /\
       CdcAcm.int_number tr' = i + Z.of_nat k /\
       bInterfaceClass desc = CdcAcm.CDC_INTERFACE_CLASS /\
       bulk_in_at desc (CdcAcm.in_ep tr') /\
       bulk_out_at desc (CdcAcm.out_ep tr') /\
       forall (j : nat) (d : interface_descriptor),
         (j < k)%nat -> nth_error intfs j = Some d ->
         ~ usable CdcAcm.CDC_INTERFACE_CLASS d) \/
    (r = -1 /\
     forall d, In d intfs -> ~ usable CdcAcm.CDC_INTERFACE_CLASS d).
Proof.
  induction intfs as [|d rest IH]; intros Hoct i tr tr' r H.
  - simpl in H. injection H as <- <-. right. split; [reflexivity|].
    intros d [].
  - inversion Hoct as [|? ? Hd Hrest]; subst.
    cbn [CdcAcm.find_interface_loop] in H.
    change (CdcAcm.scan_endpoints (endpoint d))
      with (Bslhid.scan_endpoints (endpoint d)) in H.
    destruct (scan_endpoints_spec d) as (Hin & Hout & Hcomp).
    cbv zeta in Hin, Hout, Hcomp. destruct (Hcomp Hd) as [Hci Hco].
    assert (Hnext : forall t,
      CdcAcm.find_interface_loop (i + 1) rest t = (r, tr') ->
      ~ usable CdcAcm.CDC_INTERFACE_CLASS d ->
      (r = 0 /\
       exists (k : nat) (desc : interface_descriptor),
         nth_error (d :: rest) k = Some desc /\
         CdcAcm.int_number tr' = i + Z.of_nat k /\
         bInterfaceClass desc = CdcAcm.CDC_INTERFACE_CLASS /\
         bulk_in_at desc (CdcAcm.in_ep tr') /\
         bulk_out_at desc (CdcAcm.out_ep tr') /\
         forall (j : nat) (d0 : interface_descriptor),
           (j < k)%nat -> nth_error (d :: rest) j = Some d0 ->
           ~ usable CdcAcm.CDC_INTERFACE_CLASS d0) \/
      (r = -1 /\
       forall d0, In d0 (d :: rest) ->
                  ~ usable CdcAcm.CDC_INTERFACE_CLASS d0)).
    { intros t Ht Hnot.
      destruct (IH Hrest _ _ _ _ Ht)
        as [(Hr & k & desc & Hk & Hi & Hcl & Hbi & Hbo & Hfirst)
           | (Hr & Hnone)].
      - left. split; [exact Hr|]. exists (S k), desc.
        split; [exact Hk|]. split; [lia|].
        split; [exact Hcl|]. split; [exact Hbi|]. split; [exact Hbo|].
        intros j d0 Hj Hd0. destruct j as [|j].
        + simpl in Hd0. injection Hd0 as <-. exact Hnot.
        + simpl in Hd0. apply (Hfirst j d0); [lia | exact Hd0].
      - right. split; [exact Hr|].
        intros d0 [<- | Hin0]; [exact Hnot | now apply Hnone]. }
    destruct (Z.eqb_spec (bInterfaceClass d) CdcAcm.CDC_INTERFACE_CLASS)
      as [Ec|Ec]; cbn [negb] in H.
    2:{ apply (Hnext _ H). intros (Hc & _). contradiction. }
    cbv zeta in H. cbn [CdcAcm.in_ep CdcAcm.out_ep CdcAcm.set_eps] in H.
    destruct (Z.geb_spec (fst (Bslhid.scan_endpoints (endpoint d))) 0)
      as [Hi0|Hi0];
      destruct (Z.geb_spec (snd (Bslhid.scan_endpoints (endpoint d))) 0)
      as [Ho0|Ho0]; cbn [andb] in H.
    + injection H as <- <-. left. split; [reflexivity|].
      exists 0%nat, d. split; [reflexivity|].
      cbn [CdcAcm.int_number CdcAcm.in_ep CdcAcm.out_ep
           CdcAcm.set_int_number CdcAcm.set_eps].
      split; [lia|]. split; [exact Ec|].
      split; [apply Hin; lia|]. split; [apply Hout; lia|].
      intros j d0 Hj. lia.
    + apply (Hnext _ H). intros (_ & _ & Hx). specialize (Hco Hx). lia.
    + apply (Hnext _ H). intros (_ & Hx & _). specialize (Hci Hx). lia.
    + apply (Hnext _ H). intros (_ & Hx & _). specialize (Hci Hx). lia.
Qed.

(** X14.  The CDC-ACM [find_interface], on a device whose endpoint
    addresses are octets: when it returns 0 it has selected the first
    interface of class 10 that has a bulk endpoint in each direction,
    recording its index and the two endpoint addresses; when it returns
    -1 with the configuration readable, the device has no such
    interface.  The handle of the instance is not touched. *)
Theorem cdc_find_interface_selects_first_usable (env : usb_env)
        (tr tr' : CdcAcm.cdc_acm_transport) (dev : libusb_device)
        (r : Z) (w w' : world) :
  Forall octet_addresses (interface (config dev)) ->
  CdcAcm.find_interface env tr dev w = Some ((r, tr'), w') ->
  ((r = 0 /\
    exists (k : nat) (desc : interface_descriptor),
      nth_error (interface (config dev)) k = Some desc /\
      CdcAcm.int_number tr' = Z.of_nat k /\
      bInterfaceClass desc = 10 /\
      bulk_in_at desc (CdcAcm.in_ep tr') /\
      bulk_out_at desc (CdcAcm.out_ep tr') /\
      forall (j : nat) (d : interface_descriptor),
        (j < k)%nat -> nth_error (interface (config dev)) j = Some d ->
        ~ usable 10 d) \/
   (r = -1 /\
    (answer env (length w) (c_get_config_descriptor dev) = 0 ->
     forall d, In d (interface (config dev)) -> ~ usable 10 d))) /\
  CdcAcm.handle tr' = CdcAcm.handle tr.
Proof.
  intros Hoct. unfold CdcAcm.find_interface, bind, libusb, ret.
  destruct (Z.eqb_spec (answer env (length w) (c_get_config_descriptor dev)) 0)
    as [E|E]; cbn [negb].
  - intros H. injection H as H _. split.
    + destruct (cdc_find_interface_loop_spec _ Hoct _ _ _ _ H)
        as [(Hr & k & desc & Hk & Hi & Hrest) | (Hr & Hnone)].
      * left. split; [exact Hr|]. exists k, desc.
        split; [exact Hk|]. split; [lia | exact Hrest].
      * right. split; [exact Hr|]. intros _. exact Hnone.
    + pose proof (cdc_find_interface_loop_handle
                    (interface (config dev)) 0 tr) as Hh.
      rewrite H in Hh. exact Hh.
  - intros H. injection H as <- <- _. split; [|reflexivity].
    right. split; [reflexivity|]. intros E0. contradiction.
Qed.

Lemma cdc_find_interface_selects_first_usable_witness :
  exists tr' w',
    CdcAcm.find_interface (plugged_env []) (CdcAcm.mk_tr 0 0 0 0 0 0 [])
                          (bridge_device 1105 62514 10) []
    = Some ((0, tr'), w') /\
    bulk_out_at (mk_interface 0 10 [mk_endpoint 2 129; mk_endpoint 2 1])
                (CdcAcm.out_ep tr').
Proof.
  destruct (CdcAcm.find_interface (plugged_env [])
                                  (CdcAcm.mk_tr 0 0 0 0 0 0 [])
                                  (bridge_device 1105 62514 10) [])
    as [[[r tr'] w']|] eqn:E; [|vm_compute in E; discriminate E].
  assert (Hr : r = 0) by (vm_compute in E; congruence).
  subst r. exists tr', w'. split; [reflexivity|].
  assert (Hoct : Forall octet_addresses
                        (interface (config (bridge_device 1105 62514 10)))).
  { repeat constructor; cbn; lia. }
  destruct (cdc_find_interface_selects_first_usable _ _ _ _ _ _ _ Hoct E)
    as [[(_ & k & desc & Hk & _ & _ & _ & Hbo & _) | (Hbad & _)] _];
    [|discriminate Hbad].
  destruct k as [|[|k]]; simpl in Hk; try discriminate Hk.
  injection Hk as <-. exact Hbo.
Defined.

End InterfaceFacts.


(* ================================================================= *)
(** ** Handles and claims across open, resume and destroy *)

(** Case analysis on every test of a straight-line function, innermost
    first. *)
Ltac split_paths :=
  repeat (first
            [ match goal with
              | |- context [negb ?c] =>
                  lazymatch c with
                  | context [if _ then _ else _] => fail
                  | _ => destruct c eqn:?
                  end
              end
            | match goal with
              | |- context [if ?b then _ else _] =>
                  lazymatch b with
                  | context [if _ then _ else _] => fail
                  | _ => destruct b eqn:?
                  end
              end ];
          cbv beta iota zeta; cbn [negb andb]).

Section ResourceFacts.
Import Libusb Usbutil Scenarios.

Ltac count_log :=
  repeat match goal with x := _ |- _ => subst x end;
  rewrite ?n_opened_snoc, ?n_closed_snoc, ?n_claimed_snoc, ?n_released_snoc;
  try unfold n_opened, n_closed, n_claimed, n_released in *;
  cbn [filter is_open_ok is_close is_claim_ok is_release];
  repeat match goal with
         | E : (?a =? ?b) = _ |- context [?a =? ?b] => rewrite E
         end;
  cbn [length]; lia.

Ltac solve_delta := unfold log_delta in *; repeat split; count_log.

Ltac join_deltas :=
  unfold log_delta in *;
  repeat match goal with H : _ /\ _ |- _ => destruct H end;
  repeat split; lia.

Lemma handle_of_open_nonzero (n : nat) : (handle_of_open n =? 0) = false.
Proof. apply Z.eqb_neq. unfold handle_of_open. lia. Qed.

Lemma bind_inv {A B : Type} (m : M A) (k : A -> M B) (w w' : world) (b : B) :
  bind m k w = Some (b, w') ->
  exists a w1, m w = Some (a, w1) /\ k a w1 = Some (b, w').
Proof.
  unfold bind. destruct (m w) as [[a w1]|]; [|discriminate].
  intros H. now exists a, w1.
Qed.

Lemma log_delta_refl (w : world) : log_delta w w 0 0 0 0.
Proof. unfold log_delta. repeat split; lia. Qed.

Lemma log_delta_trans (w w1 w2 : world) (o c k r o' c' k' r' : nat) :
  log_delta w w1 o c k r -> log_delta w1 w2 o' c' k' r' ->
  log_delta w w2 (o + o') (c + c') (k + k') (r + r').
Proof. intros H1 H2. join_deltas. Qed.

Lemma quiet_ret {A : Type} (a : A) : quiet (ret a).
Proof. intros w w' b H. injection H as _ <-. apply log_delta_refl. Qed.

Lemma quiet_stuck {A : Type} : quiet (@stuck A).
Proof. intros w w' b H. discriminate H. Qed.

Lemma quiet_bind {A B : Type} (m : M A) (k : A -> M B) :
  quiet m -> (forall a, quiet (k a)) -> quiet (bind m k).
Proof.
  intros Hm Hk w w' b H. apply bind_inv in H.
  destruct H as (a & w1 & H1 & H2).
  exact (log_delta_trans _ _ _ 0 0 0 0 0 0 0 0 (Hm _ _ _ H1) (Hk _ _ _ _ H2)).
Qed.

Lemma quiet_libusb (env : usb_env) (c : call) :
  (forall d, c <> c_open d) -> (forall h, c <> c_close h) ->
  (forall h i, c <> c_claim_interface h i) ->
  (forall h i, c <> c_release_interface h i) ->
  quiet (libusb env c).
Proof.
  intros Ho Hc Hk Hr w w' a H. unfold libusb in H. injection H as _ <-.
  unfold log_delta.
  rewrite n_opened_snoc, n_closed_snoc, n_claimed_snoc, n_released_snoc.
  destruct c;
    try (unfold n_opened, n_closed, n_claimed, n_released; simpl;
         repeat split; lia); exfalso.
  - eapply Ho; reflexivity.
  - eapply Hc; reflexivity.
  - eapply Hk; reflexivity.
  - eapply Hr; reflexivity.
Qed.

Lemma quiet_bulk_in (env : usb_env) (h : usb_handle) (ep len t : Z) :
  quiet (libusb_bulk_in env h ep len t).
Proof.
  intros w w' a H. unfold libusb_bulk_in in H. injection H as _ <-.
  solve_delta.
Qed.

Lemma quiet_bulk_out (env : usb_env) (h : usb_handle) (ep : Z)
      (data : list Z) (t : Z) :
  quiet (libusb_bulk_out env h ep data t).
Proof.
  intros w w' a H. unfold libusb_bulk_out in H. injection H as _ <-.
  solve_delta.
Qed.

Lemma quiet_get_device_list (env : usb_env) :
  quiet (libusb_get_device_list env).
Proof.
  intros w w' a H. unfold libusb_get_device_list in H. injection H as _ <-.
  solve_delta.
Qed.

Ltac quiet_step :=
  first
    [ apply quiet_ret
    | apply quiet_stuck
    | apply quiet_bulk_in
    | apply quiet_bulk_out
    | apply quiet_get_device_list
    | apply quiet_libusb; intros; discriminate
    | apply quiet_bind; [|intros]
    | match goal with
      | |- quiet (if ?b then _ else _) => destruct b
      | |- quiet (match ?x with (_, _) => _ end) => destruct x
      | |- quiet (match ?x with Some _ => _ | None => _ end) => destruct x
      end ].

Lemma probing_of_quiet {A : Type} (m : M A) : quiet m -> probing m.
Proof. intros Hq w w' a H. exists 0%nat. exact (Hq _ _ _ H). Qed.

Lemma probing_bind {A B : Type} (m : M A) (k : A -> M B) :
  probing m -> (forall a, probing (k a)) -> probing (bind m k).
Proof.
  intros Hm Hk w w' b H. apply bind_inv in H.
  destruct H as (a & w1 & H1 & H2).
  destruct (Hm _ _ _ H1) as (o1 & D1).
  destruct (Hk _ _ _ _ H2) as (o2 & D2).
  exists (o1 + o2)%nat.
  exact (log_delta_trans _ _ _ _ _ 0 0 _ _ 0 0 D1 D2).
Qed.

(** The lookups of usbutil.c. *)
Lemma quiet_find_by_loc_loop (env : usb_env) (tb td : Z)
      (devs : list libusb_device) :
  forall found, quiet (find_by_loc_loop env tb td devs found).
Proof.
  induction devs as [|d devs IH]; intros found; cbn [find_by_loc_loop].
  - apply quiet_ret.
  - destruct ((bus_number d =? tb) && (device_address d =? td));
      [apply IH|].
    apply quiet_bind; [apply quiet_libusb; intros; discriminate|].
    intros _. apply IH.
Qed.

Lemma quiet_find_by_loc (env : usb_env) (loc : option string) :
  quiet (usbutil_find_by_loc env loc).
Proof.
  unfold usbutil_find_by_loc.
  destruct loc as [l|]; [|apply quiet_ret].
  destruct (strtok (prefix_chars 63 l)) as [[bt saved]|]; [|apply quiet_ret].
  destruct (strtok saved) as [[dt rest]|]; [|apply quiet_ret].
  apply quiet_bind; [apply quiet_get_device_list|].
  intros devs. apply quiet_find_by_loc_loop.
Qed.

Lemma probing_read_serial (env : usb_env) (dev : libusb_device)
      (max_len : nat) :
  probing (read_serial env dev max_len).
Proof.
  intros w w' a. unfold read_serial, bind, libusb_open, libusb, ret.
  destruct (answer env (length w) (c_open dev) =? 0) eqn:E0; cbn [negb].
  - repeat match goal with
           | |- context [if ?b then _ else _] => destruct b eqn:?
           end;
      intros H; injection H as _ <-; exists 1%nat; solve_delta.
  - intros H; injection H as _ <-. exists 0%nat. solve_delta.
Qed.

Lemma probing_find_by_id_loop (env : usb_env) (vendor product : Z)
      (rs : option string) (devs : list libusb_device) :
  forall found, probing (find_by_id_loop env vendor product rs devs found).
Proof.
  induction devs as [|d devs IH]; intros found; cbn [find_by_id_loop].
  - apply probing_of_quiet, quiet_ret.
  - apply probing_bind;
      [apply probing_of_quiet, quiet_libusb; intros; discriminate|].
    intros rc. destruct (negb (rc =? 0)); [apply IH|].
    destruct ((idVendor d =? vendor) && (idProduct d =? product));
      [|apply IH].
    destruct rs as [wanted|]; [|apply IH].
    apply probing_bind; [apply probing_read_serial|].
    intros [r buf]. destruct ((r =? 0) && strcasecmp_eq wanted buf);
      [apply IH|].
    apply probing_bind;
      [apply probing_of_quiet, quiet_libusb; intros; discriminate|].
    intros _. apply IH.
Qed.

Lemma probing_find_by_id (env : usb_env) (vendor product : Z)
      (rs : option string) :
  probing (usbutil_find_by_id env vendor product rs).
Proof.
  unfold usbutil_find_by_id.
  apply probing_bind; [apply probing_of_quiet, quiet_get_device_list|].
  intros devs. apply probing_find_by_id_loop.
Qed.

(** The flush loop. *)
Lemma quiet_drain (env : usb_env) (h : usb_handle) (ep : Z) :
  forall fuel, quiet (drain env fuel h ep).
Proof.
  induction fuel as [|f IH]; cbn [drain]; [apply quiet_stuck|].
  apply quiet_bind; [apply quiet_bulk_in|].
  intros [rc got]. destruct (negb (rc =? 0)); [apply IH | apply quiet_ret].
Qed.

(** *** The HID backend *)

Lemma bslhid_find_interface_loop_handle (cfgval : Z)
      (intfs : list interface_descriptor) :
  forall (i : Z) (tr : Bslhid.bslhid_transport),
    Bslhid.handle (snd (Bslhid.find_interface_loop cfgval i intfs tr))
    = Bslhid.handle tr.
Proof.
  induction intfs as [|d rest IH]; intros i tr; simpl; [reflexivity|].
  destruct (negb (bInterfaceClass d =? Bslhid.BSLHID_CLASS)); [apply IH|].
  match goal with |- context [if ?b then _ else _] => destruct b end.
  - reflexivity.
  - rewrite IH. reflexivity.
Qed.

Lemma bslhid_open_device_cases (env : usb_env)
      (tr tr' : Bslhid.bslhid_transport) (dev : libusb_device)
      (r : Z) (w w' : world) :
  Bslhid.handle tr = 0 ->
  Bslhid.open_device env tr dev w = Some ((r, tr'), w') ->
  (r = 0 /\ Bslhid.handle tr' <> 0 /\ log_delta w w' 1 0 1 0) \/
  (r = -1 /\
   ((Bslhid.handle tr' = 0 /\ log_delta w w' 0 0 0 0) \/
    (Bslhid.handle tr' <> 0 /\ log_delta w w' 1 1 0 0))).
Proof.
  intros Hh.
  unfold Bslhid.open_device, Bslhid.find_interface, bind, libusb, ret.
  pose proof (bslhid_find_interface_loop_handle
                (bConfigurationValue (config dev)) (interface (config dev))
                0 tr) as Hfh.
  destruct (Bslhid.find_interface_loop _ 0 (interface (config dev)) tr)
    as [r1 tr1].
  cbn [snd] in Hfh. rewrite Hh in Hfh.
  destruct (answer env (length w) (c_get_device_descriptor dev) =? 0) eqn:E1;
    cbn [negb].
  2:{ intros H. injection H as <- <- <-. right. split; [reflexivity|].
      left. split; [exact Hh | solve_delta]. }
  match goal with
  | |- context [negb (?c =? 0)] => destruct (c =? 0) eqn:E2
  end; cbn [negb].
  2:{ intros H. injection H as <- <- <-. right. split; [reflexivity|].
      left. split; [exact Hh | solve_delta]. }
  destruct (r1 =? 0) eqn:E3; cbn [negb].
  2:{ intros H. injection H as <- <- <-. right. split; [reflexivity|].
      left. split; [exact Hfh | solve_delta]. }
  unfold libusb_open. rewrite Hfh.
  cbn [Bslhid.handle Bslhid.set_handle Bslhid.int_number].
  match goal with
  | |- context [if ?c =? 0 then handle_of_open _ else 0] =>
      destruct (c =? 0) eqn:E4
  end.
  2:{ cbn [Z.eqb]. intros H. injection H as <- <- <-.
      right. split; [reflexivity|].
      left. split; [reflexivity | solve_delta]. }
  rewrite handle_of_open_nonzero.
  split_paths; intros H; injection H as <- <- <-;
    cbn [Bslhid.handle Bslhid.set_handle];
    first
      [ left; split; [reflexivity|];
        split; [unfold handle_of_open; lia | solve_delta]
      | right; split; [reflexivity|]; right;
        split; [unfold handle_of_open; lia | solve_delta] ].
Qed.

(** X15.  The HID [open_device] on an instance without a handle: on
    success it has added one open handle and one claimed interface; on
    failure nothing is left open or claimed.  But when it is the claim
    that fails, the handle just closed stays in the instance: the
    instance then looks open, and [bslhid_resume] returns 0 on it
    without reopening anything. *)
Theorem bslhid_open_device_outcome (env : usb_env)
        (tr tr' : Bslhid.bslhid_transport) (dev : libusb_device)
        (r : Z) (w w' : world) :
  Bslhid.handle tr = 0 ->
  Bslhid.open_device env tr dev w = Some ((r, tr'), w') ->
  (r = 0 /\ Bslhid.handle tr' <> 0 /\ log_delta w w' 1 0 1 0) \/
  (r = -1 /\
   ((Bslhid.handle tr' = 0 /\ log_delta w w' 0 0 0 0) \/
    (Bslhid.handle tr' <> 0 /\ log_delta w w' 1 1 0 0 /\
     forall w'', Bslhid.bslhid_resume env tr' w'' = Some ((0, tr'), w'')))).
Proof.
  intros Hh H.
  destruct (bslhid_open_device_cases env tr tr' dev r w w' Hh H)
    as [Hok | (Hr & [Hz | (Hn & Hd)])].
  - left. exact Hok.
  - right. split; [exact Hr|]. left. exact Hz.
  - right. split; [exact Hr|]. right. split; [exact Hn|].
    split; [exact Hd|]. intros w''. unfold Bslhid.bslhid_resume.
    apply Z.eqb_neq in Hn. rewrite Hn. reflexivity.
Qed.

Lemma bslhid_open_device_outcome_witness :
  exists tr' w',
    Bslhid.open_device bsl_env (Bslhid.mk_tr 0 0 0 0 0 "001:002" "")
                       bsl_device []
    = Some ((0, tr'), w') /\
    log_delta [] w' 1 0 1 0.
Proof.
  destruct (Bslhid.open_device bsl_env (Bslhid.mk_tr 0 0 0 0 0 "001:002" "")
                               bsl_device [])
    as [[[r tr'] w']|] eqn:E; [|vm_compute in E; discriminate E].
  assert (Hr : r = 0) by (vm_compute in E; congruence).
  subst r. exists tr', w'. split; [reflexivity|].
  destruct (bslhid_open_device_outcome
              bsl_env (Bslhid.mk_tr 0 0 0 0 0 "001:002" "") tr' bsl_device
              0 [] w' eq_refl E)
    as [(_ & _ & Hd) | (Hbad & _)]; [exact Hd | discriminate Hbad].
Defined.

Lemma quiet_bslhid_flush (env : usb_env) (fuel : nat)
      (tr : Bslhid.bslhid_transport) :
  quiet (Bslhid.bslhid_flush env fuel tr).
Proof.
  unfold Bslhid.bslhid_flush.
  destruct (Bslhid.handle tr =? 0); [apply quiet_ret|].
  apply quiet_bind; [|intros; apply quiet_ret].
  intros w w' a H. rewrite bslhid_flush_loop_shape in H.
  exact (quiet_drain env _ _ fuel w w' a H).
Qed.

Lemma bslhid_destroy_delta (env : usb_env) (tr : Bslhid.bslhid_transport)
      (w : world) :
  Bslhid.handle tr <> 0 ->
  exists w', Bslhid.bslhid_destroy env tr w = Some (tt, w') /\
             log_delta w w' 0 1 0 1.
Proof.
  intros Hh. apply Z.eqb_neq in Hh.
  unfold Bslhid.bslhid_destroy, bind, libusb, ret. rewrite Hh. cbn [negb].
  eexists. split; [reflexivity|]. solve_delta.
Qed.

(** X16.  Handles and claims over the life of a HID transport.  A
    [bslhid_open] that returns NULL has closed every handle it opened
    and holds no claim; one that returns an instance has left exactly
    one handle open and one interface claimed, and [bslhid_destroy] of
    that instance releases the interface and closes the handle. *)
Theorem bslhid_lifecycle_balanced (env : usb_env) (fuel : nat)
        (dev_path requested_serial : option string)
        (res : option Bslhid.bslhid_transport) (w w1 : world) :
  Bslhid.bslhid_open env fuel dev_path requested_serial w = Some (res, w1) ->
  match res with
  | None => exists o k : nat, log_delta w w1 o o k k
  | Some tr =>
      exists o : nat,
        log_delta w w1 (S o) o 1 0 /\
        exists w2, Bslhid.bslhid_destroy env tr w1 = Some (tt, w2) /\
                   log_delta w w2 (S o) (S o) 1 1
  end.
Proof.
  unfold Bslhid.bslhid_open. cbv zeta. intros H.
  apply bind_inv in H. destruct H as ([tr0 dev] & w0 & Hloc & H).
  assert (Hl : Bslhid.handle tr0 = 0 /\ exists o, log_delta w w0 o o 0 0).
  { destruct dev_path as [p|].
    - apply bind_inv in Hloc. destruct Hloc as (d & wx & Hf & Hr).
      injection Hr as <- <- <-. split; [reflexivity|].
      exists 0%nat. exact (quiet_find_by_loc env _ _ _ _ Hf).
    - destruct requested_serial as [s|]; [|discriminate Hloc].
      apply bind_inv in Hloc. destruct Hloc as (d & wx & Hf & Hr).
      injection Hr as <- <- <-. split; [reflexivity|].
      exact (probing_find_by_id env _ _ _ _ _ _ Hf). }
  destruct Hl as (Hh0 & o0 & D0). cbn [fst snd] in H.
  destruct dev as [dev|];
    [|injection H as <- <-; exists o0, 0%nat; exact D0].
  apply bind_inv in H. destruct H as ([r tr1] & wa & Hopen & H).
  destruct (bslhid_open_device_cases env tr0 tr1 dev r w0 wa Hh0 Hopen)
    as [(-> & Hn & D1) | (-> & [(_ & D1) | (_ & D1)])].
  - change (0 <? 0) with false in H. cbv iota in H.
    apply bind_inv in H. destruct H as (rf & wb & Hfl & H).
    injection H as <- <-.
    pose proof (quiet_bslhid_flush env fuel tr1 _ _ _ Hfl) as D2.
    destruct (bslhid_destroy_delta env tr1 wb Hn) as (w2 & Hd & D3).
    exists o0. split; [join_deltas|].
    exists w2. split; [exact Hd | join_deltas].
  - change (-1 <? 0) with true in H. cbv iota in H. injection H as <- <-.
    exists o0, 0%nat. join_deltas.
  - change (-1 <? 0) with true in H. cbv iota in H. injection H as <- <-.
    exists (S o0), 0%nat. join_deltas.
Qed.

Lemma bslhid_lifecycle_balanced_witness :
  exists tr w1 w2,
    Bslhid.bslhid_open bsl_env 1 (Some "001:002"%string) None []
    = Some (Some tr, w1) /\
    Bslhid.bslhid_destroy bsl_env tr w1 = Some (tt, w2) /\
    n_opened w2 = n_closed w2 /\ n_claimed w2 = n_released w2.
Proof.
  destruct (Bslhid.bslhid_open bsl_env 1 (Some "001:002"%string) None [])
    as [[[tr|] w1]|] eqn:E;
    [|vm_compute in E; discriminate E|vm_compute in E; discriminate E].
  destruct (bslhid_lifecycle_balanced
              bsl_env 1 (Some "001:002"%string) None (Some tr) [] w1 E)
    as (o & _ & w2 & Hd & D).
  exists tr, w1, w2. split; [reflexivity|]. split; [exact Hd|].
  unfold log_delta in D. destruct D as (Ho & Hc & Hk & Hr).
  change (n_opened []) with 0%nat in Ho. change (n_closed []) with 0%nat in Hc.
  change (n_claimed []) with 0%nat in Hk.
  change (n_released []) with 0%nat in Hr.
  split; [rewrite Ho, Hc | rewrite Hk, Hr]; reflexivity.
Defined.

(** X17.  Suspend and resume of an open HID transport.
    [bslhid_suspend] releases the interface, closes the handle and
    clears it in the instance.  The [bslhid_resume] that follows either
    returns 0 with a new handle open and the interface claimed again,
    or returns -1 with every handle it opened closed and nothing
    claimed. *)
Theorem bslhid_suspend_resume_accounting (env : usb_env)
        (tr tr1 tr2 : Bslhid.bslhid_transport) (r1 r2 : Z)
        (w w1 w2 : world) :
  Bslhid.handle tr <> 0 ->
  Bslhid.bslhid_suspend env tr w = Some ((r1, tr1), w1) ->
  Bslhid.bslhid_resume env tr1 w1 = Some ((r2, tr2), w2) ->
  r1 = 0 /\ Bslhid.handle tr1 = 0 /\ log_delta w w1 0 1 0 1 /\
  ((r2 = 0 /\ Bslhid.handle tr2 <> 0 /\ log_delta w w2 1 1 1 1) \/
   (r2 = -1 /\ exists o : nat, log_delta w w2 o (S o) 0 1)).
Proof.
  intros Hh Hs Hr.
  assert (Hs' : r1 = 0 /\ Bslhid.handle tr1 = 0 /\ log_delta w w1 0 1 0 1).
  { revert Hs. unfold Bslhid.bslhid_suspend, bind, libusb, ret.
    apply Z.eqb_neq in Hh. rewrite Hh. cbn [negb].
    intros H. injection H as <- <- <-.
    split; [reflexivity|]. split; [reflexivity | solve_delta]. }
  destruct Hs' as (-> & Hh1 & D1).
  split; [reflexivity|]. split; [exact Hh1|]. split; [exact D1|].
  unfold Bslhid.bslhid_resume in Hr. rewrite Hh1 in Hr.
  change (negb (0 =? 0)) with false in Hr. cbv iota in Hr.
  apply bind_inv in Hr. destruct Hr as (dev & wa & Hloc & Hr).
  pose proof (quiet_find_by_loc env _ _ _ _ Hloc) as D2.
  destruct dev as [dev|].
  2:{ injection Hr as <- <- <-. right. split; [reflexivity|].
      exists 0%nat. join_deltas. }
  apply bind_inv in Hr. destruct Hr as ([r3 tr3] & wb & Hop & Hr).
  destruct (bslhid_open_device_cases env tr1 tr3 dev r3 wa wb Hh1 Hop)
    as [(-> & Hn & D3) | (-> & [(_ & D3) | (_ & D3)])].
  - change (0 <? 0) with false in Hr. cbv iota in Hr.
    injection Hr as <- <- <-. left.
    split; [reflexivity|]. split; [exact Hn | join_deltas].
  - change (-1 <? 0) with true in Hr. cbv iota in Hr.
    injection Hr as <- <- <-. right. split; [reflexivity|].
    exists 0%nat. join_deltas.
  - change (-1 <? 0) with true in Hr. cbv iota in Hr.
    injection Hr as <- <- <-. right. split; [reflexivity|].
    exists 1%nat. join_deltas.
Qed.

Lemma bslhid_suspend_resume_accounting_witness :
  exists tr1 w1 tr2 w2,
    Bslhid.bslhid_suspend bsl_env open_instance [] = Some ((0, tr1), w1) /\
    Bslhid.bslhid_resume bsl_env tr1 w1 = Some ((0, tr2), w2) /\
    Bslhid.handle tr2 <> 0 /\ log_delta [] w2 1 1 1 1.
Proof.
  destruct (Bslhid.bslhid_suspend bsl_env open_instance [])
    as [[[r1 tr1] w1]|] eqn:Es; [|vm_compute in Es; discriminate Es].
  destruct (Bslhid.bslhid_resume bsl_env tr1 w1)
    as [[[r2 tr2] w2]|] eqn:Er;
    [|vm_compute in Es; injection Es as <- <- <-;
      vm_compute in Er; discriminate Er].
  assert (Hh : Bslhid.handle open_instance <> 0) by (vm_compute; discriminate).
  destruct (bslhid_suspend_resume_accounting
              bsl_env open_instance tr1 tr2 r1 r2 [] w1 w2 Hh Es Er)
    as (-> & _ & _ & [(-> & Hn & D) | (Hbad & _)]).
  - exists tr1, w1, tr2, w2. split; [reflexivity|]. split; [exact Er|].
    split; [exact Hn | exact D].
  - exfalso. vm_compute in Es. injection Es as <- <-.
    vm_compute in Er. rewrite Hbad in Er. discriminate Er.
Defined.

(** *** The CDC-ACM backend *)

Lemma cdc_find_interface_delta (env : usb_env)
      (tr tr' : CdcAcm.cdc_acm_transport) (dev : libusb_device)
      (r : Z) (w w' : world) :
  CdcAcm.find_interface env tr dev w = Some ((r, tr'), w') ->
  CdcAcm.handle tr' = CdcAcm.handle tr /\ log_delta w w' 0 0 0 0.
Proof.
  unfold CdcAcm.find_interface, bind, libusb, ret.
  pose proof (cdc_find_interface_loop_handle (interface (config dev)) 0 tr)
    as Hfh.
  destruct (CdcAcm.find_interface_loop 0 (interface (config dev)) tr)
    as [r1 tr1]. cbn [snd] in Hfh.
  split_paths; intros H; injection H as <- <- <-;
    (split; [reflexivity || exact Hfh | solve_delta]).
Qed.

Lemma cdc_open_interface_cases (env : usb_env)
      (tr tr' : CdcAcm.cdc_acm_transport) (dev : libusb_device)
      (r : Z) (w w' : world) :
  CdcAcm.handle tr = 0 ->
  CdcAcm.open_interface env tr dev w = Some ((r, tr'), w') ->
  (r = 0 /\ CdcAcm.handle tr' <> 0 /\ log_delta w w' 1 0 1 0) \/
  (r = -1 /\ exists o : nat, log_delta w w' o o 0 0).
Proof.
  intros Hh.
  unfold CdcAcm.open_interface, bind, libusb_open, libusb, ret.
  rewrite Hh. cbn [CdcAcm.handle CdcAcm.set_handle CdcAcm.int_number].
  destruct (answer env (length w) (c_open dev) =? 0) eqn:E0.
  2:{ cbn [Z.eqb]. intros H. injection H as <- <- <-.
      right. split; [reflexivity|]. exists 0%nat. solve_delta. }
  rewrite handle_of_open_nonzero.
  split_paths; intros H; injection H as <- <- <-;
    cbn [CdcAcm.handle CdcAcm.set_handle];
    first
      [ left; split; [reflexivity|];
        split; [unfold handle_of_open; lia | solve_delta]
      | right; split; [reflexivity|]; exists 1%nat; solve_delta ].
Qed.

Lemma quiet_cdc_configure_port (env : usb_env)
      (tr : CdcAcm.cdc_acm_transport) (baud_rate : Z) :
  quiet (CdcAcm.configure_port env tr baud_rate).
Proof. unfold CdcAcm.configure_port. repeat quiet_step. Qed.

Lemma quiet_cdc_flush (env : usb_env) (fuel : nat)
      (tr : CdcAcm.cdc_acm_transport) :
  quiet (CdcAcm.usbtr_flush env fuel tr).
Proof.
  unfold CdcAcm.usbtr_flush.
  apply quiet_bind; [|intros; apply quiet_ret].
  intros w w' a H. rewrite cdc_flush_loop_shape in H.
  exact (quiet_drain env _ _ fuel w w' a H).
Qed.

Lemma cdc_destroy_delta (env : usb_env) (tr : CdcAcm.cdc_acm_transport)
      (w : world) :
  exists w', CdcAcm.usbtr_destroy env tr w = Some (tt, w') /\
             log_delta w w' 0 1 0 1.
Proof.
  unfold CdcAcm.usbtr_destroy, bind, libusb, ret.
  eexists. split; [reflexivity|]. solve_delta.
Qed.

(** X18.  Handles and claims over the life of a CDC-ACM transport.  A
    [cdc_acm_open] that returns NULL has closed every handle it opened
    and released every interface it claimed; one that returns an
    instance has left exactly one handle open and one interface
    claimed, and [usbtr_destroy] releases the one and closes the
    other. *)
Theorem cdc_acm_lifecycle_balanced (env : usb_env) (fuel : nat)
        (devpath requested_serial : option string)
        (baud_rate vendor product : Z)
        (res : option CdcAcm.cdc_acm_transport) (w w1 : world) :
  CdcAcm.cdc_acm_open env fuel devpath requested_serial
                      baud_rate vendor product w
  = Some (res, w1) ->
  match res with
  | None => exists o k : nat, log_delta w w1 o o k k
  | Some tr =>
      exists o : nat,
        log_delta w w1 (S o) o 1 0 /\
        exists w2, CdcAcm.usbtr_destroy env tr w1 = Some (tt, w2) /\
                   log_delta w w2 (S o) (S o) 1 1
  end.
Proof.
  unfold CdcAcm.cdc_acm_open. cbv zeta. intros H.
  apply bind_inv in H. destruct H as (dev & w0 & Hloc & H).
  assert (Hl : exists o, log_delta w w0 o o 0 0).
  { destruct devpath as [p|].
    - exists 0%nat. exact (quiet_find_by_loc env _ _ _ _ Hloc).
    - exact (probing_find_by_id env _ _ _ _ _ _ Hloc). }
  destruct Hl as (o0 & D0).
  destruct dev as [dev|];
    [|injection H as <- <-; exists o0, 0%nat; exact D0].
  apply bind_inv in H. destruct H as ([r tr1] & wa & Hfi & H).
  destruct (cdc_find_interface_delta env _ _ _ _ _ _ Hfi) as (Hh1 & D1).
  cbn [CdcAcm.handle] in Hh1.
  destruct (r <? 0);
    [injection H as <- <-; exists o0, 0%nat; join_deltas|].
  apply bind_inv in H. destruct H as ([r2 tr2] & wb & Hop & H).
  destruct (cdc_open_interface_cases env tr1 tr2 dev r2 wa wb Hh1 Hop)
    as [(-> & Hn & D2) | (-> & o2 & D2)].
  2:{ change (-1 <? 0) with true in H. cbv iota in H. injection H as <- <-.
      exists (o0 + o2)%nat, 0%nat. join_deltas. }
  change (0 <? 0) with false in H. cbv iota in H.
  apply bind_inv in H. destruct H as (r3 & wc & Hcfg & H).
  pose proof (quiet_cdc_configure_port env tr2 baud_rate _ _ _ Hcfg) as D3.
  destruct (r3 <? 0).
  - apply bind_inv in H. destruct H as (u & wd & Hd & H).
    injection H as <- <-.
    destruct (cdc_destroy_delta env tr2 wc) as (wd' & Hd' & D4).
    destruct u. rewrite Hd in Hd'. injection Hd' as <-.
    exists (S o0), 1%nat. join_deltas.
  - apply bind_inv in H. destruct H as ([rf tr3] & wd & Hfl & H).
    injection H as <- <-.
    pose proof (quiet_cdc_flush env fuel tr2 _ _ _ Hfl) as D4.
    destruct (cdc_destroy_delta env tr3 wd) as (w2 & Hd & D5).
    exists o0. split; [join_deltas|].
    exists w2. split; [exact Hd | join_deltas].
Qed.

Lemma cdc_acm_lifecycle_balanced_witness :
  exists w1,
    CdcAcm.cdc_acm_open (stalling_env [bridge_device 1105 62514 10]) 1
                        (Some "001:002"%string) None 9600 1105 62514 []
    = Some (None, w1) /\
    n_opened w1 = n_closed w1 /\ n_claimed w1 = n_released w1.
Proof.
  destruct (CdcAcm.cdc_acm_open (stalling_env [bridge_device 1105 62514 10]) 1
                                (Some "001:002"%string) None
                                9600 1105 62514 [])
    as [[[tr|] w1]|] eqn:E;
    [vm_compute in E; discriminate E| |vm_compute in E; discriminate E].
  destruct (cdc_acm_lifecycle_balanced _ _ _ _ _ _ _ None [] w1 E)
    as (o & k & D).
  exists w1. split; [reflexivity|].
  unfold log_delta in D. destruct D as (Ho & Hc & Hk & Hr).
  change (n_opened []) with 0%nat in Ho. change (n_closed []) with 0%nat in Hc.
  change (n_claimed []) with 0%nat in Hk.
  change (n_released []) with 0%nat in Hr.
  split; [rewrite Ho, Hc | rewrite Hk, Hr]; reflexivity.
Defined.

(** *** The FTDI backend *)

Lemma quiet_configure_ftdi (env : usb_env) (h : usb_handle) (baud_rate : Z) :
  quiet (Ftdi.configure_ftdi env h baud_rate).
Proof.
  unfold Ftdi.configure_ftdi, Ftdi.or_else, Ftdi.cfg_fails, Ftdi.do_cfg.
  repeat quiet_step.
Qed.

Lemma ftdi_open_device_cases (env : usb_env)
      (tr tr' : Ftdi.ftdi_transport) (dev : libusb_device)
      (baud_rate r : Z) (w w' : world) :
  Ftdi.handle tr = 0 ->
  Ftdi.open_device env tr dev baud_rate w = Some ((r, tr'), w') ->
  (r = 0 /\ log_delta w w' 1 0 1 0) \/
  (r = -1 /\ exists o k : nat, log_delta w w' o o k 0).
Proof.
  intros Hh.
  unfold Ftdi.open_device, bind, libusb_open, libusb, ret.
  rewrite Hh. cbn [Ftdi.handle].
  destruct (answer env (length w) (c_get_device_descriptor dev) =? 0) eqn:E1;
    cbn [negb].
  2:{ intros H. injection H as <- <- <-. right. split; [reflexivity|].
      exists 0%nat, 0%nat. solve_delta. }
  match goal with
  | |- context [if ?c =? 0 then handle_of_open _ else 0] =>
      destruct (c =? 0) eqn:E2
  end.
  2:{ cbn [Z.eqb]. intros H. injection H as <- <- <-.
      right. split; [reflexivity|]. exists 0%nat, 0%nat. solve_delta. }
  rewrite handle_of_open_nonzero.
  split_paths;
    try (match goal with
         | |- context [Ftdi.configure_ftdi ?e ?h ?b ?w5] =>
             destruct (Ftdi.configure_ftdi e h b w5) as [[r5 w6]|] eqn:Ecfg;
             [|intros; discriminate];
             pose proof (quiet_configure_ftdi _ _ _ _ _ _ Ecfg) as Dq;
             assert (D5 : log_delta w w5 1 0 1 0) by solve_delta;
             destruct (r5 <? 0)
         end; cbv beta iota zeta);
    intros H; injection H as <- <- <-;
    first
      [ left; split; [reflexivity | solve_delta]
      | right; split; [reflexivity|];
        first [ exists 1%nat, 0%nat; solve_delta
              | exists 1%nat, 1%nat; solve_delta ] ].
Qed.

Lemma ftdi_destroy_delta (env : usb_env) (tr : Ftdi.ftdi_transport)
      (w : world) :
  exists w', Ftdi.tr_destroy env tr w = Some (tt, w') /\
             log_delta w w' 0 1 0 0.
Proof.
  unfold Ftdi.tr_destroy, bind, libusb, ret.
  eexists. split; [reflexivity|]. solve_delta.
Qed.

(** With [baud_rate = 0] and the first four requests answered 0,
    [configure_ftdi] reaches the division and has no result. *)
Lemma ftdi_configure_no_result_at_zero_baud (env : usb_env)
      (h : usb_handle) (w : world) :
  (forall n c, answer env n c = 0) ->
  Ftdi.configure_ftdi env h 0 w = None.
Proof.
  intros H0.
  unfold Ftdi.configure_ftdi, Ftdi.or_else, Ftdi.cfg_fails, Ftdi.do_cfg,
    bind, libusb, ret, stuck.
  repeat (rewrite H0; change (negb (0 =? 0)) with false; cbv beta iota;
          change (0 <? 0) with false; cbv beta iota).
  reflexivity.
Qed.

(** X19.  Handles and claims over the life of an FTDI transport, for
    an [ftdi_open] that returns (with [baud_rate = 0] it does not once
    the division by the baud rate is reached).  Every handle
    [ftdi_open] opens is closed again, by [ftdi_open] itself when it
    returns NULL and by [tr_destroy] otherwise; but no interface is
    ever released: an instance that was opened and destroyed leaves its
    interface claimed. *)
Theorem ftdi_lifecycle_never_releases (env : usb_env)
        (devpath requested_serial : option string)
        (vendor product baud_rate : Z)
        (res : option Ftdi.ftdi_transport) (w w1 : world) :
  Ftdi.ftdi_open env devpath requested_serial vendor product baud_rate w
  = Some (res, w1) ->
  match res with
  | None => exists o k : nat, log_delta w w1 o o k 0
  | Some tr =>
      exists o : nat,
        log_delta w w1 (S o) o 1 0 /\
        exists w2, Ftdi.tr_destroy env tr w1 = Some (tt, w2) /\
                   log_delta w w2 (S o) (S o) 1 0
  end.
Proof.
  unfold Ftdi.ftdi_open. cbv zeta. intros H.
  apply bind_inv in H. destruct H as (dev & w0 & Hloc & H).
  assert (Hl : exists o, log_delta w w0 o o 0 0).
  { destruct devpath as [p|].
    - exists 0%nat. exact (quiet_find_by_loc env _ _ _ _ Hloc).
    - exact (probing_find_by_id env _ _ _ _ _ _ Hloc). }
  destruct Hl as (o0 & D0).
  destruct dev as [dev|];
    [|injection H as <- <-; exists o0, 0%nat; exact D0].
  apply bind_inv in H. destruct H as ([r tr1] & wa & Hop & H).
  destruct (ftdi_open_device_cases env (Ftdi.mk_tr 0) tr1 dev baud_rate r
                                   w0 wa eq_refl Hop)
    as [(-> & D1) | (-> & o1 & k1 & D1)].
  - change (0 <? 0) with false in H. cbv iota in H. injection H as <- <-.
    destruct (ftdi_destroy_delta env tr1 wa) as (w2 & Hd & D2).
    exists o0. split; [join_deltas|].
    exists w2. split; [exact Hd | join_deltas].
  - change (-1 <? 0) with true in H. cbv iota in H. injection H as <- <-.
    exists (o0 + o1)%nat, k1. join_deltas.
Qed.

Lemma ftdi_lifecycle_never_releases_witness :
  exists tr w1 w2,
    Ftdi.ftdi_open (plugged_env [bridge_device 1027 24577 255])
                   (Some "001:002"%string) None 1027 24577 9600 []
    = Some (Some tr, w1) /\
    Ftdi.tr_destroy (plugged_env [bridge_device 1027 24577 255]) tr w1
    = Some (tt, w2) /\
    n_opened w2 = n_closed w2 /\ n_claimed w2 = 1%nat /\
    n_released w2 = 0%nat.
Proof.
  destruct (Ftdi.ftdi_open (plugged_env [bridge_device 1027 24577 255])
                           (Some "001:002"%string) None 1027 24577 9600 [])
    as [[[tr|] w1]|] eqn:E;
    [|vm_compute in E; discriminate E|vm_compute in E; discriminate E].
  destruct (ftdi_lifecycle_never_releases _ _ _ _ _ _ (Some tr) [] w1 E)
    as (o & _ & w2 & Hd & D).
  exists tr, w1, w2. split; [reflexivity|]. split; [exact Hd|].
  unfold log_delta in D. destruct D as (Ho & Hc & Hk & Hr).
  change (n_opened []) with 0%nat in Ho. change (n_closed []) with 0%nat in Hc.
  change (n_claimed []) with 0%nat in Hk.
  change (n_released []) with 0%nat in Hr.
  split; [rewrite Ho, Hc; reflexivity|]. split; [exact Hk | exact Hr].
Defined.

(** *** The TI3410 backend *)

Lemma quiet_ti3410_setup_port (env : usb_env) (tr : Ti3410.ti3410_transport) :
  quiet (Ti3410.setup_port env tr).
Proof.
  unfold Ti3410.setup_port, Ti3410.do_open_start, Ti3410.set_termios,
    Ti3410.set_mcr, Ti3410.interrupt_flush, Ti3410.vendor_request.
  repeat quiet_step.
Qed.

Lemma quiet_ti3410_teardown_port (env : usb_env)
      (tr : Ti3410.ti3410_transport) :
  quiet (Ti3410.teardown_port env tr).
Proof.
  unfold Ti3410.teardown_port, Ti3410.vendor_request. repeat quiet_step.
Qed.

Lemma ti3410_open_device_cases (env : usb_env)
      (tr tr' : Ti3410.ti3410_transport) (dev : libusb_device)
      (r : Z) (w w' : world) :
  Ti3410.handle tr = 0 ->
  Ti3410.open_device env tr dev w = Some ((r, tr'), w') ->
  (r = 0 /\ log_delta w w' 1 0 1 0) \/
  (r = -1 /\ exists o : nat, log_delta w w' o o 0 0).
Proof.
  intros Hh.
  unfold Ti3410.open_device, bind, libusb_open, libusb, ret.
  rewrite Hh. cbn [Ti3410.handle].
  destruct (answer env (length w) (c_get_device_descriptor dev) =? 0) eqn:E1;
    cbn [negb].
  2:{ intros H. injection H as <- <- <-. right. split; [reflexivity|].
      exists 0%nat. solve_delta. }
  match goal with
  | |- context [negb (?c =? 0)] => destruct (c =? 0) eqn:E2
  end; cbn [negb].
  2:{ intros H. injection H as <- <- <-. right. split; [reflexivity|].
      exists 0%nat. solve_delta. }
  match goal with
  | |- context [if ?c =? 0 then handle_of_open _ else 0] =>
      destruct (c =? 0) eqn:E3
  end.
  2:{ cbn [Z.eqb]. intros H. injection H as <- <- <-.
      right. split; [reflexivity|]. exists 0%nat. solve_delta. }
  rewrite handle_of_open_nonzero.
  split_paths; intros H; injection H as <- <- <-;
    first
      [ left; split; [reflexivity | solve_delta]
      | right; split; [reflexivity|]; exists 1%nat; solve_delta ].
Qed.

Lemma ti3410_download_loop_cases (env : usb_env) (h : usb_handle)
      (f : Ti3410Fw.firmware) :
  forall (fuel : nat) (offset r : Z) (w w' : world),
    Ti3410.download_loop env fuel h f offset w = Some (r, w') ->
    (r = 0 /\ log_delta w w' 0 0 0 0) \/
    (r = -1 /\ log_delta w w' 0 1 0 0).
Proof.
  induction fuel as [|n IH]; intros offset r w w'; cbn [Ti3410.download_loop];
    destruct (offset <? Ti3410Fw.size f);
    try (intros H; injection H as <- <-; left;
         split; [reflexivity | apply log_delta_refl]);
    [discriminate|].
  cbv zeta. intros H. apply bind_inv in H.
  destruct H as ([rc sent] & w1 & Hout & H).
  pose proof (quiet_bulk_out env _ _ _ _ _ _ _ Hout) as D1.
  destruct (negb (rc =? 0) && negb (rc =? LIBUSB_ERROR_TIMEOUT)).
  - unfold bind, libusb, ret in H. injection H as <- <-.
    right. split; [reflexivity|]. solve_delta.
  - destruct (IH _ _ _ _ H) as [(-> & D2) | (-> & D2)].
    + left. split; [reflexivity | join_deltas].
    + right. split; [reflexivity | join_deltas].
Qed.

Lemma ti3410_do_download_delta (env : usb_env) (fuel : nat)
      (dev : libusb_device) (f : Ti3410Fw.firmware) (r : Z) (w w' : world) :
  Ti3410.do_download env fuel 0 dev f w = Some (r, w') ->
  exists o k : nat, log_delta w w' o o k 0.
Proof.
  unfold Ti3410.do_download, bind, libusb_open, libusb, ret.
  destruct (answer env (length w) (c_get_device_descriptor dev) =? 0) eqn:E1;
    cbn [negb].
  2:{ intros H. injection H as <- <-. exists 0%nat, 0%nat. solve_delta. }
  match goal with
  | |- context [if ?c =? 0 then handle_of_open _ else 0] =>
      destruct (c =? 0) eqn:E2
  end.
  2:{ cbn [Z.eqb]. intros H. injection H as <- <-.
      exists 0%nat, 0%nat. solve_delta. }
  rewrite handle_of_open_nonzero.
  split_paths;
    try (match goal with
         | |- context [Ti3410.download_loop ?e ?n ?h ?g ?z ?w5] =>
             destruct (Ti3410.download_loop e n h g z w5) as [[r5 w6]|]
                      eqn:Eloop;
             [|intros; discriminate];
             assert (D5 : log_delta w w5 1 0 1 0) by solve_delta;
             destruct (ti3410_download_loop_cases _ _ _ _ _ _ _ _ Eloop)
               as [(-> & Dq) | (-> & Dq)]
         end; cbv beta iota zeta);
    try change (0 <? 0) with false; try change (-1 <? 0) with true;
    cbv beta iota;
    intros H; injection H as <- <-;
    first [ exists 1%nat, 0%nat; solve_delta
          | exists 1%nat, 1%nat; solve_delta ].
Qed.

Lemma probing_ti3410_locate (env : usb_env)
      (devpath requested_serial : option string) :
  probing (Ti3410.locate env devpath requested_serial).
Proof.
  unfold Ti3410.locate. destruct devpath as [p|].
  - apply probing_of_quiet, quiet_find_by_loc.
  - apply probing_find_by_id.
Qed.

(** X20.  Handles and claims over the life of a Legacy Bridge
    transport, the uninitialised handle of [do_download] reading as
    NULL.  [ti3410_open] never releases an interface, and when it
    returns NULL it has closed every handle it opened.  When it returns
    an instance, one handle is open and at least one interface
    claimed, and [ti3410_destroy] changes neither: it closes no handle
    and releases no interface. *)
Theorem ti3410_lifecycle_leaves_handle_open (env : usb_env) (fuel : nat)
        (uninit : usb_handle) (file : option (list Ti3410Fw.binfile_chunk))
        (devpath requested_serial : option string)
        (res : option Ti3410.ti3410_transport) (w w1 : world) :
  uninit = 0 ->
  Ti3410.ti3410_open env fuel uninit file devpath requested_serial w
  = Some (res, w1) ->
  match res with
  | None => exists o k : nat, log_delta w w1 o o k 0
  | Some tr =>
      exists o k : nat,
        log_delta w w1 (S o) o (S k) 0 /\
        exists w2, Ti3410.ti3410_destroy env tr w1 = Some (tt, w2) /\
                   log_delta w w2 (S o) o (S k) 0
  end.
Proof.
  intros ->. unfold Ti3410.ti3410_open. cbv zeta. intros H.
  apply bind_inv in H. destruct H as (dev & w0 & Hloc & H).
  destruct (probing_ti3410_locate env _ _ _ _ _ Hloc) as (o0 & D0).
  destruct dev as [dev|];
    [|injection H as <- <-; exists o0, 0%nat; exact D0].
  apply bind_inv in H. destruct H as (rc & wa & Hdesc & H).
  assert (Da : log_delta w0 wa 0 0 0 0).
  { refine (quiet_libusb env _ _ _ _ _ _ _ _ Hdesc); intros; discriminate. }
  destruct (negb (rc =? 0));
    [injection H as <- <-; exists o0, 0%nat; join_deltas|].
  apply bind_inv in H. destruct H as (rel & wb & Hrel & H).
  assert (Db : exists o k, log_delta wa wb o o k 0).
  { destruct (bNumConfigurations dev =? 1).
    - apply bind_inv in Hrel. destruct Hrel as (r & wc & Hdl & Hrel).
      assert (Dc : exists o k, log_delta wa wc o o k 0).
      { unfold Ti3410.download_firmware in Hdl.
        destruct file as [chunks|];
          [|injection Hdl as _ <-; exists 0%nat, 0%nat; apply log_delta_refl].
        destruct (Ti3410Fw.load_firmware chunks) as [[] frm];
          try (injection Hdl as _ <-; exists 0%nat, 0%nat;
               apply log_delta_refl).
        apply bind_inv in Hdl. destruct Hdl as (r' & wd & Hdd & Hdl).
        destruct (ti3410_do_download_delta env _ _ _ _ _ _ Hdd)
          as (o & k & Dd).
        destruct (r' <? 0); injection Hdl as _ <-; exists o, k; exact Dd. }
      destruct Dc as (o1 & k1 & Dc).
      destruct (r <? 0); [injection Hrel as _ <-; exists o1, k1; exact Dc|].
      apply bind_inv in Hrel. destruct Hrel as (dev' & we & Hloc' & Hrel).
      injection Hrel as _ <-.
      destruct (probing_ti3410_locate env _ _ _ _ _ Hloc') as (o2 & D2).
      exists (o1 + o2)%nat, k1. join_deltas.
    - injection Hrel as _ <-. exists 0%nat, 0%nat. apply log_delta_refl. }
  destruct Db as (o1 & k1 & Db).
  destruct rel as [[|] [dev2|]];
    try (injection H as <- <-; exists (o0 + o1)%nat, k1; join_deltas).
  apply bind_inv in H. destruct H as ([r tr1] & wc & Hop & H).
  destruct (ti3410_open_device_cases env (Ti3410.mk_tr 0) tr1 dev2 r wb wc
                                     eq_refl Hop)
    as [(-> & D1) | (-> & o2 & D1)].
  2:{ change (-1 <? 0) with true in H. cbv iota in H. injection H as <- <-.
      exists (o0 + o1 + o2)%nat, k1. join_deltas. }
  change (0 <? 0) with false in H. cbv iota in H.
  apply bind_inv in H. destruct H as (r3 & wd & Hsp & H).
  pose proof (quiet_ti3410_setup_port env tr1 _ _ _ Hsp) as D3.
  destruct (r3 <? 0).
  - apply bind_inv in H. destruct H as (u & we & Htd & H).
    pose proof (quiet_ti3410_teardown_port env tr1 _ _ _ Htd) as D4.
    unfold bind, libusb, ret in H. injection H as <- <-.
    exists (S (o0 + o1))%nat, (S k1). solve_delta.
  - injection H as <- <-.
    destruct (Ti3410.ti3410_destroy env tr1 wd) as [[[] w2]|] eqn:Ed;
      [|unfold Ti3410.ti3410_destroy, Ti3410.teardown_port,
          Ti3410.vendor_request, bind, libusb in Ed; discriminate Ed].
    pose proof (quiet_ti3410_teardown_port env tr1 _ _ _ Ed) as D4.
    exists (o0 + o1)%nat, k1. split; [join_deltas|].
    exists w2. split; [reflexivity | join_deltas].
Qed.

Lemma ti3410_lifecycle_leaves_handle_open_witness :
  exists tr w1 w2,
    Ti3410.ti3410_open (plugged_env [bridge_device 1105 62512 255]) 1 0 None
                       (Some "001:002"%string) None []
    = Some (Some tr, w1) /\
    Ti3410.ti3410_destroy (plugged_env [bridge_device 1105 62512 255]) tr w1
    = Some (tt, w2) /\
    n_opened w2 = S (n_closed w2) /\ n_released w2 = 0%nat.
Proof.
  destruct (Ti3410.ti3410_open (plugged_env [bridge_device 1105 62512 255])
                               1 0 None (Some "001:002"%string) None [])
    as [[[tr|] w1]|] eqn:E;
    [|vm_compute in E; discriminate E|vm_compute in E; discriminate E].
  destruct (ti3410_lifecycle_leaves_handle_open
              _ _ 0 _ _ _ (Some tr) [] w1 eq_refl E)
    as (o & k & _ & w2 & Hd & D).
  exists tr, w1, w2. split; [reflexivity|]. split; [exact Hd|].
  unfold log_delta in D. destruct D as (Ho & Hc & Hk & Hr).
  change (n_opened []) with 0%nat in Ho. change (n_closed []) with 0%nat in Hc.
  change (n_released []) with 0%nat in Hr.
  split; [rewrite Ho, Hc; reflexivity | exact Hr].
Defined.

(** *** The CP210x backend *)

Lemma quiet_cp210x_configure_port (env : usb_env)
      (tr : Cp210x.cp210x_transport) (baud_rate : Z) :
  quiet (Cp210x.configure_port env tr baud_rate).
Proof.
  unfold Cp210x.configure_port, Cp210x.control. repeat quiet_step.
Qed.

Lemma cp210x_open_interface_cases (env : usb_env)
      (tr tr' : Cp210x.cp210x_transport) (dev : libusb_device)
      (ino baud_rate r : Z) (w w' : world) :
  Cp210x.handle tr = 0 ->
  Cp210x.open_interface env tr dev ino baud_rate w = Some ((r, tr'), w') ->
  (r = 0 /\ Cp210x.int_number tr' = ino /\ log_delta w w' 1 0 1 0) \/
  (r = -1 /\ exists o k : nat, log_delta w w' o o k 0).
Proof.
  intros Hh.
  unfold Cp210x.open_interface, bind, libusb_open, libusb, ret.
  rewrite Hh. cbn [Cp210x.handle Cp210x.int_number].
  destruct (answer env (length w) (c_get_device_descriptor dev) =? 0) eqn:E1;
    cbn [negb].
  2:{ intros H. injection H as <- <- <-. right. split; [reflexivity|].
      exists 0%nat, 0%nat. solve_delta. }
  match goal with
  | |- context [if ?c =? 0 then handle_of_open _ else 0] =>
      destruct (c =? 0) eqn:E2
  end.
  2:{ cbn [Z.eqb]. intros H. injection H as <- <- <-.
      right. split; [reflexivity|]. exists 0%nat, 0%nat. solve_delta. }
  rewrite handle_of_open_nonzero.
  split_paths;
    try (match goal with
         | |- context [Cp210x.configure_port ?e ?t ?b ?w5] =>
             destruct (Cp210x.configure_port e t b w5) as [[r5 w6]|] eqn:Ecfg;
             [|intros; discriminate];
             pose proof (quiet_cp210x_configure_port _ _ _ _ _ _ Ecfg) as Dq;
             assert (D5 : log_delta w w5 1 0 1 0) by solve_delta;
             destruct (r5 <? 0)
         end; cbv beta iota zeta);
    intros H; injection H as <- <- <-;
    first
      [ left; split; [reflexivity|]; split; [reflexivity | solve_delta]
      | right; split; [reflexivity|];
        first [ exists 1%nat, 0%nat; solve_delta
              | exists 1%nat, 1%nat; solve_delta ] ].
Qed.

Lemma cp210x_destroy_delta (env : usb_env) (tr : Cp210x.cp210x_transport)
      (w : world) :
  exists w', Cp210x.usbtr_destroy env tr w = Some (tt, w') /\
             log_delta w w' 0 1 0 1.
Proof.
  unfold Cp210x.usbtr_destroy, bind, libusb, ret.
  eexists. split; [reflexivity|]. solve_delta.
Qed.

(** With [baud_rate = 0] and the first request not answered by an
    error, [configure_port] reaches the division and has no result. *)
Lemma cp210x_configure_no_result_at_zero_baud (env : usb_env)
      (tr : Cp210x.cp210x_transport) (w : world) :
  (forall n c, 0 <= answer env n c) ->
  Cp210x.configure_port env tr 0 w = None.
Proof.
  intros Hpos.
  unfold Cp210x.configure_port, Cp210x.control, bind, libusb, ret, stuck.
  match goal with
  | |- context [answer env ?n ?c <? 0] =>
      destruct (Z.ltb_spec (answer env n c) 0) as [E|E];
      [specialize (Hpos n c); lia|]
  end.
  reflexivity.
Qed.

(** X21.  Handles and claims over the life of a CP210x interface, for
    an [open_interface] that returns (with [baud_rate = 0] it does not
    once the interface is claimed and the first request has passed:
    the division by the baud rate has no result).
    [open_interface] on an instance without a handle either succeeds,
    with one handle open and interface [ino] claimed, which
    [usbtr_destroy] then releases and closes; or it fails with every
    handle it opened closed, and releases nothing. *)
Theorem cp210x_interface_lifecycle (env : usb_env)
        (tr tr' : Cp210x.cp210x_transport) (dev : libusb_device)
        (ino baud_rate r : Z) (w w1 : world) :
  Cp210x.handle tr = 0 ->
  Cp210x.open_interface env tr dev ino baud_rate w = Some ((r, tr'), w1) ->
  (r = 0 /\ Cp210x.int_number tr' = ino /\ log_delta w w1 1 0 1 0 /\
   exists w2, Cp210x.usbtr_destroy env tr' w1 = Some (tt, w2) /\
              log_delta w w2 1 1 1 1) \/
  (r = -1 /\ exists o k : nat, log_delta w w1 o o k 0).
Proof.
  intros Hh H.
  destruct (cp210x_open_interface_cases env tr tr' dev ino baud_rate r w w1
                                        Hh H)
    as [(Hr & Hi & D) | Hfail].
  - left. split; [exact Hr|]. split; [exact Hi|]. split; [exact D|].
    destruct (cp210x_destroy_delta env tr' w1) as (w2 & Hd & D2).
    exists w2. split; [exact Hd | join_deltas].
  - right. exact Hfail.
Qed.

Lemma cp210x_interface_lifecycle_witness :
  exists tr' w1 w2,
    Cp210x.open_interface (plugged_env []) (Cp210x.mk_tr 0 0)
                          (bridge_device 4292 60000 255) 0 9600 []
    = Some ((0, tr'), w1) /\
    Cp210x.usbtr_destroy (plugged_env []) tr' w1 = Some (tt, w2) /\
    log_delta [] w2 1 1 1 1.
Proof.
  destruct (Cp210x.open_interface (plugged_env []) (Cp210x.mk_tr 0 0)
                                  (bridge_device 4292 60000 255) 0 9600 [])
    as [[[r tr'] w1]|] eqn:E; [|vm_compute in E; discriminate E].
  assert (Hr : r = 0) by (vm_compute in E; congruence).
  subst r.
  destruct (cp210x_interface_lifecycle
              (plugged_env []) (Cp210x.mk_tr 0 0) tr'
              (bridge_device 4292 60000 255) 0 9600 0 [] w1 eq_refl E)
    as [(_ & _ & _ & w2 & Hd & D) | (Hbad & _)]; [|discriminate Hbad].
  exists tr', w1, w2. split; [reflexivity|]. split; [exact Hd | exact D].
Defined.

Lemma cp210x_open_interface_result (env : usb_env)
      (tr tr' : Cp210x.cp210x_transport) (dev : libusb_device)
      (ino baud_rate r : Z) (w w' : world) :
  Cp210x.open_interface env tr dev ino baud_rate w = Some ((r, tr'), w') ->
  (r = 0 /\ Cp210x.int_number tr' = ino) \/ r = -1.
Proof.
  unfold Cp210x.open_interface, bind, libusb_open, libusb, ret.
  cbn [Cp210x.handle Cp210x.int_number].
  split_paths;
    try (match goal with
         | |- context [Cp210x.configure_port ?e ?t ?b ?w5] =>
             destruct (Cp210x.configure_port e t b w5) as [[r5 w6]|];
             [|intros; discriminate]; destruct (r5 <? 0)
         end; cbv beta iota zeta);
    intros H; injection H as <- <- <-;
    first [ left; split; reflexivity | right; reflexivity ].
Qed.

Lemma cp210x_open_device_loop_spec (env : usb_env) (dev : libusb_device)
      (baud_rate : Z) (intfs : list interface_descriptor) :
  forall (tr tr' : Cp210x.cp210x_transport) (r : Z) (w w' : world),
    Cp210x.open_device_loop env tr dev intfs baud_rate w
    = Some ((r, tr'), w') ->
    (r = 0 /\
     exists desc, In desc intfs /\
                  bInterfaceClass desc = Cp210x.V1_INTERFACE_CLASS /\
                  Cp210x.int_number tr' = bInterfaceNumber desc) \/
    (r = -1 /\
     ((forall d, In d intfs ->
                 bInterfaceClass d <> Cp210x.V1_INTERFACE_CLASS) ->
      tr' = tr /\ w' = w)).
Proof.
  induction intfs as [|d rest IH]; intros tr tr' r w w' H.
  - injection H as <- <- <-. right. split; [reflexivity|].
    intros _. split; reflexivity.
  - cbn [Cp210x.open_device_loop] in H.
    assert (Hrest : forall t w0,
      Cp210x.open_device_loop env t dev rest baud_rate w0
      = Some ((r, tr'), w') ->
      (r = 0 /\
       exists desc, In desc (d :: rest) /\
                    bInterfaceClass desc = Cp210x.V1_INTERFACE_CLASS /\
                    Cp210x.int_number tr' = bInterfaceNumber desc) \/
      (r = -1 /\
       ((forall d0, In d0 rest ->
                    bInterfaceClass d0 <> Cp210x.V1_INTERFACE_CLASS) ->
        tr' = t /\ w' = w0))).
    { intros t w0 Ht. destruct (IH _ _ _ _ _ Ht)
        as [(Hr & desc & Hin & Hc & Hi) | (Hr & Hnone)].
      - left. split; [exact Hr|]. exists desc.
        split; [right; exact Hin|]. split; [exact Hc | exact Hi].
      - right. split; [exact Hr | exact Hnone]. }
    destruct (Z.eqb_spec (bInterfaceClass d) Cp210x.V1_INTERFACE_CLASS)
      as [Ec|Ec].
    + apply bind_inv in H. destruct H as ([r1 tr1] & w1 & Hop & H).
      destruct (cp210x_open_interface_result _ _ _ _ _ _ _ _ _ Hop)
        as [(-> & Hi) | ->].
      * change (0 =? 0) with true in H. cbv iota in H.
        injection H as <- <- <-. left. split; [reflexivity|].
        exists d. split; [left; reflexivity|]. split; [exact Ec | exact Hi].
      * change (-1 =? 0) with false in H. cbv iota in H.
        destruct (Hrest _ _ H) as [Hok | (Hr & _)]; [left; exact Hok|].
        right. split; [exact Hr|]. intros Hno. exfalso.
        exact (Hno d (or_introl eq_refl) Ec).
    + destruct (Hrest _ _ H) as [Hok | (Hr & Hnone)]; [left; exact Hok|].
      right. split; [exact Hr|]. intros Hno. apply Hnone.
      intros d0 Hin. apply Hno. right. exact Hin.
Qed.

(** X22.  The CP210x [open_device], when it returns (with
    [baud_rate = 0] it does not once an interface is being configured),
    has tried the interfaces of class 0xff in descriptor order and
    stopped at the first that opened: when it returns 0 the instance
    records the number of an interface of that class.  On a device
    without such an interface it returns -1 having only read the
    configuration: nothing is opened and the instance is unchanged. *)
Theorem cp210x_open_device_selects_vendor_interface (env : usb_env)
        (tr tr' : Cp210x.cp210x_transport) (dev : libusb_device)
        (baud_rate r : Z) (w w' : world) :
  Cp210x.open_device env tr dev baud_rate w = Some ((r, tr'), w') ->
  (r = 0 /\
   exists desc, In desc (interface (config dev)) /\
                bInterfaceClass desc = 255 /\
                Cp210x.int_number tr' = bInterfaceNumber desc) \/
  (r = -1 /\
   ((forall d, In d (interface (config dev)) -> bInterfaceClass d <> 255) ->
    tr' = tr /\
    exists rc, w' = w ++ [Ev (c_get_config_descriptor dev) rc])).
Proof.
  unfold Cp210x.open_device. intros H.
  apply bind_inv in H. destruct H as (rc & w1 & Hcfg & H).
  unfold libusb in Hcfg. injection Hcfg as <- <-.
  destruct (negb (answer env (length w) (c_get_config_descriptor dev) =? 0)).
  - injection H as <- <- <-. right. split; [reflexivity|].
    intros _. split; [reflexivity|]. eexists. reflexivity.
  - destruct (cp210x_open_device_loop_spec _ _ _ _ _ _ _ _ _ H)
      as [Hok | (Hr & Hnone)]; [left; exact Hok|].
    right. split; [exact Hr|]. intros Hno.
    destruct (Hnone Hno) as [-> ->]. split; [reflexivity|].
    eexists. reflexivity.
Qed.

Lemma cp210x_open_device_selects_vendor_interface_witness :
  exists tr' w',
    Cp210x.open_device (plugged_env []) (Cp210x.mk_tr 0 0)
                       (bridge_device 4292 60000 255) 9600 []
    = Some ((0, tr'), w') /\
    Cp210x.int_number tr' = 0.
Proof.
  destruct (Cp210x.open_device (plugged_env []) (Cp210x.mk_tr 0 0)
                               (bridge_device 4292 60000 255) 9600 [])
    as [[[r tr'] w']|] eqn:E; [|vm_compute in E; discriminate E].
  assert (Hr : r = 0) by (vm_compute in E; congruence).
  subst r. exists tr', w'. split; [reflexivity|].
  destruct (cp210x_open_device_selects_vendor_interface
              (plugged_env []) (Cp210x.mk_tr 0 0) tr'
              (bridge_device 4292 60000 255) 9600 0 [] w' E)
    as [(_ & desc & Hin & _ & Hi) | (Hbad & _)]; [|discriminate Hbad].
  destruct Hin as [<- | []]. exact Hi.
Defined.

End ResourceFacts.


(* ================================================================= *)
(** ** Firmware: what is loaded and what is downloaded *)

Section FirmwareDownloadFacts.
Import Libusb Usbutil Ti3410Fw Scenarios.

Lemma do_extract_ok_only_if (f f' : firmware) (ch : binfile_chunk) :
  0 <= size f <= TI_FIRMWARE_BUF_SIZE ->
  len ch < 4294967296 - TI_FIRMWARE_BUF_SIZE ->
  do_extract f ch = (extract_ok, f') ->
  addr ch = size f /\ size f + len ch <= TI_FIRMWARE_BUF_SIZE.
Proof.
  intros Hs Hl. unfold do_extract.
  destruct (size f =? addr ch) eqn:Ea; cbn [negb]; [|discriminate].
  apply Z.eqb_eq in Ea.
  assert (Hl0 : 0 <= len ch) by (unfold len; lia).
  assert (Hw : uint32 (size f + len ch) = size f + len ch).
  { unfold uint32. apply Z.mod_small. unfold TI_FIRMWARE_BUF_SIZE in *. lia. }
  rewrite Hw.
  destruct (size f + len ch >? TI_FIRMWARE_BUF_SIZE) eqn:E; [discriminate|].
  intros _. split; [congruence|]. lia.
Qed.

Lemma total_len_cons (c : binfile_chunk) (cs : list binfile_chunk) :
  total_len (c :: cs) = len c + total_len cs.
Proof. unfold total_len, len. simpl. rewrite length_app. lia. Qed.

Lemma ihex_extract_ok_only_if (chunks : list binfile_chunk) :
  forall f f',
    Forall (fun ch => len ch < 4294967296 - TI_FIRMWARE_BUF_SIZE) chunks ->
    0 <= size f <= TI_FIRMWARE_BUF_SIZE ->
    Z.of_nat (length (buf f)) = TI_FIRMWARE_BUF_SIZE ->
    ihex_extract chunks f = (extract_ok, f') ->
    contiguous_from (size f) chunks /\
    size f + total_len chunks <= TI_FIRMWARE_BUF_SIZE.
Proof.
  induction chunks as [|c cs IH]; intros f f' Hall Hs Hb H.
  - split; [exact I|]. unfold total_len. simpl. lia.
  - inversion Hall as [|c' cs' Hc Hcs]; subst.
    cbn [ihex_extract] in H.
    destruct (do_extract f c) as [st g] eqn:Ed.
    destruct st; try discriminate H.
    destruct (do_extract_ok_only_if f g c Hs Hc Ed) as [Ha Hfit].
    destruct (do_extract_accepts f c Ha (proj1 Hs) Hfit Hb)
      as (g' & Hg' & Hsz & Hlen & _).
    rewrite Ed in Hg'. injection Hg' as <-.
    assert (Hl0 : 0 <= len c) by (unfold len; lia).
    destruct (IH g f' Hcs) as [Hcont Htot]; [lia | lia | exact H |].
    rewrite total_len_cons. split.
    + split; [exact Ha|]. rewrite <- Hsz. exact Hcont.
    + lia.
Qed.

Lemma empty_firmware_capacity :
  Z.of_nat (length (buf empty_firmware)) = TI_FIRMWARE_BUF_SIZE.
Proof.
  unfold empty_firmware, buf, memset. rewrite repeat_length.
  unfold TI_FIRMWARE_BUF_SIZE. lia.
Qed.

(** A file that loads fits the buffer, and leaves the buffer its size. *)
Lemma load_firmware_ok_fits (chunks : list binfile_chunk) (f' : firmware) :
  Forall (fun ch => len ch < 4294967296 - TI_FIRMWARE_BUF_SIZE) chunks ->
  load_firmware chunks = (extract_ok, f') ->
  size f' <= TI_FIRMWARE_BUF_SIZE /\
  Z.of_nat (length (buf f')) = TI_FIRMWARE_BUF_SIZE.
Proof.
  intros Hall H. unfold load_firmware in H.
  destruct (ihex_extract_ok_only_if chunks empty_firmware f' Hall)
    as [Hc Hfit];
    [cbn [size empty_firmware]; unfold TI_FIRMWARE_BUF_SIZE; lia
    | exact empty_firmware_capacity | exact H |].
  cbn [size empty_firmware] in Hc, Hfit.
  destruct (ihex_extract_contiguous chunks empty_firmware)
    as (g & Hg & Hsz & Hlen & _);
    [exact Hc | cbn [size empty_firmware]; lia | exact Hfit
     | exact empty_firmware_capacity |].
  rewrite H in Hg. injection Hg as <-.
  cbn [size empty_firmware] in Hsz.
  split; [lia|]. rewrite Hlen. exact empty_firmware_capacity.
Qed.

(** X23.  [load_firmware] accepts a file only if its chunks are
    contiguous and ascending from address 0 and fit the buffer, each
    chunk being short enough for [size + len] not to wrap.  The loaded
    image is then the concatenation of the chunks, its length their
    total length, and the buffer keeps its 16284 bytes. *)
Theorem load_firmware_accepts_only_contiguous
        (chunks : list binfile_chunk) (f' : firmware) :
  Forall (fun ch => len ch < 4294967296 - TI_FIRMWARE_BUF_SIZE) chunks ->
  load_firmware chunks = (extract_ok, f') ->
  contiguous_from 0 chunks /\
  total_len chunks <= TI_FIRMWARE_BUF_SIZE /\
  size f' = total_len chunks /\
  image f' = concat (map data chunks) /\
  Z.of_nat (length (buf f')) = TI_FIRMWARE_BUF_SIZE.
Proof.
  intros Hall H. unfold load_firmware in H.
  assert (Hs0 : size empty_firmware = 0) by reflexivity.
  assert (Hi0 : image empty_firmware = []).
  { unfold image. rewrite Hs0. apply firstn_O. }
  destruct (ihex_extract_ok_only_if chunks empty_firmware f' Hall)
    as [Hc Hfit]; [rewrite Hs0; unfold TI_FIRMWARE_BUF_SIZE; lia
                  | exact empty_firmware_capacity | exact H |].
  rewrite Hs0 in Hc, Hfit.
  destruct (ihex_extract_contiguous chunks empty_firmware)
    as (g & Hg & Hsz & Hlen & Him);
    [rewrite Hs0; exact Hc | rewrite Hs0; lia | rewrite Hs0; exact Hfit
     | exact empty_firmware_capacity |].
  rewrite H in Hg. injection Hg as <-.
  split; [exact Hc|]. split; [lia|]. split; [rewrite Hsz, Hs0; lia|].
  split; [rewrite Him, Hi0; reflexivity|].
  rewrite Hlen. exact empty_firmware_capacity.
Qed.

Lemma load_firmware_accepts_only_contiguous_witness :
  contiguous_from 0 [mk_chunk 0 [1; 2]; mk_chunk 2 [3; 4; 5]] /\
  image (snd (load_firmware [mk_chunk 0 [1; 2]; mk_chunk 2 [3; 4; 5]]))
  = [1; 2; 3; 4; 5].
Proof.
  destruct (load_firmware_accepts_only_contiguous
              [mk_chunk 0 [1; 2]; mk_chunk 2 [3; 4; 5]]
              (snd (load_firmware [mk_chunk 0 [1; 2]; mk_chunk 2 [3; 4; 5]])))
    as (Hc & _ & _ & Hi & _).
  - repeat constructor.
  - vm_compute. reflexivity.
  - split; [exact Hc | exact Hi].
Defined.

Lemma firstn_split_at {A : Type} (a b : nat) (l : list A) :
  firstn (a + b) l = firstn a l ++ firstn b (skipn a l).
Proof.
  revert l. induction a as [|a IH]; intros [|x l]; simpl;
    rewrite ?firstn_nil; try reflexivity.
  f_equal. apply IH.
Qed.

Lemma delivered_from_app (env : usb_env) (evs1 evs2 : list event) :
  forall n : nat,
    delivered_from env n (evs1 ++ evs2)
    = delivered_from env n evs1
      ++ delivered_from env (n + length evs1) evs2.
Proof.
  induction evs1 as [|e evs1 IH]; intros n; simpl.
  - now rewrite Nat.add_0_r.
  - rewrite IH, app_assoc.
    replace (S n + length evs1)%nat with (n + S (length evs1))%nat by lia.
    reflexivity.
Qed.

Lemma bulk_out_sizes_app (evs1 evs2 : list event) :
  bulk_out_sizes (evs1 ++ evs2) = bulk_out_sizes evs1 ++ bulk_out_sizes evs2.
Proof. unfold bulk_out_sizes. apply flat_map_app. Qed.

(** The packet loop: every packet is between 1 and 64 bytes, and when
    the loop returns 0 the device took the image from [offset] on. *)
Lemma download_loop_delivers (env : usb_env) (h : usb_handle) (f : firmware) :
  size f <= Z.of_nat (length (buf f)) ->
  forall (fuel : nat) (offset r : Z) (w w' : world),
    0 <= offset ->
    Ti3410.download_loop env fuel h f offset w = Some (r, w') ->
    exists evs : list event,
      w' = w ++ evs /\
      Forall (fun n => 1 <= n <= 64) (bulk_out_sizes evs) /\
      (r = 0 ->
       delivered_from env (length w) evs
       = firstn (Z.to_nat (size f - offset))
                (skipn (Z.to_nat offset) (buf f))).
Proof.
  intros Hfit.
  assert (Hdone : forall offset r w w',
             (offset <? size f) = false ->
             @ret Z 0 w = Some (r, w') ->
             exists evs : list event,
               w' = w ++ evs /\
               Forall (fun n => 1 <= n <= 64) (bulk_out_sizes evs) /\
               (r = 0 ->
                delivered_from env (length w) evs
                = firstn (Z.to_nat (size f - offset))
                         (skipn (Z.to_nat offset) (buf f)))).
  { intros offset r w w' E H. injection H as <- <-. exists [].
    rewrite app_nil_r. split; [reflexivity|]. split; [constructor|].
    intros _. apply Z.ltb_ge in E.
    replace (Z.to_nat (size f - offset)) with 0%nat by lia. reflexivity. }
  induction fuel as [|n IH]; intros offset r w w' H0 H;
    cbn [Ti3410.download_loop] in H;
    destruct (offset <? size f) eqn:E;
    try (exact (Hdone offset r w w' E H)); [discriminate H|].
  apply Z.ltb_lt in E. cbv zeta in H.
  set (plen := if size f - offset >? Ti3410.TI_DOWNLOAD_MAX_PACKET_SIZE
               then Ti3410.TI_DOWNLOAD_MAX_PACKET_SIZE
               else size f - offset) in H.
  assert (Hplen : 1 <= plen <= 64 /\ plen <= size f - offset).
  { unfold plen, Ti3410.TI_DOWNLOAD_MAX_PACKET_SIZE.
    destruct (size f - offset >? 64) eqn:Eg;
      [apply Z.gtb_lt in Eg | rewrite Z.gtb_ltb in Eg; apply Z.ltb_ge in Eg];
      lia. }
  set (pkt := firstn (Z.to_nat plen) (skipn (Z.to_nat offset) (buf f))) in H.
  assert (Hpkt : length pkt = Z.to_nat plen).
  { unfold pkt. rewrite length_firstn, length_skipn. lia. }
  apply bind_inv in H. destruct H as ([rc sent] & w1 & Hout & H).
  unfold libusb_bulk_out in Hout. injection Hout as Hrc Hsent Hw1.
  set (c := c_bulk_out h Ti3410.USB_FDL_OUT_EP pkt Ti3410.TIMEOUT) in *.
  rewrite Hrc in Hw1.
  assert (Hsz : bulk_out_sizes [Ev c rc] = [plen]).
  { unfold bulk_out_sizes, c. simpl. rewrite Hpkt. f_equal. lia. }
  destruct (negb (rc =? 0) && negb (rc =? LIBUSB_ERROR_TIMEOUT)).
  - unfold bind, libusb, ret in H. injection H as <- <-. subst w1.
    eexists. rewrite <- app_assoc. split; [reflexivity|]. split.
    + rewrite bulk_out_sizes_app, Hsz. unfold bulk_out_sizes. simpl.
      constructor; [lia | constructor].
    + discriminate.
  - assert (Hs : 0 <= sent <= plen).
    { rewrite <- Hsent, Hpkt. lia. }
    apply IH in H; [|lia]. destruct H as (evs & -> & Hall & Hd).
    subst w1. exists (Ev c rc :: evs). rewrite <- app_assoc.
    split; [reflexivity|]. split.
    + change (Ev c rc :: evs) with ([Ev c rc] ++ evs).
      rewrite bulk_out_sizes_app, Hsz. constructor; [lia | exact Hall].
    + intros Hr. specialize (Hd Hr).
      rewrite length_app in Hd. simpl in Hd.
      replace (length w + 1)%nat with (S (length w)) in Hd by lia.
      cbn [delivered_from call_of]. rewrite Hd.
      unfold taken. fold c. unfold c at 1. rewrite Hsent.
      unfold pkt. rewrite firstn_firstn.
      replace (Nat.min (Z.to_nat sent) (Z.to_nat plen))
        with (Z.to_nat sent) by lia.
      replace (Z.to_nat (offset + sent))
        with (Z.to_nat sent + Z.to_nat offset)%nat by lia.
      rewrite <- skipn_skipn.
      replace (Z.to_nat (size f - offset))
        with (Z.to_nat sent + Z.to_nat (size f - (offset + sent)))%nat by lia.
      symmetry. apply firstn_split_at.
Qed.

Lemma store_length (dst : list Z) (i : nat) (v : Z) :
  (i < length dst)%nat -> length (store dst i v) = length dst.
Proof.
  intros H. unfold store.
  rewrite length_app, length_firstn. cbn [length]. rewrite length_skipn. lia.
Qed.

Lemma prepare_firmware_fits (f : firmware) :
  Z.of_nat (length (buf f)) = TI_FIRMWARE_BUF_SIZE ->
  size f <= TI_FIRMWARE_BUF_SIZE ->
  size (prepare_firmware f) <= Z.of_nat (length (buf (prepare_firmware f))).
Proof.
  intros Hb Hs. unfold prepare_firmware. cbn [buf size].
  unfold TI_FIRMWARE_BUF_SIZE in *.
  assert (L0 : forall v, length (store (buf f) 0 v) = length (buf f))
    by (intros; apply store_length; lia).
  assert (L1 : forall v v',
             length (store (store (buf f) 0 v) 1 v') = length (buf f))
    by (intros; rewrite store_length; rewrite L0; lia).
  assert (L2 : forall v v' v'',
             length (store (store (store (buf f) 0 v) 1 v') 2 v'')
             = length (buf f))
    by (intros; rewrite store_length; rewrite L1; lia).
  rewrite L2. lia.
Qed.

(** [do_download] that returns 0: the bytes the device took are the
    image, in packets of 1 to 64 bytes. *)
Lemma do_download_delivers (env : usb_env) (fuel : nat) (uninit : usb_handle)
      (dev : libusb_device) (f : firmware) (w w' : world) :
  size f <= Z.of_nat (length (buf f)) ->
  Ti3410.do_download env fuel uninit dev f w = Some (0, w') ->
  delivered_from env (length w) (skipn (length w) w') = image f /\
  Forall (fun n => 1 <= n <= 64) (bulk_out_sizes (skipn (length w) w')).
Proof.
  intros Hfit.
  unfold Ti3410.do_download, bind, libusb_open, libusb, ret.
  split_paths;
    try (match goal with
         | |- context [Ti3410.download_loop ?e ?n ?h ?g ?z ?w5] =>
             destruct (Ti3410.download_loop e n h g z w5) as [[r5 w6]|]
                      eqn:Eloop;
             [|intros; discriminate];
             destruct (ti3410_download_loop_cases _ _ _ _ _ _ _ _ Eloop)
               as [(-> & _) | (-> & _)];
             destruct (download_loop_delivers e h g Hfit n z _ w5 w6
                                              (Z.le_refl 0) Eloop)
               as (evs & -> & Hall & Hd);
             try specialize (Hd eq_refl)
         end; cbv beta iota zeta);
    try change (0 <? 0) with false; try change (-1 <? 0) with true;
    cbv beta iota;
    intros H; try discriminate H; injection H as <-.
  all: repeat rewrite <- app_assoc; rewrite issued_events.
  all: rewrite !length_app in Hd; cbn [length] in Hd.
  all: cbn [app delivered_from call_of taken bulk_out_sizes flat_map].
  all: rewrite delivered_from_app;
    cbn [app delivered_from call_of taken]; rewrite app_nil_r.
  all: match type of Hd with
       | delivered_from _ ?n _ = _ =>
           match goal with
           | |- delivered_from _ ?m _ = _ /\ _ =>
               replace m with n by lia
           end
       end.
  all: split;
    [rewrite Hd; unfold image; rewrite Z.sub_0_r; reflexivity|].
  all: change (flat_map _ (evs ++ ?tl)) with (bulk_out_sizes (evs ++ tl));
    rewrite bulk_out_sizes_app; unfold bulk_out_sizes at 2;
    cbn [flat_map call_of app]; rewrite app_nil_r; exact Hall.
Qed.

Lemma do_download_result (env : usb_env) (fuel : nat) (uninit : usb_handle)
      (dev : libusb_device) (f : firmware) (r : Z) (w w' : world) :
  Ti3410.do_download env fuel uninit dev f w = Some (r, w') ->
  r = 0 \/ r = -1.
Proof.
  unfold Ti3410.do_download, bind, libusb_open, libusb, ret.
  split_paths;
    try (match goal with
         | |- context [Ti3410.download_loop ?e ?n ?h ?g ?z ?w5] =>
             destruct (Ti3410.download_loop e n h g z w5) as [[r5 w6]|]
                      eqn:Eloop;
             [|intros; discriminate];
             destruct (ti3410_download_loop_cases _ _ _ _ _ _ _ _ Eloop)
               as [(-> & _) | (-> & _)]
         end; cbv beta iota zeta);
    try change (0 <? 0) with false; try change (-1 <? 0) with true;
    cbv beta iota;
    intros H; injection H as <- _; auto.
Qed.

(** X24.  A [download_firmware] that returns 0 has loaded the file and
    delivered the prepared image, header included, and nothing else:
    the bytes the device took, packet after packet, are the image
    [prepare_firmware] made, and every packet carried between 1 and 64
    bytes. *)
Theorem download_firmware_delivers_prepared_image (env : usb_env)
        (fuel : nat) (uninit : usb_handle) (chunks : list binfile_chunk)
        (dev : libusb_device) (w w' : world) :
  Forall (fun ch => len ch < 4294967296 - TI_FIRMWARE_BUF_SIZE) chunks ->
  Ti3410.download_firmware env fuel uninit (Some chunks) dev w
  = Some (0, w') ->
  exists frm : firmware,
    load_firmware chunks = (extract_ok, frm) /\
    delivered_from env (length w) (skipn (length w) w')
    = image (prepare_firmware frm) /\
    Forall (fun n => 1 <= n <= 64) (bulk_out_sizes (skipn (length w) w')).
Proof.
  intros Hall. unfold Ti3410.download_firmware.
  destruct (load_firmware chunks) as [st frm] eqn:El.
  destruct st; try discriminate.
  intros H. apply bind_inv in H. destruct H as (r & w1 & Hdl & H).
  destruct (do_download_result _ _ _ _ _ _ _ _ Hdl) as [-> | ->];
    [|discriminate H].
  change (0 <? 0) with false in H. cbv iota in H. injection H as <-.
  destruct (load_firmware_ok_fits chunks frm Hall El) as (Hfit & Hb).
  exists frm. split; [reflexivity|].
  apply do_download_delivers with (fuel := fuel) (uninit := uninit)
                                  (dev := dev); [|exact Hdl].
  apply prepare_firmware_fits; [exact Hb | lia].
Qed.

Lemma download_firmware_delivers_prepared_image_witness :
  exists w',
    Ti3410.download_firmware (plugged_env []) 1 0
                             (Some [mk_chunk 0 [1; 2; 3; 4; 5]])
                             (bridge_device 1105 62512 255) []
    = Some (0, w') /\
    delivered_from (plugged_env []) 0 w' = [2; 0; 9; 4; 5].
Proof.
  destruct (Ti3410.download_firmware (plugged_env []) 1 0
                                     (Some [mk_chunk 0 [1; 2; 3; 4; 5]])
                                     (bridge_device 1105 62512 255) [])
    as [[r w']|] eqn:E; [|vm_compute in E; discriminate E].
  assert (Hr : r = 0) by (vm_compute in E; congruence).
  subst r. exists w'. split; [reflexivity|].
  destruct (download_firmware_delivers_prepared_image
              (plugged_env []) 1 0 [mk_chunk 0 [1; 2; 3; 4; 5]]
              (bridge_device 1105 62512 255) [] w')
    as (frm & Hl & Hd & _).
  - repeat constructor.
  - exact E.
  - cbn [length skipn] in Hd. rewrite Hd.
    assert (Hf : frm = snd (load_firmware [mk_chunk 0 [1; 2; 3; 4; 5]]))
      by (rewrite Hl; reflexivity).
    rewrite Hf. vm_compute. reflexivity.
Defined.

End FirmwareDownloadFacts.


(* ================================================================= *)
(** ** Which device a lookup by id picks *)

Section LookupChoice.
Import Libusb Usbutil Scenarios.

Lemma last_of_cons_some {A : Type} (x : A) (l : list A) (d : option A) :
  last (map Some (x :: l)) d = last (map Some l) (Some x).
Proof.
  revert x d. induction l as [|y l IH]; intros x d; [reflexivity|].
  change (last (map Some (x :: y :: l)) d)
    with (last (map Some (y :: l)) d).
  rewrite (IH y d), (IH y (Some x)). reflexivity.
Qed.

Lemma find_by_id_loop_last (env : usb_env) (vendor product : Z)
      (devs : list libusb_device) :
  (forall n dev, answer env n (c_get_device_descriptor dev) = 0) ->
  forall (found found' : option libusb_device) (w w' : world),
    find_by_id_loop env vendor product None devs found w
    = Some (found', w') ->
    found' = last (map Some (id_matches vendor product devs)) found /\
    w' = w ++ map (fun d => Ev (c_get_device_descriptor d) 0) devs.
Proof.
  intros Hok. induction devs as [|d devs IH]; intros found found' w w' H.
  - injection H as <- <-. rewrite app_nil_r. split; reflexivity.
  - cbn [find_by_id_loop] in H. unfold bind at 1 in H.
    unfold libusb at 1 in H. rewrite Hok in H.
    change (negb (0 =? 0)) with false in H. cbv iota in H.
    unfold id_matches. cbn [filter map].
    destruct ((idVendor d =? vendor) && (idProduct d =? product)).
    + apply IH in H. destruct H as [-> ->].
      rewrite <- app_assoc. split; [|reflexivity].
      fold (id_matches vendor product devs).
      symmetry. apply last_of_cons_some.
    + apply IH in H. destruct H as [-> ->].
      rewrite <- app_assoc. split; reflexivity.
Qed.

(** X25.  With no serial number requested and every device descriptor
    readable, [usbutil_find_by_id] returns the last device of the
    enumeration that has the wanted vendor and product id, not the
    first, and NULL exactly when there is none; it reads each device's
    descriptor once, in enumeration order, and opens nothing. *)
Theorem usbutil_find_by_id_picks_last_match (env : usb_env)
        (vendor product : Z) (found : option libusb_device)
        (w w' : world) :
  (forall n dev, answer env n (c_get_device_descriptor dev) = 0) ->
  usbutil_find_by_id env vendor product None w = Some (found, w') ->
  found = last_of (id_matches vendor product (bus env (length w))) /\
  w' = w ++ Ev c_get_device_list 0
         :: map (fun d => Ev (c_get_device_descriptor d) 0)
                (bus env (length w)).
Proof.
  intros Hok. unfold usbutil_find_by_id, bind, libusb_get_device_list.
  intros H. apply (find_by_id_loop_last env _ _ _ Hok) in H.
  destruct H as [-> ->]. rewrite <- app_assoc. split; reflexivity.
Qed.

Lemma usbutil_find_by_id_picks_last_match_witness :
  exists w',
    usbutil_find_by_id two_fets_env 1105 62512 None []
    = Some (Some second_fet, w').
Proof.
  destruct (usbutil_find_by_id two_fets_env 1105 62512 None [])
    as [[found w']|] eqn:E; [|vm_compute in E; discriminate E].
  destruct (usbutil_find_by_id_picks_last_match
              two_fets_env 1105 62512 found [] w'
              (fun _ _ => eq_refl) E) as [-> _].
  exists w'. reflexivity.
Defined.

End LookupChoice.


(* ================================================================= *)
(** ** The CP210x receive loop *)

Section Cp210xRecvFacts.
Import Libusb Usbutil Scenarios.

Lemma cp210x_recv_loop_result (env : usb_env) (tr : Cp210x.cp210x_transport)
      (m deadline : Z) :
  0 <= m ->
  forall (fuel : nat) (w w' : world) (ret : Z) (out : list Z),
    Cp210x.recv_loop env fuel tr m deadline w = Some ((ret, out), w') ->
    (ret = -1 /\ out = []) \/
    (0 <= ret <= m /\ Z.of_nat (length out) = ret /\
     exists w0 : world,
       libusb_bulk_in env (Cp210x.handle tr) Cp210x.V1_IN_EP m
                      (Cp210x.TIMEOUT_S * 1000) w0
       = Some ((0, out), w')).
Proof.
  intros Hm.
  induction fuel as [|f IH]; intros w w' ret out H; [discriminate|].
  cbn [Cp210x.recv_loop] in H. unfold bind at 1 in H.
  rewrite time_spec in H.
  set (w0 := w ++ [Ev c_time (answer env (length w) c_time)]) in H.
  destruct (answer env (length w) c_time <? deadline).
  2:{ left. injection H as <- <- _. split; reflexivity. }
  unfold bind at 1 in H.
  destruct (libusb_bulk_in_spec env (Cp210x.handle tr) Cp210x.V1_IN_EP m
                                (Cp210x.TIMEOUT_S * 1000) w0)
    as (rc & tmp & Hx & _ & Hlen).
  rewrite Hx in H.
  destruct (negb (rc =? 0) && negb (rc =? LIBUSB_ERROR_TIMEOUT)).
  { left. injection H as <- <- _. split; reflexivity. }
  destruct (Z.eqb_spec rc 0) as [E|E].
  - right. subst rc. injection H as <- <- <-.
    split; [lia|]. split; [reflexivity|].
    exists w0. exact Hx.
  - eapply IH. exact H.
Qed.

Lemma cp210x_recv_loop_returns (env : usb_env) (tr : Cp210x.cp210x_transport)
      (m deadline : Z) (N : nat) :
  (forall n, (N <= n)%nat -> deadline <= answer env n c_time) ->
  forall (fuel : nat) (w : world),
    (0 < fuel)%nat ->
    (N < length w + fuel)%nat ->
    exists res w', Cp210x.recv_loop env fuel tr m deadline w = Some (res, w').
Proof.
  intros Hclock. induction fuel as [|f IH]; intros w Hpos Hf.
  - lia.
  - cbn [Cp210x.recv_loop]. unfold bind at 1. rewrite time_spec.
    set (w0 := w ++ [Ev c_time (answer env (length w) c_time)]).
    destruct (Z.ltb_spec (answer env (length w) c_time) deadline) as [Hlt|Hge].
    2:{ eexists. eexists. reflexivity. }
    assert (Hw : (length w < N)%nat).
    { destruct (Nat.lt_ge_cases (length w) N) as [?|Hge]; [assumption|].
      specialize (Hclock _ Hge). lia. }
    unfold bind at 1.
    destruct (libusb_bulk_in_spec env (Cp210x.handle tr) Cp210x.V1_IN_EP m
                                  (Cp210x.TIMEOUT_S * 1000) w0)
      as (rc & tmp & Hx & _ & _).
    rewrite Hx.
    destruct (negb (rc =? 0) && negb (rc =? LIBUSB_ERROR_TIMEOUT));
      [eexists; eexists; reflexivity|].
    destruct (rc =? 0); [eexists; eexists; reflexivity|].
    apply IH; unfold w0; rewrite ?length_app; simpl; lia.
Qed.

(** X26.  The CP210x [usbtr_recv], asked for at most [max_len >= 0]
    bytes, returns the failure or the bytes of its last transfer, which
    was answered 0: between 0 and [max_len] of them.  What a transfer
    answered with the timeout carried is never returned.  It returns as
    soon as the clock has passed the 30 s deadline. *)
Theorem cp210x_recv_returns_last_completed_transfer (env : usb_env) :
  (forall fuel tr max_len w w' ret out,
      0 <= max_len ->
      Cp210x.usbtr_recv env fuel tr max_len w = Some ((ret, out), w') ->
      (ret = -1 /\ out = []) \/
      (0 <= ret <= max_len /\ Z.of_nat (length out) = ret /\
       exists w0,
         libusb_bulk_in env (Cp210x.handle tr) 129 max_len 30000 w0
         = Some ((0, out), w'))) /\
  (forall (N fuel : nat) (max_len : Z) (w : world),
      (forall n, (N <= n)%nat ->
                 answer env (length w) c_time + 30 <= answer env n c_time) ->
      (0 < fuel)%nat -> (N < length w + fuel)%nat ->
      forall tr, exists res w',
          Cp210x.usbtr_recv env fuel tr max_len w = Some (res, w')).
Proof.
  split.
  - intros fuel tr max_len w w' ret out Hm H.
    unfold Cp210x.usbtr_recv in H. unfold bind at 1 in H.
    rewrite time_spec in H.
    exact (cp210x_recv_loop_result env tr max_len _ Hm fuel _ w' ret out H).
  - intros N fuel max_len w Hclock Hpos Hf tr.
    unfold Cp210x.usbtr_recv. unfold bind at 1. rewrite time_spec.
    apply (cp210x_recv_loop_returns env tr max_len _ N Hclock fuel);
      [exact Hpos | rewrite length_app; simpl; lia].
Qed.

Lemma cp210x_recv_returns_last_completed_transfer_witness :
  exists res w',
    Cp210x.usbtr_recv ticking_env 40 (Cp210x.mk_tr 5 0) 16 []
    = Some (res, w').
Proof.
  destruct (cp210x_recv_returns_last_completed_transfer ticking_env)
    as [_ H].
  apply (H 30%nat 40%nat 16 []); [|lia|simpl; lia].
  intros n Hn. cbn. lia.
Defined.

End Cp210xRecvFacts.
